(** * synchronizer-cli: container supervisor and telemetry aggregator

    A shallow embedding of [src/index.js].  Every function of the source
    that a stated property talks about is transcribed here under its own
    name; the operating system, the container runtime, the registry API,
    the clock and the random source are an explicit [World] of oracles, and
    effectful code runs in a small state-and-exception monad that records
    every external command it issues. *)

From Stdlib Require Import ZArith String Ascii List Bool Floats Lia DecimalString.
Import ListNotations.

#[local] Set Warnings "-inexact-float".
#[local] Open Scope string_scope.

(** ** JavaScript strings

    A JS string is modelled by a Rocq [string]; the texts the program
    handles here (command lines, command output, headers) are ASCII. *)
Module JS.

(** A value that may be [undefined]: a missing config field, an array slot
    past the end, a header that was not sent. *)
Definition jsval := option string.

(** Truthiness of a string-or-undefined: [undefined] and the empty string
    are falsy. *)
Definition truthy (v : jsval) : bool :=
  match v with
  | Some EmptyString => false
  | Some _ => true
  | None => false
  end.

(** [`${v}`]: interpolation of a string-or-undefined in a template. *)
Definition to_str (v : jsval) : string :=
  match v with
  | Some s => s
  | None => "undefined"
  end.

(** [a || b] on strings. *)
Definition or_else (v : jsval) (d : string) : string :=
  match v with
  | Some EmptyString => d
  | Some s => s
  | None => d
  end.

(** [a === b] on string-or-undefined values. *)
Definition strict_eq (a b : jsval) : bool :=
  match a, b with
  | Some x, Some y => String.eqb x y
  | None, None => true
  | _, _ => false
  end.

(** [s.startsWith(p)]. *)
Fixpoint startsWith (s p : string) {struct p} : bool :=
  match p, s with
  | EmptyString, _ => true
  | String a p', String b s' => Ascii.eqb a b && startsWith s' p'
  | String _ _, EmptyString => false
  end.

(** [s.includes(p)]. *)
Fixpoint includes (s p : string) : bool :=
  startsWith s p ||
  match s with
  | EmptyString => false
  | String _ s' => includes s' p
  end.

(** [s.slice(n)] for [0 <= n]. *)
Fixpoint slice (n : nat) (s : string) : string :=
  match n, s with
  | O, _ => s
  | S n', String _ s' => slice n' s'
  | S _, EmptyString => EmptyString
  end.

(** White space removed by [trim]: tab, line feed, vertical tab, form feed,
    carriage return and space. *)
Definition is_space (c : ascii) : bool :=
  let n := nat_of_ascii c in
  Nat.eqb n 9 || Nat.eqb n 10 || Nat.eqb n 11 || Nat.eqb n 12 ||
  Nat.eqb n 13 || Nat.eqb n 32.

Fixpoint trimStart (s : string) : string :=
  match s with
  | String c s' => if is_space c then trimStart s' else s
  | EmptyString => EmptyString
  end.

Fixpoint trimEnd (s : string) : string :=
  match s with
  | EmptyString => EmptyString
  | String c s' =>
      match trimEnd s' with
      | EmptyString => if is_space c then EmptyString else String c EmptyString
      | t => String c t
      end
  end.

(** [s.trim()]. *)
Definition trim (s : string) : string := trimEnd (trimStart s).

(** [s.split(sep)] for a one-character separator: always at least one
    piece. *)
Fixpoint split (sep : ascii) (s : string) : list string :=
  match s with
  | EmptyString => [EmptyString]
  | String c s' =>
      if Ascii.eqb c sep then EmptyString :: split sep s'
      else match split sep s' with
           | piece :: rest => String c piece :: rest
           | [] => [String c EmptyString]
           end
  end.

(** [arr.join(sep)]: an [undefined] element is rendered as the empty
    string. *)
Fixpoint join (sep : string) (l : list jsval) : string :=
  match l with
  | [] => EmptyString
  | [x] => match x with Some s => s | None => EmptyString end
  | x :: rest =>
      (match x with Some s => s | None => EmptyString end) ++ sep ++ join sep rest
  end.

(** The double quote character, as a one-character string. *)
Definition dq : string := String (ascii_of_nat 34) EmptyString.

(** ** JavaScript numbers

    A JS number is an IEEE 754 binary64 value: Rocq's primitive [float].
    [Math.floor] and [Math.round] are computed on the exact value
    [m * 2^e] of the double. *)

(** The double of an integer; exact for [|z| <= 2^53]. *)
Definition of_Z (z : Z) : float :=
  if (z <? 0)%Z then (- PrimFloat.of_uint63 (Uint63.of_Z (- z)))%float
  else PrimFloat.of_uint63 (Uint63.of_Z z).

(** A zero with the sign of the argument. *)
Definition signed_zero (neg : bool) : float :=
  if neg then (-0)%float else 0%float.

(** [Math.floor(x)]. *)
Definition Math_floor (x : float) : float :=
  match Prim2SF x with
  | S754_finite s m e =>
      if (0 <=? e)%Z then x
      else
        let num := if s then Z.neg m else Z.pos m in
        let r := (num / 2 ^ (- e))%Z in
        if (r =? 0)%Z then signed_zero s else of_Z r
  | _ => x
  end.

(** [Math.round(x)]: the nearest integer, a tie going towards plus
    infinity. *)
Definition Math_round (x : float) : float :=
  match Prim2SF x with
  | S754_finite s m e =>
      if (0 <=? e)%Z then x
      else
        let num := if s then Z.neg m else Z.pos m in
        let r := ((2 * num + 2 ^ (- e)) / 2 ^ (- e + 1))%Z in
        if (r =? 0)%Z then signed_zero s else of_Z r
  | _ => x
  end.

(** Truthiness of a number: zero (of either sign) and NaN are falsy. *)
Definition truthy_num (x : float) : bool :=
  negb (PrimFloat.is_zero x || PrimFloat.is_nan x).

(** [a || b] on a number that may be [undefined]. *)
Definition num_or (v : option float) (d : float) : float :=
  match v with
  | Some x => if truthy_num x then x else d
  | None => d
  end.

(** [Math.max(0, x)] as used by the program (first argument the literal
    [0]). *)
Definition Math_max0 (x : float) : float :=
  if PrimFloat.is_nan x then x
  else if PrimFloat.ltb 0 x then x else 0%float.

End JS.

(** ** Base64

    [Buffer.from(text, 'base64').toString()]: decoding stops at the first
    padding character [=]; before it, characters outside the alphabet are
    skipped, the URL-safe characters [-] and [_] are accepted, and every
    four sextets give three bytes.  The bytes are read back as text
    unchanged, which is what [toString] does on ASCII credentials. *)
Module Base64.

Definition sextet (c : ascii) : option N :=
  let n := N_of_ascii c in
  if ((65 <=? n) && (n <=? 90))%N then Some (n - 65)%N
  else if ((97 <=? n) && (n <=? 122))%N then Some (n - 71)%N
  else if ((48 <=? n) && (n <=? 57))%N then Some (n + 4)%N
  else if ((n =? 43) || (n =? 45))%N then Some 62%N
  else if ((n =? 47) || (n =? 95))%N then Some 63%N
  else None.

Fixpoint sextets (s : string) : list N :=
  match s with
  | EmptyString => []
  | String c s' =>
      match sextet c with
      | Some v => v :: sextets s'
      | None => if Ascii.eqb c "=" then [] else sextets s'
      end
  end.

Fixpoint bytes (l : list N) : string :=
  match l with
  | a :: b :: c :: d :: rest =>
      let n := (a * 262144 + b * 4096 + c * 64 + d)%N in
      String (ascii_of_N (n / 65536))
        (String (ascii_of_N ((n / 256) mod 256))
           (String (ascii_of_N (n mod 256)) (bytes rest)))
  | [a; b; c] =>
      let n := (a * 4096 + b * 64 + c)%N in
      String (ascii_of_N (n / 1024))
        (String (ascii_of_N ((n / 4) mod 256)) EmptyString)
  | [a; b] => String (ascii_of_N ((a * 64 + b) / 16)%N) EmptyString
  | _ => EmptyString
  end.

Definition decode (s : string) : string := bytes (sextets s).

End Base64.

(** ** Configuration

    The record [loadConfig] reads from the config file.  A field that is
    missing from the file is [undefined], here [None]. *)
Record Config := {
  key : JS.jsval;
  wallet : JS.jsval;
  account : JS.jsval;
  hostname : JS.jsval;
  syncHash : JS.jsval;
  depin : JS.jsval;
  dashboardPassword : JS.jsval
}.

(** The empty object [{}]: every field is missing. *)
Definition emptyConfig : Config :=
  {| key := None; wallet := None; account := None; hostname := None;
     syncHash := None; depin := None; dashboardPassword := None |}.

(** ** The outside world *)

(** What the program does to the outside world, in order.  Console
    messages are recorded as plain text, without colour and pictographs. *)
Inductive Event :=
| EvExec (cmd : string)                          (* execSync(cmd) *)
| EvSpawn (cmd : string) (args : list JS.jsval)  (* spawn(cmd, args) *)
| EvFetch (url : string) (synqKey : string)      (* fetch(url, {headers}) *)
| EvPrompt (message : string)                    (* inquirer.prompt *)
| EvLog (msg : string)                           (* console.log *)
| EvError (msg : string).                        (* console.error *)

(** Result of [execSync]: the command's standard output, or the error it
    throws (command missing, non-zero exit status, timeout). *)
Inductive CmdResult :=
| Out (stdout : string)
| Fails (message : string).

(** The wallet record of the registry API, as parsed from the response
    body. *)
Record WalletJson := {
  serviceCredits : option float;
  lastWithdrawnCredits : option float;
  lastUpdated : option float
}.

(** An HTTP response: [ok], [status], and what [text()] and [json()] give
    ([inr] is the error they throw). *)
Record Response := {
  ok : bool;
  status : string;
  text : string + string;
  json : WalletJson + string
}.

(** Result of [fetch]: a response, or the network error it throws. *)
Inductive FetchResult :=
| Responds (r : Response)
| NetworkError (message : string).

(** What becomes of a spawned child process: it exits with a code, fails
    to start, or the supervisor receives an interrupt/terminate signal
    first. *)
Inductive ChildOutcome :=
| ChildExit (code : Z)
| ChildError (enoent : bool) (message : string)
| Signalled.

(** Counters found in a worker's log tail. *)
Record RealStats := {
  rs_syncLifePoints : option float;
  rs_walletLifePoints : option float;
  rs_syncLifeTraffic : option float;
  rs_bytesIn : option float;
  rs_bytesOut : option float;
  rs_sessions : option float;
  rs_users : option float
}.

(** The oracles the program queries.  Answers may depend on everything the
    program has done so far (the list of events, oldest first). *)
Record World := {
  os_hostname : string;
  os_arch : string;
  os_platform : string;
  os_username : string;
  package_version : string;
  exec_result : list Event -> string -> CmdResult;
  fs_existsSync : string -> bool;
  (* fs.readFileSync(path, 'utf8'): the text, or the error it throws *)
  fs_readFileSync : string -> string + string;
  (* CONFIG_FILE, the path of config.json under the home directory *)
  CONFIG_FILE : string;
  (* JSON.parse(text) read as a config: the object, None for the value
     null, or the SyntaxError it throws *)
  JSON_parse : string -> option Config + string;
  fetch_result : list Event -> string -> string -> FetchResult;
  confirm_answer : list Event -> bool;
  child_outcome : list Event -> ChildOutcome;
  (* new Date().toISOString() and Date.now() *)
  clock_iso : list Event -> string;
  clock_ms : list Event -> float;
  (* new Date(text): its time value, None for an invalid date *)
  date_parse : string -> option float;
  date_iso : float -> string;
  (* the n-th value returned by Math.random() *)
  random : nat -> float;
  (* n.toFixed(1) *)
  toFixed1 : float -> string;
  (* the scan of a log tail for counters (JSON objects and
     [key: number] patterns), lines read from the most recent *)
  scan_logs : string -> option RealStats
}.

(** ** The effect monad

    A computation reads the world, appends to the trace of events, draws
    random numbers, and ends with a value, a thrown exception, or the end
    of the process ([process.exit]). *)
Record St := {
  trace : list Event;
  draws : nat
}.

Inductive Res (A : Type) :=
| Val (a : A)
| Throw (message : string)
| Exit (code : Z).
Arguments Val {A} a.
Arguments Throw {A} message.
Arguments Exit {A} code.

Definition M (A : Type) : Type := World -> St -> Res A * St.

Definition ret {A} (a : A) : M A := fun _ st => (Val a, st).

Definition bind {A B} (m : M A) (k : A -> M B) : M B :=
  fun w st =>
    match m w st with
    | (Val a, st') => k a w st'
    | (Throw e, st') => (Throw e, st')
    | (Exit c, st') => (Exit c, st')
    end.

Notation "x <- m ;; k" := (bind m (fun x => k))
  (at level 61, m at next level, right associativity).
Notation "m ;; k" := (bind m (fun _ => k))
  (at level 61, right associativity).

(** [try { body } catch (error) { handler(error.message) }]. *)
Definition try_catch {A} (body : M A) (handler : string -> M A) : M A :=
  fun w st =>
    match body w st with
    | (Throw e, st') => handler e w st'
    | r => r
    end.

Definition emit (e : Event) : M unit :=
  fun _ st => (Val tt, {| trace := trace st ++ [e]; draws := draws st |}).

Definition ask {A} (f : World -> A) : M A := fun w st => (Val (f w), st).

Definition ask_now {A} (f : World -> list Event -> A) : M A :=
  fun w st => (Val (f w (trace st)), st).

Definition throw {A} (message : string) : M A := fun _ st => (Throw message, st).

Definition process_exit {A} (code : Z) : M A := fun _ st => (Exit code, st).

Definition console_log (msg : string) : M unit := emit (EvLog msg).
Definition console_error (msg : string) : M unit := emit (EvError msg).

(** [execSync(cmd)]: the command is issued, then its output is returned or
    its error thrown. *)
Definition execSync (cmd : string) : M string :=
  fun w st =>
    let st' := {| trace := trace st ++ [EvExec cmd]; draws := draws st |} in
    match exec_result w (trace st) cmd with
    | Out s => (Val s, st')
    | Fails e => (Throw e, st')
    end.

(** [fetch(url, { headers: { 'X-Synq-Key': synqKey, ... } })]. *)
Definition fetch (url synqKey : string) : M Response :=
  fun w st =>
    let st' := {| trace := trace st ++ [EvFetch url synqKey]; draws := draws st |} in
    match fetch_result w (trace st) url synqKey with
    | Responds r => (Val r, st')
    | NetworkError e => (Throw e, st')
    end.

(** A result that is a value or a thrown error, lifted into the monad. *)
Definition lift_sum {A} (r : A + string) : M A :=
  match r with
  | inl a => ret a
  | inr e => throw e
  end.

(** [Math.random()]. *)
Definition Math_random : M float :=
  fun w st =>
    (Val (random w (draws st)), {| trace := trace st; draws := S (draws st) |}).

(** [when c m]: [if (c) { m }]. *)
Definition when (c : bool) (m : M unit) : M unit :=
  if c then m else ret tt.

(** [inquirer.prompt] with one [confirm] question. *)
Definition prompt_confirm (message : string) : M bool :=
  emit (EvPrompt message) ;; ask_now confirm_answer.

(** The line feed, as a one-character string. *)
Definition nl : string := String (ascii_of_nat 10) EmptyString.

(** [`${n}`] for an integer. *)
Definition show_Z (n : Z) : string :=
  DecimalString.NilZero.string_of_int (Z.to_int n).

(** ** The config file *)

(** [fs.readFileSync(path, 'utf8')]. *)
Definition readFileSync (path : string) : M string :=
  r <- ask (fun w => fs_readFileSync w path) ;; lift_sum r.

(** [loadConfig()]: what the config file holds when there is one, the
    empty object otherwise.  Neither the read nor the parse is guarded, so
    the caller receives what they throw.  [None] is the value [null], which
    [JSON.parse] gives for the text [null]; any other value that is not an
    object has none of the fields and reads as the empty object. *)
Definition loadConfig : M (option Config) :=
  path <- ask CONFIG_FILE ;;
  found <- ask (fun w => fs_existsSync w path) ;;
  if (found : bool) then
    text <- readFileSync path ;;
    parsed <- ask (fun w => JSON_parse w text) ;;
    lift_sum parsed
  else ret (Some emptyConfig).

(** [config.name] for a value that [loadConfig] returned: reading a
    property of [null] throws a [TypeError]. *)
Definition property {A} (config : option Config) (field : Config -> A)
  (name : string) : M A :=
  match config with
  | Some config => ret (field config)
  | None => throw ("Cannot read properties of null (reading '" ++ name ++ "')")
  end.

(** ** The installer of the container runtime *)

(** [detectLinuxDistro()]. *)
Definition detectLinuxDistro : M string :=
  try_catch
    (release <- readFileSync "/etc/os-release" ;;
     if JS.includes release "ubuntu" || JS.includes release "Ubuntu" then ret "ubuntu"
     else if JS.includes release "debian" || JS.includes release "Debian" then ret "debian"
     else if JS.includes release "centos" || JS.includes release "CentOS" then ret "centos"
     else if JS.includes release "rhel" || JS.includes release "Red Hat" then ret "rhel"
     else if JS.includes release "fedora" || JS.includes release "Fedora" then ret "fedora"
     else ret "unknown")
    (fun _ => ret "unknown").

(** [showManualInstructions(platform)]. *)
Definition showManualInstructions (platform : string) : M unit :=
  console_log (nl ++ "Manual Installation Instructions:") ;;
  (if String.eqb platform "linux" then
     console_log "For Ubuntu/Debian:" ;;
     console_log "  curl -fsSL https://get.docker.com -o get-docker.sh" ;;
     console_log "  sudo sh get-docker.sh" ;;
     console_log (nl ++ "For CentOS/RHEL/Fedora:") ;;
     console_log "  sudo yum install -y docker-ce" ;;
     console_log "  sudo systemctl start docker"
   else if String.eqb platform "darwin" then
     console_log "For macOS:" ;;
     console_log ("  Download Docker Desktop from: "
                  ++ "https://docs.docker.com/desktop/mac/install/") ;;
     console_log "  Or install via Homebrew: brew install --cask docker"
   else if String.eqb platform "win32" then
     console_log "For Windows:" ;;
     console_log ("  Download Docker Desktop from: "
                  ++ "https://docs.docker.com/desktop/windows/install/")
   else ret tt) ;;
  console_log (nl ++ "For more details: https://docs.docker.com/get-docker/").

(** [installDockerLinux(distro)]. *)
Definition installDockerLinux (distro : string) : M unit :=
  console_log "Installing Docker..." ;;
  try_catch
    ((if String.eqb distro "ubuntu" || String.eqb distro "debian" then
        console_log "Updating package index..." ;;
        execSync "sudo apt-get update" ;;
        console_log "Installing prerequisites..." ;;
        execSync ("sudo apt-get install -y apt-transport-https ca-certificates "
                  ++ "curl gnupg lsb-release") ;;
        console_log "Adding Docker GPG key..." ;;
        execSync ("curl -fsSL https://download.docker.com/linux/ubuntu/gpg | "
                  ++ "sudo gpg --dearmor -o /usr/share/keyrings/docker-archive-keyring.gpg") ;;
        console_log "Adding Docker repository..." ;;
        archOutput <- execSync "dpkg --print-architecture" ;;
        let arch := JS.trim archOutput in
        codenameOutput <- execSync "lsb_release -cs" ;;
        let codename := JS.trim codenameOutput in
        execSync ("echo " ++ JS.dq ++ "deb [arch=" ++ arch
                  ++ " signed-by=/usr/share/keyrings/docker-archive-keyring.gpg] "
                  ++ "https://download.docker.com/linux/ubuntu " ++ codename ++ " stable"
                  ++ JS.dq ++ " | sudo tee /etc/apt/sources.list.d/docker.list > /dev/null") ;;
        console_log "Installing Docker..." ;;
        execSync "sudo apt-get update" ;;
        execSync "sudo apt-get install -y docker-ce docker-ce-cli containerd.io" ;;
        ret tt
      else if String.eqb distro "centos" || String.eqb distro "rhel"
              || String.eqb distro "fedora" then
        console_log "Installing Docker via yum/dnf..." ;;
        let installer := if String.eqb distro "fedora" then "dnf" else "yum" in
        execSync ("sudo " ++ installer ++ " install -y yum-utils") ;;
        execSync ("sudo " ++ installer ++ "-config-manager --add-repo "
                  ++ "https://download.docker.com/linux/centos/docker-ce.repo") ;;
        execSync ("sudo " ++ installer
                  ++ " install -y docker-ce docker-ce-cli containerd.io") ;;
        ret tt
      else ret tt) ;;
     console_log "Starting Docker service..." ;;
     execSync "sudo systemctl start docker" ;;
     execSync "sudo systemctl enable docker" ;;
     console_log "Adding user to docker group..." ;;
     username <- ask os_username ;;
     execSync ("sudo usermod -aG docker " ++ username) ;;
     console_log "Docker installed successfully!" ;;
     console_log "You may need to log out and log back in for group changes to take effect." ;;
     console_log "You can test Docker with: docker run hello-world")
    (fun e =>
       console_error "Failed to install Docker automatically." ;;
       console_error ("Error: " ++ e) ;;
       showManualInstructions "linux").

(** [installDocker()]. *)
Definition installDocker : M unit :=
  platform <- ask os_platform ;;
  console_log "Docker Installation Helper" ;;
  console_log ("This will help you install Docker on your system." ++ nl) ;;
  if String.eqb platform "linux" then
    distro <- detectLinuxDistro ;;
    console_log ("Detected Linux distribution: " ++ distro) ;;
    install <- prompt_confirm "Would you like to install Docker automatically?" ;;
    if (install : bool) then installDockerLinux distro
    else showManualInstructions platform
  else
    console_log ("Automatic installation not supported on " ++ platform ++ ".") ;;
    showManualInstructions platform.

(** ** Image freshness *)

(** [isNewDockerImageAvailable(imageName)].  The inner [try] returns early
    ([Some b]) or falls through ([None]). *)
Definition isNewDockerImageAvailable (imageName : string) : M bool :=
  try_catch
    (early <-
       try_catch
         (output <- execSync ("docker images " ++ imageName ++ " --format "
                              ++ JS.dq ++ "{{.ID}}" ++ JS.dq) ;;
          let localImageId := JS.trim output in
          if String.eqb localImageId "" then ret (Some true) else ret None)
         (fun _ => ret (Some true)) ;;
     match early with
     | Some b => ret b
     | None => ret false
     end)
    (fun _ => ret true).

(** ** Supervisor *)

(** [checkDocker()]. *)
Definition checkDocker : M bool :=
  try_catch (execSync "docker --version" ;; ret true) (fun _ => ret false).

Definition containerName : string := "synchronizer-cli".
Definition imageName : string := "cdrakep/synqchronizer:latest".

(** The platform detection of [start] and [installService]: the value of
    [dockerPlatform] after the [if] cascade. *)
Definition dockerPlatform (platform arch : string) : string :=
  if String.eqb platform "linux" then
    if String.eqb arch "arm64" || String.eqb arch "aarch64" then "linux/arm64"
    else if String.eqb arch "x64" || String.eqb arch "x86_64" then "linux/amd64"
    else "linux/amd64"
  else if String.eqb platform "darwin" then
    (if String.eqb arch "arm64" then "linux/arm64" else "linux/amd64")
  else "linux/amd64".

(** [`cli-${packageJson.version}/docker-2.1.3`]. *)
Definition launcherWithVersion (version : string) : string :=
  "cli-" ++ version ++ "/docker-2.1.3".

(** The [args] array of [start], built by the same pushes. *)
Definition start_args (config : Config) (platform launcher : string)
  : list JS.jsval :=
  let args :=
    [Some "run"; Some "--rm"; Some "--name"; Some containerName;
     Some "--pull"; Some "always";
     Some "--platform"; Some platform;
     Some imageName] in
  let args :=
    if JS.truthy (depin config)
    then (args ++ [Some "--depin"] ++ [depin config])%list
    else (args ++ [Some "--depin"] ++ [Some "wss://api.multisynq.io/depin"])%list in
  let args := (args ++ [Some "--sync-name"] ++ [syncHash config])%list in
  let args := (args ++ [Some "--launcher"] ++ [Some launcher])%list in
  let args := (args ++ [Some "--key"] ++ [key config])%list in
  let args :=
    if JS.truthy (wallet config)
    then (args ++ [Some "--wallet"] ++ [wallet config])%list else args in
  let args :=
    if JS.truthy (account config)
    then (args ++ [Some "--account"] ++ [account config])%list else args in
  args.

(** The [dockerArgs] string of [installService]. *)
Definition installService_dockerArgs (config : Config)
  (platform launcher : string) : string :=
  JS.join " "
    ([Some "run"; Some "--rm"; Some "--name"; Some "synchronizer-cli";
      Some "--pull"; Some "always";
      Some "--platform"; Some platform;
      Some "cdrakep/synqchronizer:latest";
      Some "--depin"; Some (JS.or_else (depin config) "wss://api.multisynq.io/depin");
      Some "--sync-name"; syncHash config;
      Some "--launcher"; Some launcher;
      Some "--key"; key config]
     ++ (if JS.truthy (wallet config) then [Some "--wallet"; wallet config] else [])
     ++ (if JS.truthy (account config) then [Some "--account"; account config] else []))%list.

(** The signal handler [cleanup] of [start]. *)
Definition cleanup : M unit :=
  console_log (nl ++ "Stopping synchronizer container...") ;;
  try_catch
    (execSync ("docker stop " ++ containerName) ;;
     console_log "Container stopped")
    (fun e => console_log ("Error stopping container: " ++ e)) ;;
  process_exit 0.

Fixpoint console_errors (msgs : list string) : M unit :=
  match msgs with
  | [] => ret tt
  | m :: rest => console_error m ;; console_errors rest
  end.

(** [start()], with [config] the record [loadConfig()] returned.  The
    handlers registered on the child process and on the signals run once
    the world says what became of the child. *)
Definition start (config : Config) : M unit :=
  when (negb (JS.truthy (key config)))
    (console_error "Missing synq key. Run `synchronize init` first." ;;
     process_exit 1) ;;
  host <- ask os_hostname ;;
  when (negb (JS.strict_eq (hostname config) (Some host)))
    (console_error ("This config was created for " ++ JS.to_str (hostname config)
                    ++ ", not " ++ host ++ ".") ;;
     process_exit 1) ;;
  docker <- checkDocker ;;
  when (negb docker)
    (console_error "Docker is not installed or not accessible." ;;
     install <- prompt_confirm "Would you like to install Docker now?" ;;
     if (install : bool) then
       installDocker ;;
       docker' <- checkDocker ;;
       when (negb docker')
         (console_error "Docker installation may have failed or requires a restart." ;;
          console_error "Please try running the command again after restarting your terminal." ;;
          process_exit 1)
     else
       console_error "Please install Docker first: https://docs.docker.com/get-docker/" ;;
       process_exit 1) ;;
  let syncName := syncHash config in
  attached <-
    try_catch
      (runningContainers <-
         execSync ("docker ps --filter name=" ++ containerName ++ " --format "
                   ++ JS.dq ++ "{{.Names}}" ++ JS.dq) ;;
       if JS.includes runningContainers containerName then
         console_log "Found existing synchronizer container running" ;;
         console_log "Connecting to logs... (Ctrl+C will stop the container)" ;;
         emit (EvSpawn "docker" [Some "logs"; Some "-f"; Some containerName]) ;;
         ret true
       else ret false)
      (fun _ => ret false) ;;
  if (attached : bool) then
    outcome <- ask_now child_outcome ;;
    match outcome with
    | Signalled => cleanup
    | ChildExit code => process_exit code
    | ChildError _ message => throw message
    end
  else
    arch <- ask os_arch ;;
    platform <- ask os_platform ;;
    let dockerPlatform := dockerPlatform platform arch in
    console_log ("Detected platform: " ++ platform ++ "/" ++ arch
                 ++ " -> Using Docker platform: " ++ dockerPlatform) ;;
    version <- ask package_version ;;
    let launcherWithVersion := launcherWithVersion version in
    console_log ("Using launcher identifier: " ++ launcherWithVersion) ;;
    shouldPull <- isNewDockerImageAvailable imageName ;;
    when shouldPull
      (console_log "Pulling latest Docker image..." ;;
       try_catch
         (execSync ("docker pull " ++ imageName) ;;
          console_log "Docker image pulled successfully")
         (fun e =>
            console_log "Could not pull latest image - will use local cache if available" ;;
            console_log e)) ;;
    let args := start_args config dockerPlatform launcherWithVersion in
    console_log ("Running synchronizer " ++ JS.dq ++ JS.to_str syncName ++ JS.dq
                 ++ " with wallet " ++ JS.or_else (wallet config) "[none]") ;;
    console_log ("Running command: docker " ++ JS.join " " args) ;;
    emit (EvSpawn "docker" args) ;;
    outcome <- ask_now child_outcome ;;
    match outcome with
    | Signalled => cleanup
    | ChildError enoent message =>
        (if enoent
         then console_error "Docker command not found. Please ensure Docker is installed and in your PATH."
         else console_error ("Error running Docker: " ++ message)) ;;
        process_exit 1
    | ChildExit code =>
        (if (code =? 126)%Z then
           user <- ask os_username ;;
           console_errors
             ["Docker permission denied.";
              "This usually means your user is not in the docker group.";
              nl ++ "To fix this:";
              "1. Add your user to the docker group:";
              "   sudo usermod -aG docker " ++ user;
              "2. Log out and log back in (or restart your terminal)";
              "3. Test with: docker run hello-world";
              nl ++ "Alternative: Run with sudo (not recommended):";
              "   sudo synchronize start";
              nl ++ "Or use the fix command:";
              "   synchronize fix-docker"]
         else if (code =? 125)%Z then
           console_errors
             ["Docker container failed to start.";
              "This might be due to platform architecture issues.";
              nl ++ "Troubleshooting steps:";
              "1. Test platform compatibility:";
              "   synchronize test-platform";
              "2. Check Docker logs:";
              "   docker logs synchronizer-cli";
              "3. Try running with different platform:";
              "   docker run --platform linux/amd64 cdrakep/synqchronizer:latest --help"]
         else
           when (negb (code =? 0)%Z)
             (console_error ("Docker process exited with code " ++ show_Z code))) ;;
        process_exit code
    end.

(** ** Dashboard authentication *)

(** An HTTP request as the middleware sees it: the [Authorization] header
    and the [authenticated] mark ([undefined], here [false], until the
    middleware sets it). *)
Record Request := {
  authorization : JS.jsval;
  authenticated : bool
}.

(** What a handler does with a request: pass it on ([next()]) or answer
    it. *)
Inductive Handled :=
| Next (req : Request)
| Responded (status : Z) (headers : list (string * string)) (body : string).

Definition challenge (body : string) : Handled :=
  Responded 401
    [("WWW-Authenticate",
      "Basic realm=" ++ JS.dq ++ "Synchronizer Dashboard" ++ JS.dq)]
    body.

(** The decision of [authenticateRequest(req, res, next)] once its
    [loadConfig()] has returned the record [config]; the middleware from
    its first line is [authenticateRequest_served] below. *)
Definition authenticateRequest (config : Config) (req : Request) : Handled :=
  if negb (JS.truthy (dashboardPassword config)) then Next req
  else
    match authorization req with
    | None => challenge "Authentication required"
    | Some auth =>
        if negb (JS.truthy (Some auth)) || negb (JS.startsWith auth "Basic ")
        then challenge "Authentication required"
        else
          let credentials := Base64.decode (JS.slice 6 auth) in
          let parts := JS.split ":" credentials in
          let username := nth_error parts 0 in
          let password := nth_error parts 1 in
          if JS.strict_eq password (dashboardPassword config)
          then Next {| authorization := authorization req; authenticated := true |}
          else challenge "Invalid credentials"
    end.

(** The middleware from its first line: [const config = loadConfig()],
    then the decision above.  An error thrown here goes to the error
    handler of the server. *)
Definition authenticateRequest_served (req : Request) : M Handled :=
  config <- loadConfig ;;
  match config with
  | Some config => ret (authenticateRequest config req)
  | None => throw "Cannot read properties of null (reading 'dashboardPassword')"
  end.

Definition keyMask : string := "••••••••-••••-••••-••••-••••••••••••".
Definition walletMask : string := "0x••••••••••••••••••••••••••••••••••••••••".

(** The first three locals of [generateDashboardHTML]. *)
Definition showSensitiveData (config : Config) (authenticated : bool) : bool :=
  negb (JS.truthy (dashboardPassword config)) || authenticated.

Definition maskedKey (config : Config) (authenticated : bool) : JS.jsval :=
  if showSensitiveData config authenticated then key config else Some keyMask.

Definition maskedWallet (config : Config) (authenticated : bool) : JS.jsval :=
  if showSensitiveData config authenticated then wallet config else Some walletMask.

(** [generateDashboardHTML(config, metricsPort, authenticated, primaryIP)].
    [markup n] is the literal text of the template between two consecutive
    interpolations (styles, tags, the page's script).  The template
    interpolates [config.key] and [config.wallet]; [maskedKey] and
    [maskedWallet] are computed and not used. *)
Definition generateDashboardHTML (w : World) (markup : nat -> string)
  (config : Config) (metricsPort : string) (authenticated : bool)
  (primaryIP : JS.jsval) : string :=
  let showSensitiveData := showSensitiveData config authenticated in
  let maskedKey := maskedKey config authenticated in
  let maskedWallet := maskedWallet config authenticated in
  let displayIP := JS.or_else primaryIP "localhost" in
  markup 0 ++ JS.or_else (syncHash config) "Not configured"
  ++ markup 1 ++ (if JS.truthy (key config) then keyMask else "Not set")
  ++ markup 2 ++ JS.or_else (key config) "Not set"
  ++ markup 3 ++ JS.or_else (wallet config) "Not set"
  ++ markup 4 ++ JS.or_else (hostname config) "Unknown"
  ++ markup 5 ++ os_platform w ++ "/" ++ os_arch w
  ++ markup 6 ++ displayIP ++ ":" ++ metricsPort
  ++ markup 7 ++ displayIP ++ ":" ++ metricsPort
  ++ markup 8.

(** The dashboard route: [guiApp.use(authenticateRequest)] followed by
    [guiApp.get('/')].  The middleware reads the config file on every
    request ([current]); the page is rendered from the record loaded when
    the server started ([config]). *)
Definition guiApp_get_root (w : World) (markup : nat -> string)
  (current config : Config) (metricsPort : string) (primaryIP : JS.jsval)
  (req : Request) : Handled :=
  match authenticateRequest current req with
  | Next req' =>
      Responded 200 []
        (generateDashboardHTML w markup config metricsPort (authenticated req') primaryIP)
  | answered => answered
  end.

(** ** Telemetry: service status *)

Inductive ServiceState := unknown | running | stopped | failed.

Definition ServiceState_eqb (a b : ServiceState) : bool :=
  match a, b with
  | unknown, unknown | running, running | stopped, stopped | failed, failed => true
  | _, _ => false
  end.

Record ImageStatus := {
  img_name : string;
  updateAvailable : bool;
  img_error : option string
}.

Record ImageUpdates := {
  available : Z;
  lastChecked : option string;
  images : list ImageStatus;
  iu_error : option string
}.

Record Status := {
  timestamp : string;
  serviceStatus : ServiceState;
  dockerAvailable : bool;
  autoStart : bool;
  uptime : option string;
  containerRunning : bool;
  imageUpdates : ImageUpdates
}.

Definition set_serviceStatus (v : ServiceState) (s : Status) : Status :=
  {| timestamp := timestamp s; serviceStatus := v;
     dockerAvailable := dockerAvailable s; autoStart := autoStart s;
     uptime := uptime s; containerRunning := containerRunning s;
     imageUpdates := imageUpdates s |}.

Definition set_dockerAvailable (v : bool) (s : Status) : Status :=
  {| timestamp := timestamp s; serviceStatus := serviceStatus s;
     dockerAvailable := v; autoStart := autoStart s;
     uptime := uptime s; containerRunning := containerRunning s;
     imageUpdates := imageUpdates s |}.

Definition set_autoStart (v : bool) (s : Status) : Status :=
  {| timestamp := timestamp s; serviceStatus := serviceStatus s;
     dockerAvailable := dockerAvailable s; autoStart := v;
     uptime := uptime s; containerRunning := containerRunning s;
     imageUpdates := imageUpdates s |}.

Definition set_uptime (v : option string) (s : Status) : Status :=
  {| timestamp := timestamp s; serviceStatus := serviceStatus s;
     dockerAvailable := dockerAvailable s; autoStart := autoStart s;
     uptime := v; containerRunning := containerRunning s;
     imageUpdates := imageUpdates s |}.

Definition set_containerRunning (v : bool) (s : Status) : Status :=
  {| timestamp := timestamp s; serviceStatus := serviceStatus s;
     dockerAvailable := dockerAvailable s; autoStart := autoStart s;
     uptime := uptime s; containerRunning := v;
     imageUpdates := imageUpdates s |}.

Definition set_imageUpdates (v : ImageUpdates) (s : Status) : Status :=
  {| timestamp := timestamp s; serviceStatus := serviceStatus s;
     dockerAvailable := dockerAvailable s; autoStart := autoStart s;
     uptime := uptime s; containerRunning := containerRunning s;
     imageUpdates := v |}.

(** The pattern [/since (.+?);/]: the text after the leftmost [since ]
    that is followed, on the same line, by at least one character and then
    a semicolon; the capture stops at the first semicolon it can. *)
Definition is_line_end (c : ascii) : bool :=
  Nat.eqb (nat_of_ascii c) 10 || Nat.eqb (nat_of_ascii c) 13.

Fixpoint upto_semicolon (s : string) : option string :=
  match s with
  | EmptyString => None
  | String c s' =>
      if Ascii.eqb c ";" then Some EmptyString
      else if is_line_end c then None
      else option_map (String c) (upto_semicolon s')
  end.

Definition capture_since (s : string) : option string :=
  match s with
  | EmptyString => None
  | String c s' =>
      if is_line_end c then None
      else option_map (String c) (upto_semicolon s')
  end.

Fixpoint match_since (line : string) : option string :=
  match line with
  | EmptyString => None
  | String _ rest =>
      match (if JS.startsWith line "since " then capture_since (JS.slice 6 line)
             else None) with
      | Some m => Some m
      | None => match_since rest
      end
  end.

(** The loop of [getSystemStatus] over the known images. *)
Fixpoint checkImages (images : list string) (updatesAvailable : Z)
  (imageStatuses : list ImageStatus) : M (Z * list ImageStatus) :=
  match images with
  | [] => ret (updatesAvailable, imageStatuses)
  | imageName :: rest =>
      step <-
        try_catch
          (hasUpdate <- isNewDockerImageAvailable imageName ;;
           ret (if (hasUpdate : bool) then (updatesAvailable + 1)%Z else updatesAvailable,
                (imageStatuses ++
                 [{| img_name := imageName; updateAvailable := hasUpdate;
                     img_error := None |}])%list))
          (fun e =>
             ret (updatesAvailable,
                  (imageStatuses ++
                   [{| img_name := imageName; updateAvailable := false;
                       img_error := Some e |}])%list)) ;;
      checkImages rest (fst step) (snd step)
  end.

(** The four probes of [getSystemStatus], one per [try] block of the
    source, each taking the [status] object as the blocks before left
    it. *)

(** [// Check Docker]. *)
Definition probeDocker (status : Status) : M Status :=
  try_catch
    (execSync "docker --version" ;; ret (set_dockerAvailable true status))
    (fun _ => ret (set_dockerAvailable false status)).

(** [// Check systemd service]. *)
Definition probeService (status : Status) : M Status :=
  try_catch
    (serviceExists <-
       ask (fun w => fs_existsSync w "/etc/systemd/system/synchronizer-cli.service") ;;
     if (serviceExists : bool) then
       statusOutput <- execSync "systemctl status synchronizer-cli --no-pager" ;;
       let status :=
         if JS.includes statusOutput "active (running)" then set_serviceStatus running status
         else if JS.includes statusOutput "inactive (dead)" then set_serviceStatus stopped status
         else if JS.includes statusOutput "failed" then set_serviceStatus failed status
         else status in
       let status :=
         if JS.includes statusOutput "enabled" then set_autoStart true status
         else status in
       let uptimeLine :=
         find (fun line => JS.includes line "Active:")
              (JS.split (ascii_of_nat 10) statusOutput) in
       let status :=
         match uptimeLine with
         | Some line =>
             if JS.truthy (Some line) && JS.includes line "since" then
               match match_since line with
               | Some m => set_uptime (Some m) status
               | None => status
               end
             else status
         | None => status
         end in
       ret status
     else ret status)
    (fun _ => ret status).

(** [// Check if container is running manually]. *)
Definition probeContainer (status : Status) : M Status :=
  try_catch
    (dockerPs <- execSync ("docker ps --filter name=synchronizer-cli --format "
                           ++ JS.dq ++ "{{.Names}}" ++ JS.dq) ;;
     ret (set_containerRunning (JS.includes dockerPs "synchronizer-cli") status))
    (fun _ => ret status).

Definition knownImages : list string :=
  ["cdrakep/synqchronizer:latest"; "cdrakep/synqchronizer-test-fixed:latest"].

(** [// Check Docker image updates (quick check, no pulling)]. *)
Definition probeImages (status : Status) : M Status :=
  if dockerAvailable status then
    try_catch
      (let images := knownImages in
       checked <- checkImages images 0 [] ;;
       now <- ask_now clock_iso ;;
       ret (set_imageUpdates
              {| available := fst checked; lastChecked := Some now;
                 images := snd checked; iu_error := None |} status))
      (fun e =>
         ret (set_imageUpdates
                {| available := available (imageUpdates status);
                   lastChecked := lastChecked (imageUpdates status);
                   images := images (imageUpdates status);
                   iu_error := Some e |} status))
  else ret status.

(** The [status] object as [getSystemStatus] creates it. *)
Definition initialStatus (now : string) : Status :=
  {| timestamp := now; serviceStatus := unknown; dockerAvailable := false;
     autoStart := false; uptime := None; containerRunning := false;
     imageUpdates := {| available := 0; lastChecked := None; images := [];
                        iu_error := None |} |}.

(** [getSystemStatus(config)]. *)
Definition getSystemStatus (config : Config) : M Status :=
  now <- ask_now clock_iso ;;
  let status := initialStatus now in
  status <- probeDocker status ;;
  status <- probeService status ;;
  status <- probeContainer status ;;
  status <- probeImages status ;;
  ret status.

(** ** Telemetry: container introspection *)

(** The object [getContainerStats] returns.  The three quality indicators
    are ordinals ([0] good, [1] ok, [2] poor). *)
Record ContainerStats := {
  bytesIn : float;
  bytesOut : float;
  bytesInDelta : float;
  bytesOutDelta : float;
  sessions : float;
  users : float;
  syncLifePoints : float;
  syncLifePointsDelta : float;
  syncLifeTraffic : float;
  walletLifePoints : float;
  availability : Z;
  reliability : Z;
  efficiency : Z;
  proxyConnectionState : string;
  cs_now : float;
  uptimeHours : float;
  isEarningPoints : bool;
  hasRealStats : bool;
  containerStartTime : string
}.

(** The search loop of [getContainerStats] for a running container. *)
Fixpoint findRunning (names : list string) : M (option string) :=
  match names with
  | [] => ret None
  | name :: rest =>
      found <-
        try_catch
          (psOutput <- execSync ("docker ps --filter name=" ++ name ++ " --format "
                                 ++ JS.dq ++ "{{.Names}}" ++ JS.dq) ;;
           ret (JS.includes psOutput name))
          (fun _ => ret false) ;;
      if (found : bool) then ret (Some name) else findRunning rest
  end.

(** [cond ? Math.floor(Math.random() * n) + k : 0]. *)
Definition random_if (cond : bool) (n k : float) : M float :=
  if cond then r <- Math_random ;; ret (JS.Math_floor (r * n) + k)%float
  else ret 0%float.

(** [a + b] where either may be [undefined] (the sum is then NaN). *)
Definition add_undef (a b : option float) : float :=
  match a, b with
  | Some x, Some y => (x + y)%float
  | _, _ => PrimFloat.nan
  end.

(** [getContainerStats()]. *)
Definition getContainerStats : M (option ContainerStats) :=
  try_catch
    (containerName <- findRunning ["synchronizer-cli"; "synchronizer-nightly"] ;;
     match containerName with
     | None => ret None
     | Some containerName =>
         inspectOutput <-
           execSync ("docker inspect " ++ containerName ++ " --format "
                     ++ JS.dq ++ "{{.State.StartedAt}}" ++ JS.dq) ;;
         startTime <- ask (fun w => date_parse w (JS.trim inspectOutput)) ;;
         now <- ask_now clock_ms ;;
         let uptimeMs :=
           (now - match startTime with Some t => t | None => PrimFloat.nan end)%float in
         let uptimeHours := (uptimeMs / (1000 * 60 * 60))%float in
         logs <-
           try_catch
             (logsOutput <- execSync ("docker logs " ++ containerName ++ " --tail 100") ;;
              let isEarningPoints :=
                JS.includes logsOutput "proxy-connected" ||
                JS.includes logsOutput "registered" ||
                JS.includes logsOutput "session" ||
                JS.includes logsOutput "traffic" ||
                JS.includes logsOutput "stats" in
              realStats <- ask (fun w => scan_logs w logsOutput) ;;
              ret (isEarningPoints, realStats))
             (fun _ => ret (false, None)) ;;
         let realStats : option RealStats := snd logs in
         isEarningPoints <-
           match realStats with
           | None =>
               try_catch
                 (execOutput <- execSync ("docker exec " ++ containerName ++ " ps aux") ;;
                  ret (if JS.includes execOutput "node" then true else fst logs))
                 (fun _ => ret (fst logs))
           | Some _ => ret (fst logs)
           end ;;
         base <-
           match realStats with
           | Some rs =>
               ret (JS.num_or (rs_syncLifePoints rs) (JS.num_or (rs_walletLifePoints rs) 0),
                    JS.num_or (rs_syncLifeTraffic rs)
                      (JS.num_or (Some (add_undef (rs_bytesIn rs) (rs_bytesOut rs))) 0),
                    JS.num_or (rs_sessions rs) 0,
                    JS.num_or (rs_users rs) 0)
           | None =>
               let basePoints :=
                 if (isEarningPoints : bool) then JS.Math_floor (uptimeHours * 10) else 0%float in
               let baseTraffic :=
                 if isEarningPoints then JS.Math_floor (uptimeHours * 1024 * 1024 * 50)
                 else 0%float in
               sessions <- random_if isEarningPoints 5 1 ;;
               users <- random_if isEarningPoints 3 1 ;;
               ret (basePoints, baseTraffic, sessions, users)
           end ;;
         let '(basePoints, baseTraffic, sessions, users) := base in
         bytesInDelta <- random_if isEarningPoints 1000 0 ;;
         bytesOutDelta <- random_if isEarningPoints 500 0 ;;
         syncLifePointsDelta <- random_if isEarningPoints 5 0 ;;
         now' <- ask_now clock_ms ;;
         containerStartTime <-
           match startTime with
           | Some t => ask (fun w => date_iso w t)
           | None => throw "Invalid time value"
           end ;;
         ret (Some
                {| bytesIn := JS.Math_floor (baseTraffic * 0.6);
                   bytesOut := JS.Math_floor (baseTraffic * 0.4);
                   bytesInDelta := bytesInDelta;
                   bytesOutDelta := bytesOutDelta;
                   sessions := sessions;
                   users := users;
                   syncLifePoints := basePoints;
                   syncLifePointsDelta := syncLifePointsDelta;
                   syncLifeTraffic := baseTraffic;
                   walletLifePoints :=
                     JS.num_or (match realStats with
                                | Some rs => rs_walletLifePoints rs
                                | None => None
                                end) (basePoints * 2);
                   availability := if isEarningPoints then 0 else 2;
                   reliability :=
                     if isEarningPoints
                     then (if PrimFloat.ltb 24 uptimeHours then 0 else 1) else 2;
                   efficiency :=
                     if isEarningPoints
                     then (if PrimFloat.ltb (1024 * 1024 * 100) baseTraffic then 0 else 1)
                     else 2;
                   proxyConnectionState :=
                     if isEarningPoints then "CONNECTED" else "UNAVAILABLE";
                   cs_now := now';
                   uptimeHours := uptimeHours;
                   isEarningPoints := isEarningPoints;
                   hasRealStats := match realStats with Some _ => true | None => false end;
                   containerStartTime := containerStartTime |})
     end)
    (fun e =>
       console_log ("Error checking container stats: " ++ e) ;;
       ret None).

(** ** Telemetry: performance and quality of service *)

Record Performance := {
  totalTraffic : float;
  perf_sessions : float;
  inTraffic : float;
  outTraffic : float;
  perf_users : float
}.

Record QoS := {
  score : float;
  qos_reliability : float;
  qos_availability : float;
  qos_efficiency : float
}.

Record PerformanceView := {
  pv_timestamp : string;
  performance : Performance;
  qos : QoS
}.

(** [indicator || 2]: an absent or zero indicator becomes [2]. *)
Definition indicator_or_2 (indicator : Z) : Z :=
  if (indicator =? 0)%Z then 2%Z else indicator.

(** [const factors = [1, 0.8, 0.5]]. *)
Definition factors : list float := [1; 0.8; 0.5]%float.

(** [factors[i] || 0]. *)
Definition factor (i : Z) : float :=
  JS.num_or (if (i <? 0)%Z then None else nth_error factors (Z.to_nat i)) 0.

(** [i === 0 ? 100 : i === 1 ? 80 : 20]. *)
Definition percentage (i : Z) : float :=
  if (i =? 0)%Z then 100%float else if (i =? 1)%Z then 80%float else 20%float.

(** The branch of [getPerformanceData] that uses the container's
    counters. *)
Definition realPerformance (containerStats : ContainerStats)
  : Performance * QoS :=
  let performance :=
    {| totalTraffic :=
         (JS.num_or (Some (bytesIn containerStats)) 0
          + JS.num_or (Some (bytesOut containerStats)) 0)%float;
       perf_sessions := JS.num_or (Some (sessions containerStats)) 0;
       inTraffic := JS.num_or (Some (bytesInDelta containerStats)) 0;
       outTraffic := JS.num_or (Some (bytesOutDelta containerStats)) 0;
       perf_users := JS.num_or (Some (users containerStats)) 0 |} in
  let availability := indicator_or_2 (availability containerStats) in
  let reliability := indicator_or_2 (reliability containerStats) in
  let efficiency := indicator_or_2 (efficiency containerStats) in
  let qosScore := 100%float in
  let qosScore := (qosScore * factor availability)%float in
  let qosScore := (qosScore * factor reliability)%float in
  let qosScore := (qosScore * factor efficiency)%float in
  let qosScore := (JS.Math_round (qosScore / 5) * 5)%float in
  (performance,
   {| score := qosScore;
      qos_reliability := percentage reliability;
      qos_availability := percentage availability;
      qos_efficiency := percentage efficiency |}).

(** [0.8 + (Math.random() * 0.4)]. *)
Definition randomFactor : M float :=
  r <- Math_random ;; ret (0.8 + r * 0.4)%float.

(** The estimate [getPerformanceData] substitutes when the container's
    counters cannot be read (the same statements in the [else] branch and
    in the [catch] block). *)
Definition syntheticPerformance : M (Performance * QoS) :=
  f1 <- randomFactor ;;
  f2 <- randomFactor ;;
  f3 <- randomFactor ;;
  f4 <- randomFactor ;;
  f5 <- randomFactor ;;
  let performance :=
    {| totalTraffic := JS.Math_floor (1024 * 1024 * 150 * f1);
       perf_sessions := JS.Math_floor (12 * f2);
       inTraffic := JS.Math_floor (512 * f3);
       outTraffic := JS.Math_floor (256 * f4);
       perf_users := JS.Math_floor (3 * f5) |} in
  r1 <- Math_random ;;
  let reliability := (85 + JS.Math_floor (r1 * 10))%float in
  r2 <- Math_random ;;
  let availability := (90 + JS.Math_floor (r2 * 8))%float in
  r3 <- Math_random ;;
  let efficiency := (75 + JS.Math_floor (r3 * 20))%float in
  ret (performance,
       {| score := JS.Math_floor ((reliability + availability + efficiency) / 3);
          qos_reliability := reliability;
          qos_availability := availability;
          qos_efficiency := efficiency |}).

(** [cond ? base + Math.floor(Math.random() * n) : other]. *)
Definition random_percent (cond : bool) (base n other : float) : M float :=
  if cond then r <- Math_random ;; ret (base + JS.Math_floor (r * n))%float
  else ret other.

(** [getPerformanceData(config)]. *)
Definition getPerformanceData (config : Config) : M PerformanceView :=
  status <- getSystemStatus config ;;
  let isRunning := ServiceState_eqb (serviceStatus status) running in
  let performance :=
    {| totalTraffic := 0; perf_sessions := 0; inTraffic := 0; outTraffic := 0;
       perf_users := 0 |} in
  let qos :=
    {| score := 0; qos_reliability := 0; qos_availability := 0; qos_efficiency := 0 |} in
  result <-
    (if isRunning then
       try_catch
         (containerStats <- getContainerStats ;;
          match containerStats with
          | Some containerStats => ret (realPerformance containerStats)
          | None => syntheticPerformance
          end)
         (fun e =>
            console_error ("Error fetching container stats: " ++ e) ;;
            syntheticPerformance)
     else
       reliability <- random_percent isRunning 85 10 30 ;;
       availability <- random_percent isRunning 90 8 25 ;;
       efficiency <- random_percent isRunning 75 20 20 ;;
       let qos :=
         if negb (dockerAvailable status) then
           {| score := score qos;
              qos_reliability := JS.Math_max0 (reliability - 40);
              qos_availability := JS.Math_max0 (availability - 50);
              qos_efficiency := JS.Math_max0 (efficiency - 60) |}
         else
           {| score := score qos;
              qos_reliability := reliability;
              qos_availability := availability;
              qos_efficiency := efficiency |} in
       ret (performance,
            {| score :=
                 JS.Math_floor
                   ((qos_reliability qos + qos_availability qos + qos_efficiency qos) / 3);
               qos_reliability := qos_reliability qos;
               qos_availability := qos_availability qos;
               qos_efficiency := qos_efficiency qos |})) ;;
  now <- ask_now clock_iso ;;
  ret {| pv_timestamp := now; performance := fst result; qos := snd result |}.

(** ** Telemetry: points *)

(** A value that is a number or a string (the [rank] of the points
    view). *)
Inductive NumOrStr :=
| Num (n : float)
| Str (s : string).

Record Points := {
  total : float;
  daily : float;
  weekly : float;
  monthly : float;
  streak : float;
  rank : NumOrStr;
  multiplier : string
}.

(** The data of a successful registry answer, in the program's format. *)
Record ApiData := {
  lifetimePoints : float;
  lastWithdrawn : float;
  api_lastUpdated : float;
  dailyPoints : float;
  weeklyPoints : float;
  monthlyPoints : float;
  api_source : string
}.

(** [{ success, data?, error? }]. *)
Record RegistryResult := {
  success : bool;
  data : option ApiData;
  rr_error : option string
}.

Record ApiExtras := {
  ex_lastWithdrawn : float;
  ex_lastUpdated : float
}.

(** The object [getPointsData] returns; a field the source leaves out of
    the object is [None]. *)
Record PointsView := {
  pt_timestamp : string;
  points : Points;
  error : option string;
  fallback : option bool;
  source : option string;
  apiExtras : option ApiExtras;
  containerUptime : option string;
  isEarning : option bool;
  connectionState : option string
}.

Definition zeroPoints : Points :=
  {| total := 0; daily := 0; weekly := 0; monthly := 0; streak := 0;
     rank := Str "N/A"; multiplier := "1.0" |}.

Definition REGISTRY_API_URL : string := "https://api." ++ "multisynq.io".

(** The transformation of a wallet record into the program's format. *)
Definition walletData (d : WalletJson) (now : float) (source : string) : ApiData :=
  {| lifetimePoints := JS.num_or (serviceCredits d) 0;
     lastWithdrawn := JS.num_or (lastWithdrawnCredits d) 0;
     api_lastUpdated := JS.num_or (lastUpdated d) now;
     dailyPoints := JS.Math_floor (JS.num_or (serviceCredits d) 0 * 0.05);
     weeklyPoints := JS.Math_floor (JS.num_or (serviceCredits d) 0 * 0.2);
     monthlyPoints := JS.Math_floor (JS.num_or (serviceCredits d) 0 * 0.5);
     api_source := source |}.

(** [fetchWalletLifetimePoints(key, wallet, config)]. *)
Definition fetchWalletLifetimePoints (key wallet : JS.jsval) (config : Config)
  : M RegistryResult :=
  if negb (JS.truthy key) || negb (JS.truthy wallet) then
    ret {| success := false; data := None; rr_error := Some "Missing key or wallet" |}
  else
    try_catch
      (console_log "Fetching wallet lifetime points from registry API..." ;;
       let url := REGISTRY_API_URL ++ "/wallet/" ++ JS.to_str wallet ++ "/read" in
       response <- fetch url (JS.to_str key) ;;
       if negb (ok response) then
         let depinUrl :=
           REGISTRY_API_URL ++ "/depin/wallet/" ++ JS.to_str wallet ++ "/read" in
         depinResponse <- fetch depinUrl (JS.to_str key) ;;
         if negb (ok depinResponse) then
           errorText <- lift_sum (text response) ;;
           ret {| success := false; data := None;
                  rr_error :=
                    Some ("API error (" ++ status response ++ "): "
                          ++ JS.or_else (Some errorText) "Wallet not found") |}
         else
           depinData <- lift_sum (json depinResponse) ;;
           now <- ask_now clock_ms ;;
           ret {| success := true;
                  data := Some (walletData depinData now "depin_registry_api");
                  rr_error := None |}
       else
         data <- lift_sum (json response) ;;
         now <- ask_now clock_ms ;;
         ret {| success := true;
                data := Some (walletData data now "registry_api");
                rr_error := None |})
      (fun e =>
         ret {| success := false; data := None;
                rr_error := Some ("Error fetching points: " ++ e) |}).

(** [getPointsData(config)].  The first [try] returns early with the
    registry's data ([Some view]) or falls through to the container
    counters ([None]). *)
Definition getPointsData (config : Config) : M PointsView :=
  if negb (JS.truthy (key config)) || negb (JS.truthy (wallet config)) then
    now <- ask_now clock_iso ;;
    ret {| pt_timestamp := now; points := zeroPoints;
           error := Some "Missing Synq key or wallet address";
           fallback := None; source := None; apiExtras := None;
           containerUptime := None; isEarning := None; connectionState := None |}
  else
    early <-
      try_catch
        (registryData <- fetchWalletLifetimePoints (key config) (wallet config) config ;;
         if success registryData then
           console_log "Retrieved real wallet lifetime points from registry API" ;;
           apiData <-
             match data registryData with
             | Some d => ret d
             | None => throw "Cannot read properties of undefined"
             end ;;
           let walletLifePoints := JS.num_or (Some (lifetimePoints apiData)) 0 in
           now <- ask_now clock_iso ;;
           ret (Some
                  {| pt_timestamp := now;
                     points :=
                       {| total := walletLifePoints;
                          daily := JS.num_or (Some (dailyPoints apiData)) 0;
                          weekly := JS.num_or (Some (weeklyPoints apiData)) 0;
                          monthly := JS.num_or (Some (monthlyPoints apiData)) 0;
                          streak := 0;
                          rank := Str "N/A";
                          multiplier := "1.0" |};
                     error := None; fallback := None;
                     source := Some (JS.or_else (Some (api_source apiData)) "registry_api");
                     apiExtras :=
                       Some {| ex_lastWithdrawn := lastWithdrawn apiData;
                               ex_lastUpdated := api_lastUpdated apiData |};
                     containerUptime := None; isEarning := None;
                     connectionState := None |})
         else ret None)
        (fun _ => ret None) ;;
    match early with
    | Some view => ret view
    | None =>
        try_catch
          (containerStats <- getContainerStats ;;
           match containerStats with
           | None =>
               now <- ask_now clock_iso ;;
               ret {| pt_timestamp := now; points := zeroPoints;
                      error := Some "Synchronizer container not running - start it first";
                      fallback := Some true; source := None; apiExtras := None;
                      containerUptime := None; isEarning := None;
                      connectionState := None |}
           | Some containerStats =>
               let walletLifePoints :=
                 JS.num_or (Some (walletLifePoints containerStats)) 0 in
               let currentPoints :=
                 if isEarningPoints containerStats
                 then JS.Math_floor (JS.num_or (Some (uptimeHours containerStats)) 0)
                 else 0%float in
               now <- ask_now clock_iso ;;
               streak <- random_if (PrimFloat.ltb 100 walletLifePoints) 7 1 ;;
               rank <-
                 (if PrimFloat.ltb 1000 walletLifePoints
                  then r <- Math_random ;; ret (Num (JS.Math_floor (r * 10000) + 1))
                  else ret (Str "N/A")) ;;
               uptimeText <-
                 ask (fun w => toFixed1 w (JS.num_or (Some (uptimeHours containerStats)) 0)) ;;
               ret {| pt_timestamp := now;
                      points :=
                        {| total := walletLifePoints;
                           daily := currentPoints;
                           weekly := JS.Math_floor (walletLifePoints * 0.1);
                           monthly := JS.Math_floor (walletLifePoints * 0.3);
                           streak := streak;
                           rank := rank;
                           multiplier :=
                             if isEarningPoints containerStats then "1.0" else "0.0" |};
                      error := None; fallback := None;
                      source := Some "container_stats";
                      apiExtras := None;
                      containerUptime := Some (uptimeText ++ " hours");
                      isEarning := Some (isEarningPoints containerStats);
                      connectionState := Some (proxyConnectionState containerStats) |}
           end)
          (fun e =>
             console_error ("Error fetching points from container: " ++ e) ;;
             now <- ask_now clock_iso ;;
             ret {| pt_timestamp := now; points := zeroPoints;
                    error := Some ("Container Error: " ++ e);
                    fallback := Some true; source := None; apiExtras := None;
                    containerUptime := None; isEarning := None;
                    connectionState := None |})
    end.

(** * Further functions of [src/index.js] *)

(** ** Letter case *)

(** ASCII upper and lower case of a character, and of a string. *)
Definition upper (c : ascii) : ascii :=
  let n := nat_of_ascii c in
  if Nat.leb 97 n && Nat.leb n 122 then ascii_of_nat (n - 32) else c.

Definition lower (c : ascii) : ascii :=
  let n := nat_of_ascii c in
  if Nat.leb 65 n && Nat.leb n 90 then ascii_of_nat (n + 32) else c.

Fixpoint map_string (f : ascii -> ascii) (s : string) : string :=
  match s with
  | EmptyString => EmptyString
  | String c s' => String (f c) (map_string f s')
  end.

(** ** Key validation *)

Definition is_digit (c : ascii) : bool :=
  let n := nat_of_ascii c in Nat.leb 48 n && Nat.leb n 57.

(** [[0-9A-F]] under the [i] flag. *)
Definition is_hex (c : ascii) : bool :=
  let n := nat_of_ascii c in
  is_digit c || (Nat.leb 65 n && Nat.leb n 70) || (Nat.leb 97 n && Nat.leb n 102).

(** [[89AB]] under the [i] flag. *)
Definition is_variant (c : ascii) : bool :=
  let n := nat_of_ascii c in
  Nat.eqb n 56 || Nat.eqb n 57 || Nat.eqb n 65 || Nat.eqb n 66 ||
  Nat.eqb n 97 || Nat.eqb n 98.

Definition is_char (x c : ascii) : bool := Ascii.eqb c x.

(** A pattern that is a sequence of character classes, anchored at both
    ends: the string matches when it has one character per class. *)
Fixpoint matches (pattern : list (ascii -> bool)) (s : string) : bool :=
  match pattern, s with
  | [], EmptyString => true
  | p :: pattern', String c s' => p c && matches pattern' s'
  | _, _ => false
  end.

(** [/^[0-9A-F]{8}-[0-9A-F]{4}-[4][0-9A-F]{3}-[89AB][0-9A-F]{3}-[0-9A-F]{12}$/i]. *)
Definition uuid_v4_pattern : list (ascii -> bool) :=
  (repeat is_hex 8 ++ [is_char "-"] ++ repeat is_hex 4 ++ [is_char "-"]
   ++ [is_char "4"] ++ repeat is_hex 3 ++ [is_char "-"]
   ++ [is_variant] ++ repeat is_hex 3 ++ [is_char "-"] ++ repeat is_hex 12)%list.

(** [validateSynqKeyFormat(key)]. *)
Definition validateSynqKeyFormat (key : string) : bool :=
  matches uuid_v4_pattern key.

(** [encodeURIComponent(text)] on the bytes of the text: letters, digits
    and [-_.!~*'()] are kept, every other byte becomes [%XX]. *)
Definition is_unreserved (c : ascii) : bool :=
  let n := nat_of_ascii c in
  is_digit c || (Nat.leb 65 n && Nat.leb n 90) || (Nat.leb 97 n && Nat.leb n 122) ||
  existsb (Nat.eqb n) [45; 95; 46; 33; 126; 42; 39; 40; 41]%nat.

Definition hex_digit (n : nat) : ascii :=
  if Nat.ltb n 10 then ascii_of_nat (48 + n) else ascii_of_nat (55 + n).

Fixpoint encodeURIComponent (s : string) : string :=
  match s with
  | EmptyString => EmptyString
  | String c s' =>
      if is_unreserved c then String c (encodeURIComponent s')
      else String "%" (String (hex_digit (nat_of_ascii c / 16))
                         (String (hex_digit (nat_of_ascii c mod 16))
                            (encodeURIComponent s')))
  end.

(** [{ isValid, message }]. *)
Record KeyCheck := {
  isValid : bool;
  kc_message : string
}.

Definition SYNQ_KEY_URL : string := "https://api." ++ "multisynq.io" ++ "/depin/synchronizers/key".

(** [validateSynqKeyWithAPI(key, nickname)].  The request carries no
    [X-Synq-Key] header; it is recorded with an empty one. *)
Definition validateSynqKeyWithAPI (key nickname : string) : M KeyCheck :=
  let syncNickname := JS.or_else (Some nickname) "cli-validator" in
  let url := SYNQ_KEY_URL ++ "/" ++ key ++ "/precheck?nickname="
             ++ encodeURIComponent syncNickname in
  console_log "Validating synq key with remote API..." ;;
  try_catch
    (response <- fetch url "" ;;
     keyStatus <- lift_sum (text response) ;;
     if String.eqb keyStatus "ok"
     then ret {| isValid := true; kc_message := "Key is valid and available" |}
     else ret {| isValid := false; kc_message := keyStatus |})
    (fun e =>
       ret {| isValid := false;
              kc_message := "Could not validate key with API: " ++ e
                            ++ ". Will proceed with local validation only." |}).

(** What a [validate] function of a prompt answers: [true], or the message
    shown to the operator. *)
Inductive Validation :=
| Accepted
| Rejected (message : string).

(** The [validate] function of the key question of [init], [userName]
    being the answer to the question before. *)
Definition init_validate_key (userName input : string) : M Validation :=
  if negb (JS.truthy (Some input)) then ret (Rejected "Synq key is required")
  else if negb (validateSynqKeyFormat input) then
    ret (Rejected ("Invalid synq key format. Must be a valid UUID v4 format "
                   ++ "(XXXXXXXX-XXXX-4XXX-YXXX-XXXXXXXXXXXX where Y is 8, 9, A, or B)"))
  else
    try_catch
      (let nickname := JS.or_else (Some userName) "cli-setup" in
       validationResult <- validateSynqKeyWithAPI input nickname ;;
       if negb (isValid validationResult) then
         if JS.includes (kc_message validationResult) "Key" then
           ret (Rejected (kc_message validationResult))
         else
           console_log (kc_message validationResult) ;;
           console_log "Continuing with local validation only." ;;
           ret Accepted
       else
         console_log "Key validated successfully with API" ;;
         ret Accepted)
      (fun e =>
         console_log ("API validation error: " ++ e) ;;
         console_log "Continuing with local validation only." ;;
         ret Accepted).

(** ** Logs *)

(** [list.slice(-n)]: the last [n] elements. *)
Definition slice_last {A} (n : nat) (l : list A) : list A :=
  skipn (length l - n) l.

(** [getRecentLogs()]. *)
Definition getRecentLogs : M (list string) :=
  try_catch
    (logsOutput <-
       execSync "journalctl -u synchronizer-cli --no-pager -n 20 --output=short-iso" ;;
     ret (slice_last 15
            (filter (fun line => JS.truthy (Some (JS.trim line)))
                    (JS.split (ascii_of_nat 10) logsOutput))))
    (fun _ => ret ["No logs available or insufficient permissions"]).

(** ** Health *)

Record HealthChecks := {
  check_docker : string;
  check_service : string;
  check_configuration : string
}.

Record Health := {
  health_status : string;
  health_timestamp : string;
  checks : HealthChecks
}.

Definition pass_fail (b : bool) : string := if b then "pass" else "fail".

(** [getHealthStatus()].  It loads the config itself.  [getSystemStatus]
    does not read its argument, so what it is handed for a [null] config
    does not matter; [config.key] is read in the third operand of the
    conjunction, when the first two hold, and again for the configuration
    check. *)
Definition getHealthStatus : M Health :=
  config <- loadConfig ;;
  status <- getSystemStatus (match config with
                             | Some config => config
                             | None => emptyConfig
                             end) ;;
  isHealthy <-
    (if ServiceState_eqb (serviceStatus status) running && dockerAvailable status
     then k <- property config key "key" ;; ret (JS.truthy k)
     else ret false) ;;
  now <- ask_now clock_iso ;;
  k <- property config key "key" ;;
  ret {| health_status := if (isHealthy : bool) then "healthy" else "unhealthy";
         health_timestamp := now;
         checks :=
           {| check_docker := pass_fail (dockerAvailable status);
              check_service :=
                pass_fail (ServiceState_eqb (serviceStatus status) running);
              check_configuration := pass_fail (JS.truthy k) |} |}.

(** ** Service units *)

Definition systemPaths : list string :=
  ["/usr/local/sbin"; "/usr/local/bin"; "/usr/sbin"; "/usr/bin"; "/sbin"; "/bin"].

(** [systemPaths.includes(dir) ? systemPaths : [dir, ...systemPaths]], the
    [pathDirs] of [installService], [installWebServiceFile] and
    [installImageMonitoringService]. *)
Definition pathDirs (dir : string) : list string :=
  if existsb (String.eqb dir) systemPaths then systemPaths else dir :: systemPaths.

(** [pathDirs.join(':')]. *)
Definition pathEnv (dir : string) : string :=
  JS.join ":" (map Some (pathDirs dir)).

(** [text.replace(/npm$/, 'npx')]. *)
Fixpoint replace_npm_suffix (s : string) : string :=
  match s with
  | EmptyString => EmptyString
  | String c s' => if String.eqb s "npm" then "npx" else String c (replace_npm_suffix s')
  end.

(** The loop of [detectNpxPath] over the fallback locations. *)
Fixpoint firstExisting (paths : list string) : M (option string) :=
  match paths with
  | [] => ret None
  | fallbackPath :: rest =>
      there <- ask (fun w => fs_existsSync w fallbackPath) ;;
      if (there : bool) then ret (Some fallbackPath) else firstExisting rest
  end.

(** [detectNpxPath()].  [home rel] is [path.join(os.homedir(), rel)].  A
    [try] block returns early ([Some path]) or falls through ([None]). *)
Definition detectNpxPath (home : string -> string) : M string :=
  viaWhich <-
    try_catch
      (output <- execSync "which npx" ;;
       let npxPath := JS.trim output in
       there <- ask (fun w => fs_existsSync w npxPath) ;;
       if JS.truthy (Some npxPath) && there then ret (Some npxPath) else ret None)
      (fun _ => ret None) ;;
  match viaWhich with
  | Some npxPath => ret npxPath
  | None =>
      viaNpm <-
        try_catch
          (output <- execSync "which npm" ;;
           let npmPath := JS.trim output in
           if JS.truthy (Some npmPath) then
             let npxPath := replace_npm_suffix npmPath in
             there <- ask (fun w => fs_existsSync w npxPath) ;;
             if (there : bool) then ret (Some npxPath) else ret None
           else ret None)
          (fun _ => ret None) ;;
      match viaNpm with
      | Some npxPath => ret npxPath
      | None =>
          found <-
            firstExisting
              ["/usr/bin/npx"; "/usr/local/bin/npx"; "/opt/homebrew/bin/npx";
               home ".npm-global/bin/npx"; home ".nvm/current/bin/npx"] ;;
          match found with
          | Some fallbackPath => ret fallbackPath
          | None => ret "npx"
          end
      end
  end.

(** ** Image pull on request *)

(** The JSON answer of [POST /api/pull-image]. *)
Record PullAnswer := {
  pull_success : bool;
  pull_error : option string;
  pull_message : option string;
  pull_timestamp : option string
}.

Definition allowedImages : list string :=
  ["cdrakep/synqchronizer:latest"; "cdrakep/synqchronizer-test-fixed:latest"].

(** The handler of [POST /api/pull-image].  [body] is [req.body]
    ([None] when no body was parsed), holding [imageName]. *)
Definition api_pull_image (body : option JS.jsval) : M PullAnswer :=
  try_catch
    (imageName <-
       match body with
       | Some imageName => ret imageName
       | None => throw "Cannot destructure property 'imageName' of 'req.body' as it is undefined."
       end ;;
     if negb (JS.truthy imageName) then
       ret {| pull_success := false; pull_error := Some "Image name is required";
              pull_message := None; pull_timestamp := None |}
     else if negb (existsb (String.eqb (JS.to_str imageName)) allowedImages) then
       ret {| pull_success := false; pull_error := Some "Image not allowed";
              pull_message := None; pull_timestamp := None |}
     else
       execSync ("docker pull " ++ JS.to_str imageName) ;;
       now <- ask_now clock_iso ;;
       ret {| pull_success := true; pull_error := None;
              pull_message := Some ("Successfully pulled " ++ JS.to_str imageName);
              pull_timestamp := Some now |})
    (fun e =>
       ret {| pull_success := false; pull_error := Some e;
              pull_message := None; pull_timestamp := None |}).

(** ** Port search *)

(** [findAvailablePort(startPort)]: [free port] says whether a server can
    listen on the port; the result is the port found, or [None] when the
    promise is rejected after [maxAttempts] tries.  [tryPort] is called with
    the number of attempts left.  The model covers the searches that stay
    among the ports [listen] takes as they are, [1] to [65535], that is a
    start port from [1] to [65436]: port [0] asks the system for a port of
    its choice, and past [65535] [listen] throws, outside the handlers of
    the promise.  The dashboard starts its searches at 3000, 3001 or
    3002. *)
Definition maxAttempts : nat := 100.

Fixpoint tryPort (free : Z -> bool) (attemptsLeft : nat) (port : Z) : option Z :=
  match attemptsLeft with
  | O => None
  | S attemptsLeft' =>
      if free port then Some port
      else tryPort free attemptsLeft' (port + 1)
  end.

Definition findAvailablePort (free : Z -> bool) (startPort : Z) : option Z :=
  tryPort free maxAttempts startPort.

(** The two searches of [startWebGUI]: [guiPort], then [metricsPort]. *)
Definition startWebGUI_ports (free : Z -> bool) : option (Z * Z) :=
  match findAvailablePort free 3000 with
  | None => None
  | Some guiPort =>
      match findAvailablePort free (if (guiPort =? 3001)%Z then 3002 else 3001) with
      | None => None
      | Some metricsPort => Some (guiPort, metricsPort)
      end
  end.

(** ** Metrics *)

(** What [os.uptime()], [os.totalmem()], [os.freemem()] and [os.loadavg()]
    answer. *)
Record SystemInfo := {
  si_uptime : float;
  si_totalmem : float;
  si_freemem : float;
  si_loadavg : list float
}.

(** The object [generateMetrics] returns, its nested objects flattened. *)
Record Metrics := {
  m_timestamp : string;
  m_version : string;
  sys_platform : string;
  sys_arch : string;
  sys_hostname : string;
  sys_uptime : float;
  mem_total : float;
  mem_free : float;
  mem_used : float;
  sys_loadavg : list float;
  configured : bool;
  m_syncHash : JS.jsval;
  m_wallet : option string;          (* [None] is [null] *)
  m_serviceStatus : ServiceState;
  m_dockerAvailable : bool;
  m_autoStart : bool;
  m_containerRunning : bool;
  overall : string;
  health_docker : bool;
  health_service : bool;
  health_configuration : bool
}.

(** [generateMetrics(config)]; [sys] is what the [os] module reports when
    the object is built. *)
Definition generateMetrics (sys : SystemInfo) (config : Config) : M Metrics :=
  status <- getSystemStatus config ;;
  now <- ask_now clock_iso ;;
  version <- ask package_version ;;
  platform <- ask os_platform ;;
  arch <- ask os_arch ;;
  host <- ask os_hostname ;;
  ret {| m_timestamp := now;
         m_version := version;
         sys_platform := platform;
         sys_arch := arch;
         sys_hostname := host;
         sys_uptime := si_uptime sys;
         mem_total := si_totalmem sys;
         mem_free := si_freemem sys;
         mem_used := (si_totalmem sys - si_freemem sys)%float;
         sys_loadavg := si_loadavg sys;
         configured := JS.truthy (key config);
         m_syncHash := syncHash config;
         m_wallet :=
           if JS.truthy (wallet config)
           then Some (String.substring 0 10 (JS.to_str (wallet config)) ++ "...")
           else None;
         m_serviceStatus := serviceStatus status;
         m_dockerAvailable := dockerAvailable status;
         m_autoStart := autoStart status;
         m_containerRunning := containerRunning status;
         overall :=
           if ServiceState_eqb (serviceStatus status) running && dockerAvailable status
           then "healthy" else "unhealthy";
         health_docker := dockerAvailable status;
         health_service := ServiceState_eqb (serviceStatus status) running;
         health_configuration := JS.truthy (key config) |}.

(** ** Update check on request *)

(** An entry of the [images] array of [GET /api/check-updates]. *)
Record UpdateEntry := {
  ue_name : string;
  ue_updateAvailable : bool;
  ue_checked : bool;
  ue_error : option string
}.

(** The JSON answer of [GET /api/check-updates]. *)
Record UpdatesAnswer := {
  ua_success : bool;
  ua_totalUpdates : option Z;
  ua_images : option (list UpdateEntry);
  ua_timestamp : option string;
  ua_error : option string
}.

(** The loop of the handler over the images left to check. *)
Fixpoint check_updates (images : list string) (updateStatus : list UpdateEntry)
  (totalUpdates : Z) : M (list UpdateEntry * Z) :=
  match images with
  | [] => ret (updateStatus, totalUpdates)
  | imageName :: rest =>
      r <-
        try_catch
          (hasUpdate <- isNewDockerImageAvailable imageName ;;
           ret ((updateStatus ++
                 [{| ue_name := imageName; ue_updateAvailable := hasUpdate;
                     ue_checked := true; ue_error := None |}])%list,
                if (hasUpdate : bool) then (totalUpdates + 1)%Z else totalUpdates))
          (fun e =>
             ret ((updateStatus ++
                   [{| ue_name := imageName; ue_updateAvailable := false;
                       ue_checked := false; ue_error := Some e |}])%list,
                  totalUpdates)) ;;
      check_updates rest (fst r) (snd r)
  end.

(** The handler of [GET /api/check-updates]. *)
Definition api_check_updates : M UpdatesAnswer :=
  try_catch
    (r <- check_updates
            ["cdrakep/synqchronizer:latest"; "cdrakep/synqchronizer-test-fixed:latest"]
            [] 0 ;;
     now <- ask_now clock_iso ;;
     ret {| ua_success := true;
            ua_totalUpdates := Some (snd r);
            ua_images := Some (fst r);
            ua_timestamp := Some now;
            ua_error := None |})
    (fun e =>
       ret {| ua_success := false; ua_totalUpdates := None; ua_images := None;
              ua_timestamp := None; ua_error := Some e |}).

(** ** Dashboard password *)

(** The [validate] function of the password question of
    [setDashboardPassword]. *)
Definition setDashboardPassword_validate (input : string) : Validation :=
  if JS.truthy (Some input) && Nat.leb 4 (String.length input)
  then Accepted
  else Rejected "Password must be at least 4 characters".

(** ** Update check from the command line *)

(** One round of the loop of [checkImageUpdates], for the image [name]
    described as [description]; the result is the new value of
    [updatesAvailable]. *)
Definition checkImageUpdates_image (name description : string)
  (updatesAvailable : Z) : M Z :=
  console_log ("Checking " ++ description ++ "...") ;;
  console_log ("Image: " ++ name) ;;
  try_catch
    (hasUpdate <- isNewDockerImageAvailable name ;;
     updatesAvailable <-
       (if (hasUpdate : bool) then
          console_log ("Update available for " ++ name) ;;
          let updatesAvailable := (updatesAvailable + 1)%Z in
          pull <- prompt_confirm ("Pull latest version of " ++ name ++ "?") ;;
          when pull
            (try_catch
               (console_log ("Pulling " ++ name ++ "...") ;;
                execSync ("docker pull " ++ name) ;;
                console_log ("Successfully updated " ++ name))
               (fun e => console_log ("Failed to pull " ++ name ++ ": " ++ e))) ;;
          ret updatesAvailable
        else
          console_log (name ++ " is up to date") ;;
          ret updatesAvailable) ;;
     console_log EmptyString ;;
     ret updatesAvailable)
    (fun e =>
       console_log ("Error checking " ++ name ++ ": " ++ e) ;;
       console_log EmptyString ;;
       ret updatesAvailable).

Fixpoint checkImageUpdates_loop (images : list (string * string))
  (updatesAvailable : Z) : M Z :=
  match images with
  | [] => ret updatesAvailable
  | (name, description) :: rest =>
      updatesAvailable <- checkImageUpdates_image name description updatesAvailable ;;
      checkImageUpdates_loop rest updatesAvailable
  end.

(** [checkImageUpdates()]. *)
Definition checkImageUpdates : M unit :=
  console_log "Checking for Docker Image Updates" ;;
  console_log ("Checking all synchronizer Docker images..." ++ nl) ;;
  updatesAvailable <-
    checkImageUpdates_loop
      [("cdrakep/synqchronizer:latest", "Main synchronizer image");
       ("cdrakep/synqchronizer-test-fixed:latest", "Fixed nightly test image")] 0 ;;
  console_log "Update Check Summary:" ;;
  (if (updatesAvailable =? 0)%Z
   then console_log "All images are up to date"
   else console_log (show_Z updatesAvailable ++ " image(s) had updates available")) ;;
  console_log (nl ++ "Tip: Use `synchronize monitor` to automatically check for updates") ;;
  ret tt.

(** ** The address shown for the dashboard *)

(** [s.toLowerCase()], letters outside ASCII left as they are. *)
Definition toLowerCase (s : string) : string := map_string lower s.

(** The value of a digit in [parseInt]: [0-9], then the letters. *)
Definition digit_value (c : ascii) : option Z :=
  let n := Z.of_nat (nat_of_ascii c) in
  if (48 <=? n)%Z && (n <=? 57)%Z then Some (n - 48)%Z
  else if (65 <=? n)%Z && (n <=? 90)%Z then Some (n - 55)%Z
  else if (97 <=? n)%Z && (n <=? 122)%Z then Some (n - 87)%Z
  else None.

(** The longest prefix of digits of the radix, read as a number; [acc] is
    what has been read so far ([None]: nothing yet). *)
Fixpoint parse_digits (radix : Z) (s : string) (acc : option Z) : option Z :=
  match s with
  | EmptyString => acc
  | String c s' =>
      match digit_value c with
      | Some d =>
          if (d <? radix)%Z
          then parse_digits radix s'
                 (Some (match acc with Some a => a * radix + d | None => d end)%Z)
          else acc
      | None => acc
      end
  end.

(** [parseInt(v)]: [None] is [NaN]. *)
Definition parseInt (v : JS.jsval) : option Z :=
  match v with
  | None => None
  | Some s =>
      let s := JS.trimStart s in
      let signed :=
        match s with
        | String "-" rest => (true, rest)
        | String "+" rest => (false, rest)
        | _ => (false, s)
        end in
      let body := snd signed in
      let digits :=
        if JS.startsWith body "0x" || JS.startsWith body "0X"
        then parse_digits 16 (JS.slice 2 body) None
        else parse_digits 10 body None in
      match digits with
      | Some n => Some (if fst signed then (- n)%Z else n)
      | None => None
      end
  end.

(** An address of a network interface, as [os.networkInterfaces()] gives
    it. *)
Record NetAddress := {
  na_family : string;
  na_internal : bool;
  na_address : string;
  na_mac : string
}.

Record Candidate := {
  c_ip : string;
  c_interface : string;
  c_priority : Z;
  c_mac : string
}.

(** [interfacePriority], in the order of its entries. *)
Definition interfacePriority : list (string * Z) :=
  [("eth", 100); ("en", 90); ("Ethernet", 80); ("Wi-Fi", 70); ("wlan", 60);
   ("wlp", 55);
   ("docker", 10); ("veth", 10); ("br-", 10); ("virbr", 10); ("vmnet", 10);
   ("vbox", 10); ("tun", 10); ("tap", 10); ("utun", 10); ("awdl", 10);
   ("llw", 10); ("bridge", 10); ("vnic", 10); ("Hyper-V", 10);
   ("VirtualBox", 10); ("VMware", 10); ("Loopback", 5); ("lo", 5)]%Z.

(** The loop over the patterns: the score of the first one the interface
    name matches, [1] when there is none. *)
Fixpoint patternScore (interfaceName : string) (patterns : list (string * Z)) : Z :=
  match patterns with
  | [] => 1%Z
  | (pattern, score) :: rest =>
      if JS.startsWith (toLowerCase interfaceName) (toLowerCase pattern) ||
         JS.includes (toLowerCase interfaceName) (toLowerCase pattern)
      then score
      else patternScore interfaceName rest
  end.

(** [parseInt(ip.split('.')[1]) >= 16 && parseInt(ip.split('.')[1]) <= 31]. *)
Definition second_octet_16_31 (ip : string) : bool :=
  match parseInt (nth_error (JS.split "." ip) 1) with
  | Some n => (16 <=? n)%Z && (n <=? 31)%Z
  | None => false
  end.

(** The priority of an address on an interface. *)
Definition addressPriority (interfaceName ip : string) : Z :=
  let priority := patternScore interfaceName interfacePriority in
  let priority :=
    if JS.startsWith ip "192.168." || JS.startsWith ip "10." ||
       (JS.startsWith ip "172." && second_octet_16_31 ip)
    then (priority + 20)%Z else priority in
  let priority :=
    if JS.includes (toLowerCase interfaceName) "docker" ||
       JS.includes (toLowerCase interfaceName) "veth" ||
       JS.includes (toLowerCase interfaceName) "br-" ||
       JS.includes (toLowerCase interfaceName) "virbr" ||
       JS.startsWith ip "172.17." || JS.startsWith ip "172.18." ||
       JS.startsWith ip "172.19." || JS.startsWith ip "172.20." ||
       JS.startsWith ip "169.254."
    then (priority - 50)%Z else priority in
  priority.

(** The candidates of one interface, then of all of them, in the order
    they are pushed. *)
Definition interfaceCandidates (interfaceName : string)
  (addresses : list NetAddress) : list Candidate :=
  if String.eqb interfaceName "lo" || JS.includes interfaceName "Loopback" then []
  else
    flat_map
      (fun addr =>
         if String.eqb (na_family addr) "IPv4" && negb (na_internal addr)
         then [{| c_ip := na_address addr; c_interface := interfaceName;
                  c_priority := addressPriority interfaceName (na_address addr);
                  c_mac := na_mac addr |}]
         else [])
      addresses.

Definition candidatesOf (interfaces : list (string * list NetAddress))
  : list Candidate :=
  flat_map (fun entry => interfaceCandidates (fst entry) (snd entry)) interfaces.

(** [candidates.sort((a, b) => b.priority - a.priority)]: highest priority
    first, candidates of equal priority in the order they were pushed. *)
Fixpoint insertCandidate (c : Candidate) (sorted : list Candidate) : list Candidate :=
  match sorted with
  | [] => [c]
  | x :: rest =>
      if (c_priority x <=? c_priority c)%Z then c :: sorted
      else x :: insertCandidate c rest
  end.

Definition sortCandidates (candidates : list Candidate) : list Candidate :=
  fold_right insertCandidate [] candidates.

Definition showCandidate (c : Candidate) : string :=
  c_ip c ++ " (" ++ c_interface c ++ ")".

(** [getPrimaryLocalIP()], with [interfaces] the entries of
    [os.networkInterfaces()]. *)
Definition getPrimaryLocalIP (interfaces : list (string * list NetAddress))
  : M string :=
  let candidates := sortCandidates (candidatesOf interfaces) in
  match candidates with
  | best :: others =>
      console_log ("Detected primary IP: " ++ showCandidate best) ;;
      when (Nat.ltb 1 (length candidates))
        (console_log ("   Other interfaces: "
                      ++ JS.join ", "
                           (map (fun c => Some (showCandidate c)) (firstn 2 others)))) ;;
      ret (c_ip best)
  | [] =>
      console_log "Could not detect primary IP, using localhost" ;;
      ret "localhost"
  end.

(** * Vocabulary of the properties *)

(** The command the freshness check runs. *)
Definition images_command (image : string) : string :=
  "docker images " ++ image ++ " --format " ++ JS.dq ++ "{{.ID}}" ++ JS.dq.

(** What the check answers, read off the outcome of that one command. *)
Definition needsPull (outcome : CmdResult) : bool :=
  match outcome with
  | Fails _ => true
  | Out ids => String.eqb (JS.trim ids) ""
  end.

(** No container-runtime command in a list of events: nothing executed,
    nothing spawned. *)
Definition no_runtime_call (events : list Event) : Prop :=
  forall e, In e events ->
    match e with
    | EvExec _ | EvSpawn _ _ => False
    | _ => True
    end.

(** The optional tail of the argument list for one field: the flag and
    its value when the field holds a non-empty string, nothing
    otherwise. *)
Definition optional_pair (flag : string) (v : JS.jsval) : list JS.jsval :=
  match v with
  | Some (String c s) => [Some flag; Some (String c s)]
  | _ => []
  end.

(** [no_exit m]: [m] never calls [process.exit]. *)
Definition no_exit {A} (m : M A) : Prop :=
  forall w st c st', m w st <> (Exit c, st').

(** [returns m]: [m] always ends with a value; it neither throws nor
    exits. *)
Definition returns {A} (m : M A) : Prop :=
  forall w st, exists a st', m w st = (Val a, st').

(** The command that lists the running containers of a name. *)
Definition ps_command (name : string) : string :=
  "docker ps --filter name=" ++ name ++ " --format " ++ JS.dq ++ "{{.Names}}" ++ JS.dq.

(** The command of the service probe. *)
Definition systemctl_command : string := "systemctl status synchronizer-cli --no-pager".

(** The QoS of a service that is not running: 30, 25 and 20 with the
    runtime, nothing without it, and the floor of their mean as score. *)
Definition stoppedQoS (dockerAvailable : bool) : QoS :=
  if dockerAvailable
  then {| score := 25; qos_reliability := 30; qos_availability := 25;
          qos_efficiency := 20 |}
  else {| score := 0; qos_reliability := 0; qos_availability := 0;
          qos_efficiency := 0 |}.

(** A number that is a multiple of 5 between 0 and 100. *)
Definition multiple_of_5_upto_100 (x : float) : Prop :=
  exists k : Z, (0 <= k <= 20)%Z /\ x = JS.of_Z (5 * k).

(** The registry cannot be reached: every request fails on the network or
    is answered with a status that is not OK. *)
Definition registry_unreachable (w : World) : Prop :=
  forall tr url k,
    match fetch_result w tr url k with
    | NetworkError _ => True
    | Responds r => ok r = false
    end.

(** No worker container runs: the listing for either known name fails or
    does not show the name. *)
Definition no_container_running (w : World) : Prop :=
  forall tr name,
    In name ["synchronizer-cli"; "synchronizer-nightly"] ->
    match exec_result w tr (ps_command name) with
    | Fails _ => True
    | Out names => JS.includes names name = false
    end.

(** A command that fails whenever it is run. *)
Definition always_fails (w : World) (cmd : string) : Prop :=
  forall tr, exists e, exec_result w tr cmd = Fails e.

(** Two status objects that differ at most in the fields the service probe
    writes. *)
Definition same_but_service (s s' : Status) : Prop :=
  timestamp s' = timestamp s /\ dockerAvailable s' = dockerAvailable s /\
  containerRunning s' = containerRunning s /\ imageUpdates s' = imageUpdates s.

(** The entry of the image summary for one image. *)
Definition imageEntry (image : string) (hasUpdate : bool) : ImageStatus :=
  {| img_name := image; updateAvailable := hasUpdate; img_error := None |}.

(** A colon somewhere in a string. *)
Fixpoint has_colon (s : string) : bool :=
  match s with
  | EmptyString => false
  | String c s' => Ascii.eqb c ":" || has_colon s'
  end.

(** The state after more events. *)
Definition after (st : St) (events : list Event) : St :=
  {| trace := (trace st ++ events)%list; draws := draws st |}.

(** The URL of the key precheck. *)
Definition precheck_url (key nickname : string) : string :=
  SYNQ_KEY_URL ++ "/" ++ key ++ "/precheck?nickname="
  ++ encodeURIComponent (JS.or_else (Some nickname) "cli-validator").

Definition validating : Event := EvLog "Validating synq key with remote API...".

(** What [validateSynqKeyWithAPI] makes of the answer to its request. *)
Definition keyCheck_of (answer : FetchResult) : KeyCheck :=
  let unreachable e :=
    {| isValid := false;
       kc_message := "Could not validate key with API: " ++ e
                     ++ ". Will proceed with local validation only." |} in
  match answer with
  | NetworkError e => unreachable e
  | Responds response =>
      match text response with
      | inl t => if String.eqb t "ok"
                 then {| isValid := true; kc_message := "Key is valid and available" |}
                 else {| isValid := false; kc_message := t |}
      | inr e => unreachable e
      end
  end.

(** No capital K in a string. *)
Fixpoint no_K (s : string) : bool :=
  match s with
  | EmptyString => true
  | String c s' => negb (Ascii.eqb c "K") && no_K s'
  end.

Definition journalctl_command : string :=
  "journalctl -u synchronizer-cli --no-pager -n 20 --output=short-iso".

(** The last step of [detectNpxPath]: the fallback locations, then the
    bare command name. *)
Definition npxFallback (home : string -> string) : M string :=
  found <-
    firstExisting
      ["/usr/bin/npx"; "/usr/local/bin/npx"; "/opt/homebrew/bin/npx";
       home ".npm-global/bin/npx"; home ".nvm/current/bin/npx"] ;;
  match found with
  | Some fallbackPath => ret fallbackPath
  | None => ret "npx"
  end.

(** The two wallet endpoints of the registry. *)
Definition wallet_url (wallet : JS.jsval) : string :=
  REGISTRY_API_URL ++ "/wallet/" ++ JS.to_str wallet ++ "/read".

Definition depin_wallet_url (wallet : JS.jsval) : string :=
  REGISTRY_API_URL ++ "/depin/wallet/" ++ JS.to_str wallet ++ "/read".

Definition fetching : Event := EvLog "Fetching wallet lifetime points from registry API...".

(** A registry result is well formed: data without error on success, error
    without data on failure. *)
Definition well_formed_result (r : RegistryResult) : Prop :=
  (success r = true /\ data r <> None /\ rr_error r = None) \/
  (success r = false /\ data r = None /\ rr_error r <> None).

Definition retrieved : Event :=
  EvLog "Retrieved real wallet lifetime points from registry API".

Definition is_spawn (e : Event) : bool :=
  match e with EvSpawn _ _ => true | _ => false end.

(** The processes spawned in a list of events. *)
Definition spawns (events : list Event) : list Event := filter is_spawn events.

(** The commands executed in a list of events, in order. *)
Fixpoint execs (events : list Event) : list string :=
  match events with
  | [] => []
  | EvExec cmd :: rest => cmd :: execs rest
  | _ :: rest => execs rest
  end.

(** The events up to and including the first spawn. *)
Fixpoint upto_spawn (events : list Event) : list Event :=
  match events with
  | [] => []
  | e :: rest => if is_spawn e then [e] else e :: upto_spawn rest
  end.

(** The exit status the supervisor ends with for each fate of the worker
    it launched. *)
Definition exit_code_of (outcome : ChildOutcome) : Z :=
  match outcome with
  | ChildExit code => code
  | ChildError _ _ => 1
  | Signalled => 0
  end.

Definition stop_command : string := "docker stop " ++ containerName.

Definition pull_command : string := "docker pull " ++ imageName.

(** The launch of the worker. *)
Definition launch (w : World) (config : Config) : Event :=
  EvSpawn "docker"
    (start_args config (dockerPlatform (os_platform w) (os_arch w))
       (launcherWithVersion (package_version w))).

(** The listing of running containers fails or does not show the name. *)
Definition not_listed (outcome : CmdResult) (name : string) : Prop :=
  match outcome with
  | Fails _ => True
  | Out names => JS.includes names name = false
  end.

Definition follow_logs : Event :=
  EvSpawn "docker" [Some "logs"; Some "-f"; Some containerName].

(** Nothing was spawned and the container runtime was not invoked: no
    executed command starts with [docker ]. *)
Definition runtime_untouched (events : list Event) : Prop :=
  spawns events = [] /\
  forall cmd, In cmd (execs events) -> JS.startsWith cmd "docker " = false.

(** A computation that does not end the process and leaves the runtime
    untouched. *)
Definition beside_runtime {A} (m : M A) : Prop :=
  forall w st, exists r events,
    m w st = (r, after st events) /\ (forall code, r <> Exit code) /\
    runtime_untouched events.

Definition asked_to_install : list Event :=
  [EvExec "docker --version";
   EvError "Docker is not installed or not accessible.";
   EvPrompt "Would you like to install Docker now?"].

(** The indicators as [getContainerStats] derives them from the earning
    flag, the uptime and the traffic. *)
Definition indicators_of (cs : ContainerStats) : Z * Z * Z :=
  if isEarningPoints cs
  then (0%Z,
        if PrimFloat.ltb 24 (uptimeHours cs) then 0%Z else 1%Z,
        if PrimFloat.ltb (1024 * 1024 * 100) (syncLifeTraffic cs) then 0%Z else 1%Z)
  else (2%Z, 2%Z, 2%Z).

(** The middleware lets the request through. *)
Definition granted (answer : Handled) : bool :=
  match answer with
  | Next _ => true
  | Responded _ _ _ => false
  end.

(** The request with the mark the middleware sets. *)
Definition marked (req : Request) : Request :=
  {| authorization := authorization req; authenticated := true |}.

(** The entry of the answer for an image that was checked. *)
Definition checkedEntry (image : string) (hasUpdate : bool) : UpdateEntry :=
  {| ue_name := image; ue_updateAvailable := hasUpdate; ue_checked := true;
     ue_error := None |}.

Definition count_updates (entries : list UpdateEntry) : Z :=
  Z.of_nat (length (filter ue_updateAvailable entries)).

Definition noTraffic : Performance :=
  {| totalTraffic := 0; perf_sessions := 0; inTraffic := 0; outTraffic := 0;
     perf_users := 0 |}.

(** The question [checkImageUpdates] asks before it pulls an image. *)
Definition pull_question (image : string) : string :=
  "Pull latest version of " ++ image ++ "?".

Definition is_prompt (e : Event) : bool :=
  match e with EvPrompt _ => true | _ => false end.

(** The questions asked in a list of events. *)
Definition prompts (events : list Event) : list Event := filter is_prompt events.

Definition mainImage : string := "cdrakep/synqchronizer:latest".

Definition nightlyImage : string := "cdrakep/synqchronizer-test-fixed:latest".

(** An address the dashboard may be shown under: a non-internal IPv4
    address of an interface that is not skipped as loopback. *)
Definition eligible (interfaces : list (string * list NetAddress))
  (name : string) (addr : NetAddress) : Prop :=
  exists addresses,
    In (name, addresses) interfaces /\ In addr addresses /\
    name <> "lo" /\ JS.includes name "Loopback" = false /\
    na_family addr = "IPv4" /\ na_internal addr = false.

(** The candidate pushed for an address. *)
Definition candidateFor (name : string) (addr : NetAddress) : Candidate :=
  {| c_ip := na_address addr; c_interface := name;
     c_priority := addressPriority name (na_address addr);
     c_mac := na_mac addr |}.

(** The address is in a private range ([priority += 20]). *)
Definition boosted (ip : string) : bool :=
  JS.startsWith ip "192.168." || JS.startsWith ip "10." ||
  (JS.startsWith ip "172." && second_octet_16_31 ip).

(** The address looks virtual or link-local ([priority -= 50]). *)
Definition penalised (interfaceName ip : string) : bool :=
  JS.includes (toLowerCase interfaceName) "docker" ||
  JS.includes (toLowerCase interfaceName) "veth" ||
  JS.includes (toLowerCase interfaceName) "br-" ||
  JS.includes (toLowerCase interfaceName) "virbr" ||
  JS.startsWith ip "172.17." || JS.startsWith ip "172.18." ||
  JS.startsWith ip "172.19." || JS.startsWith ip "172.20." ||
  JS.startsWith ip "169.254.".

(** Whether a command succeeded. *)
Definition succeeded (outcome : CmdResult) : bool :=
  match outcome with
  | Out _ => true
  | Fails _ => false
  end.

(** Whether a listing of containers shows a name; a listing that failed
    shows nothing. *)
Definition shows (outcome : CmdResult) (name : string) : bool :=
  match outcome with
  | Out names => JS.includes names name
  | Fails _ => false
  end.

(** The unit file the service probe looks for. *)
Definition unitFile : string := "/etc/systemd/system/synchronizer-cli.service".

(** The three fields the service probe writes. *)
Definition serviceFields (s : Status) : ServiceState * bool * option string :=
  (serviceStatus s, autoStart s, uptime s).

(** The image summary built at history [tr]: the two known images are
    inspected in order, an image counts when [needsPull] says so, and the
    summary is stamped after the second inspection. *)
Definition inspectedSummary (w : World) (tr : list Event) : ImageUpdates :=
  let first := "cdrakep/synqchronizer:latest" in
  let second := "cdrakep/synqchronizer-test-fixed:latest" in
  let stale1 := needsPull (exec_result w tr (images_command first)) in
  let stale2 :=
    needsPull (exec_result w (tr ++ [EvExec (images_command first)])%list
                 (images_command second)) in
  {| available := ((if stale1 then 1 else 0) + (if stale2 then 1 else 0))%Z;
     lastChecked :=
       Some (clock_iso w (tr ++ [EvExec (images_command first);
                                 EvExec (images_command second)])%list);
     images := [imageEntry first stale1; imageEntry second stale2];
     iu_error := None |}.

(** * Sample worlds and configurations *)

(** A config that only sets what the dashboard looks at. *)
Definition dashboardConfig (password : JS.jsval) : Config :=
  {| key := Some "3f2a9c1e-7b4d-4e6f-9a1b-0c2d3e4f5a6b";
     wallet := Some "0xAB";
     account := None;
     hostname := Some "node1";
     syncHash := Some "synq-0123456789ab";
     depin := None;
     dashboardPassword := password |}.

(** A request that carries Basic credentials. *)
Definition basicAuth (token : string) : Request :=
  {| authorization := Some ("Basic " ++ token); authenticated := false |}.

(** A world whose answers do not depend on the history: [exec] answers the
    commands, every file exists (and none can be read) or none does, the
    registry answers [registry], and [Math.random] always gives [r]. *)
Definition sampleWorld (exec : string -> CmdResult) (files : bool)
  (registry : FetchResult) (r : float) : World :=
  {| os_hostname := "node1"; os_arch := "x64"; os_platform := "linux";
     os_username := "operator"; package_version := "1.0.0";
     exec_result := fun _ cmd => exec cmd;
     fs_existsSync := fun _ => files;
     fs_readFileSync :=
       fun _ => if files then inr "EACCES: permission denied"
                else inr "ENOENT: no such file or directory";
     CONFIG_FILE := "/home/operator/.synchronizer-cli/config.json";
     JSON_parse := fun _ => inr "Unexpected end of JSON input";
     fetch_result := fun _ _ _ => registry;
     confirm_answer := fun _ => false;
     child_outcome := fun _ => ChildExit 0;
     clock_iso := fun _ => "2025-01-03T00:00:00.000Z";
     clock_ms := fun _ => 172800000%float;
     date_parse := fun _ => Some 0%float;
     date_iso := fun _ => "1970-01-01T00:00:00.000Z";
     random := fun _ => r;
     toFixed1 := fun _ => "48.0";
     scan_logs := fun _ => None |}.

(** What [systemctl status] prints for the running service. *)
Definition activeOutput : string :=
  "synchronizer-cli.service - Multisynq Synchronizer headless service" ++ nl ++
  "   Loaded: loaded (/etc/systemd/system/synchronizer-cli.service; enabled)" ++ nl ++
  "   Active: active (running) since Wed 2025-01-01 00:00:00 UTC; 2 days ago" ++ nl.

(** The service is active and a worker container runs and logs its
    connection. *)
Definition exec_working (cmd : string) : CmdResult :=
  if String.eqb cmd "docker --version" then Out "Docker version 27.0.1"
  else if String.eqb cmd systemctl_command then Out activeOutput
  else if String.eqb cmd (ps_command "synchronizer-cli") then Out ("synchronizer-cli" ++ nl)
  else if String.eqb cmd "docker logs synchronizer-cli --tail 100"
       then Out ("proxy-connected" ++ nl)
  else if JS.startsWith cmd "docker inspect " then Out ("1970-01-01T00:00:00Z" ++ nl)
  else if JS.startsWith cmd "docker images " then Out ("0123456789ab" ++ nl)
  else Fails "Command failed".

(** The service is active but no worker container can be found. *)
Definition exec_no_container (cmd : string) : CmdResult :=
  if String.eqb cmd "docker --version" then Out "Docker version 27.0.1"
  else if String.eqb cmd systemctl_command then Out activeOutput
  else if JS.startsWith cmd "docker ps " then Out ""
  else if JS.startsWith cmd "docker images " then Out ("0123456789ab" ++ nl)
  else Fails "Command failed".

(** Nothing is installed: every command fails. *)
Definition exec_nothing (cmd : string) : CmdResult := Fails "Command failed".

(** Three hosts, none of which reaches the registry. *)
Definition workingWorld : World :=
  sampleWorld exec_working true (NetworkError "getaddrinfo ENOTFOUND") 0.

Definition noContainerWorld : World :=
  sampleWorld exec_no_container true (NetworkError "getaddrinfo ENOTFOUND") 0.

Definition bareWorld : World :=
  sampleWorld exec_nothing false (NetworkError "getaddrinfo ENOTFOUND") 0.

(** The state a command or a request starts from. *)
Definition st0 : St := {| trace := []; draws := 0 |}.

(** A complete config for host [node1]. *)
Definition sampleConfig : Config := dashboardConfig None.

(** Stats whose three indicators are all poor. *)
Definition poorStats : ContainerStats :=
  {| bytesIn := 0; bytesOut := 0; bytesInDelta := 0; bytesOutDelta := 0;
     sessions := 0; users := 0; syncLifePoints := 0; syncLifePointsDelta := 0;
     syncLifeTraffic := 0; walletLifePoints := 0;
     availability := 2; reliability := 2; efficiency := 2;
     proxyConnectionState := "UNAVAILABLE"; cs_now := 0; uptimeHours := 1;
     isEarningPoints := false; hasRealStats := false;
     containerStartTime := "1970-01-01T00:00:00.000Z" |}.

(** A config written on another machine. *)
Definition foreignConfig : Config :=
  {| key := Some "3f2a9c1e-7b4d-4e6f-9a1b-0c2d3e4f5a6b";
     wallet := Some "0xAB";
     account := None;
     hostname := Some "node2";
     syncHash := Some "synq-0123456789ab";
     depin := None;
     dashboardPassword := None |}.

(** The registry's answer for a wallet it does not know. *)
Definition notFound : Response :=
  {| ok := false; status := "404"; text := inl "Not Found";
     json := inr "Unexpected token N in JSON at position 0" |}.

(** The runtime is installed, no worker container runs, and the registry
    answers 404 on every endpoint. *)
Definition offlineWorld : World :=
  sampleWorld exec_no_container true (Responds notFound) 0.

(** Ports 3000 to 3004 are taken. *)
Definition busy_below_3005 (port : Z) : bool := (3005 <=? port)%Z.

(** What the registry answers for a wallet with 1200 credits. *)
Definition walletRecord : WalletJson :=
  {| serviceCredits := Some 1200%float; lastWithdrawnCredits := None;
     lastUpdated := None |}.

Definition walletFound : Response :=
  {| ok := true; status := "200"; text := inl "{}"; json := inl walletRecord |}.

(** Nothing is installed, and the registry knows the wallet. *)
Definition onlineWorld : World :=
  sampleWorld exec_nothing false (Responds walletFound) 0.

Definition launchWorld (outcome : ChildOutcome) : World :=
  {| os_hostname := "node1"; os_arch := "x64"; os_platform := "linux";
     os_username := "operator"; package_version := "1.0.0";
     exec_result := fun _ cmd => exec_no_container cmd;
     fs_existsSync := fun _ => true;
     fs_readFileSync := fun _ => inr "EACCES: permission denied";
     CONFIG_FILE := "/home/operator/.synchronizer-cli/config.json";
     JSON_parse := fun _ => inr "Unexpected end of JSON input";
     fetch_result := fun _ _ _ => NetworkError "getaddrinfo ENOTFOUND";
     confirm_answer := fun _ => false;
     child_outcome := fun _ => outcome;
     clock_iso := fun _ => "2025-01-03T00:00:00.000Z";
     clock_ms := fun _ => 172800000%float;
     date_parse := fun _ => Some 0%float;
     date_iso := fun _ => "1970-01-01T00:00:00.000Z";
     random := fun _ => 0%float;
     toFixed1 := fun _ => "48.0";
     scan_logs := fun _ => None |}.

(** A host with a loopback interface, the bridge of the container runtime
    and one Ethernet card on the local network. *)
Definition sampleInterfaces : list (string * list NetAddress) :=
  [("lo", [{| na_family := "IPv4"; na_internal := true; na_address := "127.0.0.1";
              na_mac := "00:00:00:00:00:00" |}]);
   ("docker0", [{| na_family := "IPv4"; na_internal := false; na_address := "172.17.0.1";
                   na_mac := "02:42:ac:11:00:01" |}]);
   ("eth0", [{| na_family := "IPv6"; na_internal := false; na_address := "fe80::1";
                na_mac := "52:54:00:12:34:56" |};
             {| na_family := "IPv4"; na_internal := false; na_address := "192.168.1.5";
                na_mac := "52:54:00:12:34:56" |}])].

(** The world [w] with a config file in place, whose text parses to
    [content]. *)
Definition withConfigFile (w : World) (content : option Config + string) : World :=
  {| os_hostname := os_hostname w; os_arch := os_arch w;
     os_platform := os_platform w; os_username := os_username w;
     package_version := package_version w;
     exec_result := exec_result w;
     fs_existsSync := fun path => String.eqb path (CONFIG_FILE w) || fs_existsSync w path;
     fs_readFileSync :=
       fun path => if String.eqb path (CONFIG_FILE w) then inl "(the text of config.json)"
                   else fs_readFileSync w path;
     CONFIG_FILE := CONFIG_FILE w;
     JSON_parse := fun _ => content;
     fetch_result := fetch_result w;
     confirm_answer := confirm_answer w;
     child_outcome := child_outcome w;
     clock_iso := clock_iso w;
     clock_ms := clock_ms w;
     date_parse := date_parse w;
     date_iso := date_iso w;
     random := random w;
     toFixed1 := toFixed1 w;
     scan_logs := scan_logs w |}.

(** A host where nothing is installed and the operator agrees to every
    question; its release file names Ubuntu. *)
Definition agreeingWorld : World :=
  {| os_hostname := "node1"; os_arch := "x64"; os_platform := "linux";
     os_username := "operator"; package_version := "1.0.0";
     exec_result := fun _ _ => Fails "Command failed";
     fs_existsSync := fun _ => false;
     fs_readFileSync :=
       fun path => if String.eqb path "/etc/os-release"
                   then inl ("NAME=Ubuntu" ++ nl ++ "ID=ubuntu" ++ nl)
                   else inr "ENOENT: no such file or directory";
     CONFIG_FILE := "/home/operator/.synchronizer-cli/config.json";
     JSON_parse := fun _ => inr "Unexpected end of JSON input";
     fetch_result := fun _ _ _ => NetworkError "getaddrinfo ENOTFOUND";
     confirm_answer := fun _ => true;
     child_outcome := fun _ => ChildExit 0;
     clock_iso := fun _ => "2025-01-03T00:00:00.000Z";
     clock_ms := fun _ => 172800000%float;
     date_parse := fun _ => Some 0%float;
     date_iso := fun _ => "1970-01-01T00:00:00.000Z";
     random := fun _ => 0%float;
     toFixed1 := fun _ => "48.0";
     scan_logs := fun _ => None |}.

(** The runtime is installed but cannot inspect an image: only the version
    probe succeeds. *)
Definition exec_no_inspection (cmd : string) : CmdResult :=
  if String.eqb cmd "docker --version" then Out "Docker version 27.0.1"
  else Fails "Command failed".

Definition noInspectionWorld : World :=
  sampleWorld exec_no_inspection false (NetworkError "getaddrinfo ENOTFOUND") 0.

(** * Properties *)

(** ** The model at work *)

Example Math_round_tie : JS.Math_round 2.5 = 3%float.
Proof. reflexivity. Qed.

Example Math_round_negative_tie : JS.Math_round (-2.5) = (-2)%float.
Proof. reflexivity. Qed.

Example Math_floor_mean : JS.Math_floor ((85 + 90 + 75) / 3) = 83%float.
Proof. reflexivity. Qed.

Example trim_output : JS.trim ("  0123456789ab" ++ nl) = "0123456789ab".
Proof. reflexivity. Qed.

Example split_credentials : JS.split ":" "user:ab:cd" = ["user"; "ab"; "cd"].
Proof. reflexivity. Qed.

Example decode_stops_at_padding :
  Base64.decode "dXNl=cjphYmNk" = "use" /\
  Base64.decode "dXNlcjphYmNk==YQ" = "user:abcd" /\
  Base64.decode "dXNlcjphYmNk" = "user:abcd".
Proof. repeat split. Qed.

Example inner_padding_refused :
  authenticateRequest (dashboardConfig (Some "abcd")) (basicAuth "dXNl=cjphYmNk")
  = challenge "Invalid credentials".
Proof. reflexivity. Qed.

Example text_after_padding_ignored :
  authenticateRequest (dashboardConfig (Some "abcd")) (basicAuth "dXNlcjphYmNk==YQ")
  = Next {| authorization := Some "Basic dXNlcjphYmNk==YQ"; authenticated := true |}.
Proof. reflexivity. Qed.

Example loadConfig_reads_file :
  loadConfig (withConfigFile bareWorld (inl (Some sampleConfig))) st0
  = (Val (Some sampleConfig), st0) /\
  loadConfig bareWorld st0 = (Val (Some emptyConfig), st0) /\
  loadConfig (withConfigFile bareWorld (inl None)) st0 = (Val None, st0) /\
  loadConfig workingWorld st0 = (Throw "EACCES: permission denied", st0).
Proof. repeat split. Qed.

Example decode_credentials : Base64.decode "YWRtaW46aHVudGVyMg==" = "admin:hunter2".
Proof. reflexivity. Qed.

Example match_since_active :
  match_since "   Active: active (running) since Wed 2025-01-01 00:00:00 UTC; 2 days ago"
  = Some "Wed 2025-01-01 00:00:00 UTC".
Proof. reflexivity. Qed.

Example status_of_working_world :
  exists status st',
    getSystemStatus sampleConfig workingWorld st0 = (Val status, st') /\
    serviceStatus status = running /\ dockerAvailable status = true /\
    autoStart status = true /\ containerRunning status = true /\
    uptime status = Some "Wed 2025-01-01 00:00:00 UTC".
Proof. eexists; eexists. split; [vm_compute; reflexivity|]. repeat split. Qed.

(** On its own host, with the runtime installed and no container of that
    name, [start] inspects the local image and launches the container, key
    and wallet in the argument list. *)
Example start_launches :
  start sampleConfig noContainerWorld st0 =
    (Exit 0,
     {| trace :=
          [EvExec "docker --version";
           EvExec (ps_command "synchronizer-cli");
           EvLog "Detected platform: linux/x64 -> Using Docker platform: linux/amd64";
           EvLog "Using launcher identifier: cli-1.0.0/docker-2.1.3";
           EvExec (images_command "cdrakep/synqchronizer:latest");
           EvLog ("Running synchronizer " ++ JS.dq ++ "synq-0123456789ab" ++ JS.dq
                  ++ " with wallet 0xAB");
           EvLog ("Running command: docker run --rm --name synchronizer-cli "
                  ++ "--pull always --platform linux/amd64 cdrakep/synqchronizer:latest "
                  ++ "--depin wss://api.multisynq.io/depin --sync-name synq-0123456789ab "
                  ++ "--launcher cli-1.0.0/docker-2.1.3 "
                  ++ "--key 3f2a9c1e-7b4d-4e6f-9a1b-0c2d3e4f5a6b --wallet 0xAB");
           EvSpawn "docker"
             [Some "run"; Some "--rm"; Some "--name"; Some "synchronizer-cli";
              Some "--pull"; Some "always"; Some "--platform"; Some "linux/amd64";
              Some "cdrakep/synqchronizer:latest";
              Some "--depin"; Some "wss://api.multisynq.io/depin";
              Some "--sync-name"; Some "synq-0123456789ab";
              Some "--launcher"; Some "cli-1.0.0/docker-2.1.3";
              Some "--key"; Some "3f2a9c1e-7b4d-4e6f-9a1b-0c2d3e4f5a6b";
              Some "--wallet"; Some "0xAB"]];
        draws := 0 |}).
Proof. vm_compute. reflexivity. Qed.

(** ** Strings *)

Lemma startsWith_app (p s : string) : JS.startsWith (p ++ s) p = true.
Proof.
  induction p as [|c p IH]; simpl.
  - destruct s; reflexivity.
  - rewrite Ascii.eqb_refl. exact IH.
Qed.

Lemma includes_here (s p : string) :
  JS.startsWith s p = true -> JS.includes s p = true.
Proof.
  intros H. destruct s; cbn [JS.includes]; rewrite H; reflexivity.
Qed.

Lemma includes_app_l (a s p : string) :
  JS.includes s p = true -> JS.includes (a ++ s) p = true.
Proof.
  intros H. induction a as [|c a IH]; cbn [append JS.includes].
  - exact H.
  - rewrite IH. apply orb_true_r.
Qed.

Lemma includes_middle (a k b : string) : JS.includes (a ++ k ++ b) k = true.
Proof.
  apply includes_app_l, includes_here, startsWith_app.
Qed.

Lemma strict_eq_false (a : JS.jsval) (s : string) :
  a <> Some s -> JS.strict_eq a (Some s) = false.
Proof.
  intros H. destruct a as [x|]; simpl; [|reflexivity].
  destruct (String.eqb_spec x s) as [->|]; [now elim H | reflexivity].
Qed.

Lemma or_else_truthy (v : JS.jsval) (d : string) :
  JS.truthy v = true -> Some (JS.or_else v d) = v.
Proof.
  destruct v as [[|c s]|]; simpl; intros H; try discriminate; reflexivity.
Qed.

(** ** Image freshness *)

Lemma isNewDockerImageAvailable_run (w : World) (image : string) (st : St) :
  isNewDockerImageAvailable image w st =
  (Val (needsPull (exec_result w (trace st) (images_command image))),
   {| trace := trace st ++ [EvExec (images_command image)]; draws := draws st |}).
Proof.
  unfold isNewDockerImageAvailable, try_catch, bind, execSync, ret, needsPull.
  fold (images_command image).
  destruct (exec_result w (trace st) (images_command image)) as [ids|e]; simpl.
  - destruct (String.eqb (JS.trim ids) ""); reflexivity.
  - reflexivity.
Qed.

(** C5.  [isNewDockerImageAvailable] always returns; it answers [true] when
    the local inspection fails or lists no image for the reference, and
    [false] as soon as the inspection lists an image, whatever its
    identifier; the only thing it does is the one local [docker images]
    command (no pull, no registry query, no digest). *)
Theorem needsPull_local_only (w : World) (image : string) (st : St) :
  exists b st',
    isNewDockerImageAvailable image w st = (Val b, st') /\
    trace st' = (trace st ++ [EvExec (images_command image)])%list /\
    (forall e, exec_result w (trace st) (images_command image) = Fails e -> b = true) /\
    (forall ids, exec_result w (trace st) (images_command image) = Out ids ->
                 JS.trim ids = "" -> b = true) /\
    (forall ids, exec_result w (trace st) (images_command image) = Out ids ->
                 JS.trim ids <> "" -> b = false).
Proof.
  rewrite isNewDockerImageAvailable_run.
  eexists; eexists; split; [reflexivity|].
  split; [reflexivity|].
  repeat split.
  - intros e ->. reflexivity.
  - intros ids -> H. simpl. rewrite H. reflexivity.
  - intros ids -> H. simpl. now apply String.eqb_neq.
Qed.

(** ** Supervisor *)

(** C6.  With a key but a [hostname] that is not this host's, [start]
    ends the process with exit code 1, and all it has done by then is
    print one error message: no command was executed and nothing was
    spawned. *)
Theorem start_foreign_host_refused (w : World) (config : Config) (st : St) :
  JS.truthy (key config) = true ->
  hostname config <> Some (os_hostname w) ->
  exists events,
    start config w st =
      (Exit 1, {| trace := (trace st ++ events)%list; draws := draws st |}) /\
    no_runtime_call events.
Proof.
  intros Hkey Hhost.
  exists [EvError ("This config was created for " ++ JS.to_str (hostname config)
                   ++ ", not " ++ os_hostname w ++ ".")].
  split.
  - unfold start, bind at 1 2 3. unfold when at 1. rewrite Hkey. simpl negb.
    unfold ret at 1, ask at 1. unfold when at 1.
    rewrite (strict_eq_false _ _ Hhost). simpl negb.
    reflexivity.
  - intros e [<-|[]]. exact I.
Qed.

Lemma start_foreign_host_refused_witness :
  exists events,
    start foreignConfig workingWorld st0 =
      (Exit 1, {| trace := (trace st0 ++ events)%list; draws := draws st0 |}) /\
    no_runtime_call events.
Proof.
  apply (start_foreign_host_refused workingWorld foreignConfig st0).
  - reflexivity.
  - discriminate.
Defined.

Lemma optional_pair_truthy (flag : string) (v : JS.jsval) :
  (if JS.truthy v then [Some flag; v] else []) = optional_pair flag v.
Proof. destruct v as [[|c s]|]; reflexivity. Qed.

(** C7.  The argument list of [start] is the nine fixed arguments, then
    [--depin] (the configured endpoint or the default one), [--sync-name],
    [--launcher] and [--key] with their values, then the wallet pair, then
    the account pair; a pair is present exactly when its field holds a
    non-empty string, so no flag is ever followed by an empty value; and
    [installService] renders the same list, joined by spaces. *)
Theorem start_args_layout (config : Config) (platform launcher : string) :
  start_args config platform launcher =
    ([Some "run"; Some "--rm"; Some "--name"; Some "synchronizer-cli";
      Some "--pull"; Some "always"; Some "--platform"; Some platform;
      Some "cdrakep/synqchronizer:latest";
      Some "--depin"; Some (JS.or_else (depin config) "wss://api.multisynq.io/depin");
      Some "--sync-name"; syncHash config;
      Some "--launcher"; Some launcher;
      Some "--key"; key config]
     ++ optional_pair "--wallet" (wallet config)
     ++ optional_pair "--account" (account config))%list
  /\ (forall flag v, optional_pair flag v = [] \/
                     exists c s, optional_pair flag v = [Some flag; Some (String c s)])
  /\ (wallet config = None -> account config = None ->
      length (start_args config platform launcher) = 17%nat)
  /\ installService_dockerArgs config platform launcher =
     JS.join " " (start_args config platform launcher).
Proof.
  assert (Hlayout :
    start_args config platform launcher =
    ([Some "run"; Some "--rm"; Some "--name"; Some "synchronizer-cli";
      Some "--pull"; Some "always"; Some "--platform"; Some platform;
      Some "cdrakep/synqchronizer:latest";
      Some "--depin"; Some (JS.or_else (depin config) "wss://api.multisynq.io/depin");
      Some "--sync-name"; syncHash config;
      Some "--launcher"; Some launcher;
      Some "--key"; key config]
     ++ optional_pair "--wallet" (wallet config)
     ++ optional_pair "--account" (account config))%list).
  { unfold start_args, containerName, imageName.
    rewrite <- !optional_pair_truthy.
    destruct (depin config) as [[|c s]|];
      destruct (JS.truthy (wallet config)), (JS.truthy (account config));
      reflexivity. }
  split; [exact Hlayout|].
  split.
  { intros flag [[|c s]|]; simpl; [left|right|left]; try reflexivity.
    now exists c, s. }
  split.
  { intros Hw Ha. rewrite Hlayout, Hw, Ha. reflexivity. }
  rewrite Hlayout. unfold installService_dockerArgs.
  rewrite !optional_pair_truthy. reflexivity.
Qed.

(** ** Dashboard authentication *)

Lemma generateDashboardHTML_embeds (w : World) (markup : nat -> string)
  (config : Config) (metricsPort : string) (authenticated : bool)
  (primaryIP : JS.jsval) :
  (forall k, key config = Some k ->
     JS.includes (generateDashboardHTML w markup config metricsPort authenticated primaryIP) k
     = true) /\
  (forall a, wallet config = Some a ->
     JS.includes (generateDashboardHTML w markup config metricsPort authenticated primaryIP) a
     = true).
Proof.
  unfold generateDashboardHTML. split.
  - intros k Hk. rewrite Hk.
    destruct k as [|c k].
    + destruct (_ ++ _); reflexivity.
    + cbn [JS.or_else].
      repeat (apply includes_middle || apply includes_app_l).
  - intros a Ha. rewrite Ha.
    destruct a as [|c a].
    + destruct (_ ++ _); reflexivity.
    + cbn [JS.or_else].
      repeat (apply includes_middle || apply includes_app_l).
Qed.

(** C10.  Without a dashboard password the middleware passes every
    request on unchanged, whatever its [Authorization] header; the values
    the page computes for display are the real key and wallet, not the
    masks, and the page served contains them. *)
Theorem no_password_open_dashboard (w : World) (markup : nat -> string)
  (config : Config) (metricsPort : string) (primaryIP : JS.jsval) (req : Request) :
  JS.truthy (dashboardPassword config) = false ->
  authenticateRequest config req = Next req /\
  maskedKey config (authenticated req) = key config /\
  maskedWallet config (authenticated req) = wallet config /\
  (exists html,
     guiApp_get_root w markup config config metricsPort primaryIP req =
       Responded 200 [] html /\
     html = generateDashboardHTML w markup config metricsPort (authenticated req) primaryIP /\
     (forall k, key config = Some k -> JS.includes html k = true) /\
     (forall a, wallet config = Some a -> JS.includes html a = true)).
Proof.
  intros Hpw.
  assert (Hnext : authenticateRequest config req = Next req).
  { unfold authenticateRequest. rewrite Hpw. reflexivity. }
  split; [exact Hnext|].
  unfold maskedKey, maskedWallet, showSensitiveData. rewrite Hpw. cbn [negb orb].
  split; [reflexivity|]. split; [reflexivity|].
  eexists. split; [|split; [reflexivity|]].
  - unfold guiApp_get_root. rewrite Hnext. reflexivity.
  - apply generateDashboardHTML_embeds.
Qed.

Lemma no_password_open_dashboard_witness :
  authenticateRequest (dashboardConfig None) (basicAuth "bm9ib2R5Ong=") =
    Next (basicAuth "bm9ib2R5Ong=").
Proof.
  refine (proj1 (no_password_open_dashboard bareWorld (fun _ => "")
                   (dashboardConfig None) "3001" None (basicAuth "bm9ib2R5Ong=") _)).
  reflexivity.
Defined.

Lemma split_no_colon (s : string) :
  has_colon s = false -> JS.split ":" s = [s].
Proof.
  induction s as [|c s IH]; cbn [has_colon JS.split]; intros H; [reflexivity|].
  apply orb_false_elim in H as [Hc Hs].
  rewrite Hc, (IH Hs). reflexivity.
Qed.

Lemma split_first_colon (u rest : string) :
  has_colon u = false ->
  JS.split ":" (u ++ String ":" rest) = u :: JS.split ":" rest.
Proof.
  induction u as [|c u IH]; cbn [has_colon JS.split append]; intros H.
  - reflexivity.
  - apply orb_false_elim in H as [Hc Hu].
    rewrite Hc, (IH Hu). reflexivity.
Qed.

(** X25.  Where the password check is exact: for credentials [user:pass] with no further
    colon, access is granted exactly when [pass] is the configured
    password. *)
Lemma authenticateRequest_plain_password (config : Config)
  (token user pass pw : string) :
  dashboardPassword config = Some pw ->
  JS.truthy (Some pw) = true ->
  Base64.decode token = user ++ ":" ++ pass ->
  has_colon user = false ->
  has_colon pass = false ->
  (authenticateRequest config (basicAuth token) =
     Next {| authorization := Some ("Basic " ++ token); authenticated := true |}
   <-> pass = pw) /\
  (pass <> pw ->
   authenticateRequest config (basicAuth token) = challenge "Invalid credentials").
Proof.
  intros Hpw Htruthy Hdec Hu Hp.
  unfold authenticateRequest, basicAuth. cbn [authorization].
  rewrite Hpw, Htruthy. cbn [negb].
  cbn [append JS.truthy JS.startsWith JS.slice Ascii.eqb Bool.eqb andb negb orb].
  rewrite Hdec. change (user ++ ":" ++ pass) with (user ++ String ":" pass).
  rewrite (split_first_colon _ _ Hu), (split_no_colon _ Hp).
  cbn [nth_error JS.strict_eq].
  destruct (String.eqb_spec pass pw) as [->|Hne].
  - split; [split; reflexivity|]. intros H. now elim H.
  - split; [|reflexivity]. split; [discriminate | intros H; now elim Hne].
Qed.

(** C8, at the failing input.  With the password [ab:cd] configured, the
    request of user [user] with exactly that password is refused: the
    credentials are cut at every colon and only the piece after the first
    one is compared.  For the same reason a request whose password is
    [abcd:zzz] is let in when [abcd] is configured.  A request without
    credentials gets the challenge and a fixed text, no credential values;
    and the page itself, rendered for a visitor who is not authenticated,
    holds the mask only in [maskedKey], which it does not print, and
    contains the real key. *)
Theorem authenticateRequest_colon_password :
  Base64.decode "dXNlcjphYjpjZA==" = "user:ab:cd" /\
  authenticateRequest (dashboardConfig (Some "ab:cd")) (basicAuth "dXNlcjphYjpjZA==") =
    Responded 401
      [("WWW-Authenticate", "Basic realm=" ++ JS.dq ++ "Synchronizer Dashboard" ++ JS.dq)]
      "Invalid credentials" /\
  Base64.decode "dXNlcjphYmNkOnp6eg==" = "user:abcd:zzz" /\
  authenticateRequest (dashboardConfig (Some "abcd")) (basicAuth "dXNlcjphYmNkOnp6eg==") =
    Next {| authorization := Some "Basic dXNlcjphYmNkOnp6eg=="; authenticated := true |} /\
  authenticateRequest (dashboardConfig (Some "ab:cd"))
    {| authorization := None; authenticated := false |} =
    Responded 401
      [("WWW-Authenticate", "Basic realm=" ++ JS.dq ++ "Synchronizer Dashboard" ++ JS.dq)]
      "Authentication required" /\
  maskedKey (dashboardConfig (Some "ab:cd")) false = Some keyMask /\
  (forall w markup metricsPort primaryIP,
     JS.includes
       (generateDashboardHTML w markup (dashboardConfig (Some "ab:cd")) metricsPort
          false primaryIP)
       "3f2a9c1e-7b4d-4e6f-9a1b-0c2d3e4f5a6b" = true).
Proof.
  repeat (split; [vm_compute; reflexivity|]).
  intros w markup metricsPort primaryIP.
  apply (proj1 (generateDashboardHTML_embeds w markup _ metricsPort false primaryIP)).
  reflexivity.
Qed.

(** ** Computations that cannot end the process, computations that return *)

Lemma returns_no_exit {A} (m : M A) : returns m -> no_exit m.
Proof.
  intros H w st c st' E. destruct (H w st) as (a & st1 & E1). congruence.
Qed.

Lemma no_exit_ret {A} (a : A) : no_exit (ret a).
Proof. intros w st c st'. discriminate. Qed.

Lemma no_exit_throw {A} (e : string) : no_exit (@throw A e).
Proof. intros w st c st'. discriminate. Qed.

Lemma no_exit_bind {A B} (m : M A) (k : A -> M B) :
  no_exit m -> (forall a, no_exit (k a)) -> no_exit (bind m k).
Proof.
  intros Hm Hk w st c st'. unfold bind.
  destruct (m w st) as [[a|e|c'] st1] eqn:E.
  - apply Hk.
  - discriminate.
  - elim (Hm _ _ _ _ E).
Qed.

Lemma no_exit_try_catch {A} (body : M A) (handler : string -> M A) :
  no_exit body -> (forall e, no_exit (handler e)) -> no_exit (try_catch body handler).
Proof.
  intros Hb Hh w st c st'. unfold try_catch.
  destruct (body w st) as [[a|e|c'] st1] eqn:E.
  - discriminate.
  - apply Hh.
  - elim (Hb _ _ _ _ E).
Qed.

Lemma no_exit_execSync (cmd : string) : no_exit (execSync cmd).
Proof.
  intros w st c st'. unfold execSync.
  destruct (exec_result w (trace st) cmd); discriminate.
Qed.

Lemma no_exit_fetch (url k : string) : no_exit (fetch url k).
Proof.
  intros w st c st'. unfold fetch.
  destruct (fetch_result w (trace st) url k); discriminate.
Qed.

Lemma no_exit_lift_sum {A} (r : A + string) : no_exit (lift_sum r).
Proof. destruct r; [apply no_exit_ret | apply no_exit_throw]. Qed.

Lemma returns_ret {A} (a : A) : returns (ret a).
Proof. intros w st. now exists a, st. Qed.

Lemma returns_ask {A} (f : World -> A) : returns (ask f).
Proof. intros w st. now exists (f w), st. Qed.

Lemma returns_ask_now {A} (f : World -> list Event -> A) : returns (ask_now f).
Proof. intros w st. now exists (f w (trace st)), st. Qed.

Lemma returns_emit (e : Event) : returns (emit e).
Proof. intros w st. eexists; eexists; reflexivity. Qed.

Lemma returns_Math_random : returns Math_random.
Proof. intros w st. eexists; eexists; reflexivity. Qed.

Lemma returns_bind {A B} (m : M A) (k : A -> M B) :
  returns m -> (forall a, returns (k a)) -> returns (bind m k).
Proof.
  intros Hm Hk w st. unfold bind.
  destruct (Hm w st) as (a & st1 & ->). apply Hk.
Qed.

Lemma returns_try_catch {A} (body : M A) (handler : string -> M A) :
  no_exit body -> (forall e, returns (handler e)) -> returns (try_catch body handler).
Proof.
  intros Hb Hh w st. unfold try_catch.
  destruct (body w st) as [[a|e|c] st1] eqn:E.
  - now exists a, st1.
  - apply Hh.
  - elim (Hb _ _ _ _ E).
Qed.

Create HintDb effects.

#[local] Hint Resolve no_exit_ret no_exit_throw no_exit_execSync no_exit_fetch
  no_exit_lift_sum returns_ret returns_ask returns_ask_now returns_emit
  returns_Math_random : effects.

(** Decomposes a goal [no_exit m] or [returns m] along the structure of
    [m]. *)
Ltac effects :=
  repeat first
    [ progress intros
    | solve [auto with effects]
    | solve [apply returns_no_exit; auto with effects]
    | apply returns_bind
    | apply returns_try_catch
    | apply no_exit_bind
    | apply no_exit_try_catch
    | match goal with
      | |- returns (if ?c then _ else _) => destruct c
      | |- no_exit (if ?c then _ else _) => destruct c
      | |- returns (match ?x with _ => _ end) => destruct x
      | |- no_exit (match ?x with _ => _ end) => destruct x
      end ].

Lemma returns_console_log (msg : string) : returns (console_log msg).
Proof. apply returns_emit. Qed.

Lemma returns_console_error (msg : string) : returns (console_error msg).
Proof. apply returns_emit. Qed.

#[local] Hint Resolve returns_console_log returns_console_error : effects.

Lemma returns_isNewDockerImageAvailable (image : string) :
  returns (isNewDockerImageAvailable image).
Proof.
  intros w st. rewrite isNewDockerImageAvailable_run. eexists; eexists; reflexivity.
Qed.

#[local] Hint Resolve returns_isNewDockerImageAvailable : effects.

Lemma returns_random_if (c : bool) (n k : float) : returns (random_if c n k).
Proof. unfold random_if. effects. Qed.

Lemma returns_random_percent (c : bool) (b n o : float) :
  returns (random_percent c b n o).
Proof. unfold random_percent. effects. Qed.

Lemma returns_randomFactor : returns randomFactor.
Proof. unfold randomFactor. effects. Qed.

#[local] Hint Resolve returns_random_if returns_random_percent
  returns_randomFactor : effects.

Lemma returns_syntheticPerformance : returns syntheticPerformance.
Proof. unfold syntheticPerformance. effects. Qed.

Lemma returns_findRunning (names : list string) : returns (findRunning names).
Proof.
  induction names as [|name rest IH]; cbn [findRunning]; effects.
Qed.

#[local] Hint Resolve returns_syntheticPerformance returns_findRunning : effects.

Lemma returns_getContainerStats : returns getContainerStats.
Proof. unfold getContainerStats. effects. Qed.

Lemma returns_checkImages (images : list string) :
  forall n l, returns (checkImages images n l).
Proof.
  induction images as [|image rest IH]; intros n l; cbn [checkImages]; effects.
Qed.

#[local] Hint Resolve returns_getContainerStats returns_checkImages : effects.

Lemma returns_probeDocker (s : Status) : returns (probeDocker s).
Proof. unfold probeDocker. effects. Qed.

Lemma returns_probeService (s : Status) : returns (probeService s).
Proof. unfold probeService. effects. Qed.

Lemma returns_probeContainer (s : Status) : returns (probeContainer s).
Proof. unfold probeContainer. effects. Qed.

Lemma returns_probeImages (s : Status) : returns (probeImages s).
Proof. unfold probeImages. effects. Qed.

#[local] Hint Resolve returns_probeDocker returns_probeService
  returns_probeContainer returns_probeImages : effects.

Lemma returns_getSystemStatus (config : Config) : returns (getSystemStatus config).
Proof. unfold getSystemStatus. effects. Qed.

#[local] Hint Resolve returns_getSystemStatus : effects.

Lemma returns_getPerformanceData (config : Config) :
  returns (getPerformanceData config).
Proof. unfold getPerformanceData. effects. Qed.

Lemma returns_fetchWalletLifetimePoints (k a : JS.jsval) (config : Config) :
  returns (fetchWalletLifetimePoints k a config).
Proof. unfold fetchWalletLifetimePoints. effects. Qed.

#[local] Hint Resolve returns_fetchWalletLifetimePoints : effects.

Lemma returns_getPointsData (config : Config) : returns (getPointsData config).
Proof. unfold getPointsData. effects. Qed.

(** ** Performance and quality of service *)

(** The three branches of [getPerformanceData], each under the condition
    that selects it. *)
Lemma getPerformanceData_measured (w : World) (config : Config) (st st1 st2 : St)
  (status : Status) (cs : ContainerStats) :
  getSystemStatus config w st = (Val status, st1) ->
  serviceStatus status = running ->
  getContainerStats w st1 = (Val (Some cs), st2) ->
  getPerformanceData config w st =
    (Val {| pv_timestamp := clock_iso w (trace st2);
            performance := fst (realPerformance cs);
            qos := snd (realPerformance cs) |}, st2).
Proof.
  intros Hs Hrun Hcs. unfold getPerformanceData.
  unfold bind at 1. rewrite Hs, Hrun. cbn [ServiceState_eqb].
  unfold bind at 1. unfold try_catch, bind at 1. rewrite Hcs.
  reflexivity.
Qed.

Lemma getPerformanceData_synthetic (w : World) (config : Config) (st st1 st2 : St)
  (status : Status) :
  getSystemStatus config w st = (Val status, st1) ->
  serviceStatus status = running ->
  getContainerStats w st1 = (Val None, st2) ->
  exists r st3,
    syntheticPerformance w st2 = (Val r, st3) /\
    getPerformanceData config w st =
      (Val {| pv_timestamp := clock_iso w (trace st3);
              performance := fst r; qos := snd r |}, st3).
Proof.
  intros Hs Hrun Hcs.
  destruct (returns_syntheticPerformance w st2) as (r & st3 & Hr).
  exists r, st3. split; [exact Hr|].
  unfold getPerformanceData.
  unfold bind at 1. rewrite Hs, Hrun. cbn [ServiceState_eqb].
  unfold bind at 1. unfold try_catch, bind at 1. rewrite Hcs, Hr.
  reflexivity.
Qed.

Lemma getPerformanceData_stopped (w : World) (config : Config) (st st1 : St)
  (status : Status) :
  getSystemStatus config w st = (Val status, st1) ->
  serviceStatus status <> running ->
  getPerformanceData config w st =
    (Val {| pv_timestamp := clock_iso w (trace st1);
            performance :=
              {| totalTraffic := 0; perf_sessions := 0; inTraffic := 0;
                 outTraffic := 0; perf_users := 0 |};
            qos := stoppedQoS (dockerAvailable status) |}, st1).
Proof.
  intros Hs Hrun. unfold getPerformanceData.
  unfold bind at 1. rewrite Hs.
  assert (E : ServiceState_eqb (serviceStatus status) running = false)
    by (destruct (serviceStatus status); try reflexivity; now elim Hrun).
  rewrite E. unfold stoppedQoS.
  destruct (dockerAvailable status); vm_compute; reflexivity.
Qed.

Lemma factor_out_of_range (i : Z) : (i < 0 \/ 3 <= i)%Z -> factor i = 0%float.
Proof.
  intros H. unfold factor.
  destruct (Z.ltb_spec i 0); [reflexivity|].
  replace (nth_error factors (Z.to_nat i)) with (@None float); [reflexivity|].
  symmetry. apply nth_error_None. cbn [factors length]. lia.
Qed.

(** The factor applied for an indicator as the container reports it. *)
Lemma factor_cases (i : Z) :
  (i = 1%Z /\ factor (indicator_or_2 i) = 0.8%float) \/
  ((i = 0%Z \/ i = 2%Z) /\ factor (indicator_or_2 i) = 0.5%float) \/
  (i <> 0%Z /\ i <> 1%Z /\ i <> 2%Z /\ factor (indicator_or_2 i) = 0%float).
Proof.
  destruct (Z.eq_dec i 0) as [->|H0]; [right; left; split; [now left | reflexivity]|].
  destruct (Z.eq_dec i 1) as [->|H1]; [left; split; reflexivity|].
  destruct (Z.eq_dec i 2) as [->|H2]; [right; left; split; [now right | reflexivity]|].
  right; right. repeat split; try assumption.
  unfold indicator_or_2. rewrite (proj2 (Z.eqb_neq i 0) H0).
  apply factor_out_of_range. lia.
Qed.

Ltac find_multiple k :=
  first [ exists k; split; [lia | vm_compute; reflexivity]
        | match k with
          | 20%Z => fail 1
          | _ => let k' := eval vm_compute in (k + 1)%Z in find_multiple k'
          end ].

Lemma realPerformance_score (cs : ContainerStats) :
  score (snd (realPerformance cs)) =
    (JS.Math_round
       (100 * factor (indicator_or_2 (availability cs))
            * factor (indicator_or_2 (reliability cs))
            * factor (indicator_or_2 (efficiency cs)) / 5) * 5)%float.
Proof. reflexivity. Qed.

Lemma realPerformance_score_multiple (cs : ContainerStats) :
  multiple_of_5_upto_100 (score (snd (realPerformance cs))).
Proof.
  rewrite realPerformance_score.
  destruct (factor_cases (availability cs)) as [[_ ->]|[[_ ->]|(_ & _ & _ & ->)]];
  destruct (factor_cases (reliability cs)) as [[_ ->]|[[_ ->]|(_ & _ & _ & ->)]];
  destruct (factor_cases (efficiency cs)) as [[_ ->]|[[_ ->]|(_ & _ & _ & ->)]];
  find_multiple 0%Z.
Qed.

Lemma stoppedQoS_score_multiple (b : bool) :
  multiple_of_5_upto_100 (score (stoppedQoS b)).
Proof. destruct b; find_multiple 0%Z. Qed.

(** C9.  On the path that uses the container's counters, an indicator the
    container reports as [0] (good) enters the computation as [2] (poor):
    its factor is [0.5] and its percentage is [20]. *)
Theorem zero_indicator_counts_as_poor (w : World) (config : Config)
  (st st1 st2 : St) (status : Status) (cs : ContainerStats) :
  getSystemStatus config w st = (Val status, st1) ->
  serviceStatus status = running ->
  getContainerStats w st1 = (Val (Some cs), st2) ->
  exists v,
    getPerformanceData config w st = (Val v, st2) /\
    score (qos v) =
      (JS.Math_round
         (100 * factor (indicator_or_2 (availability cs))
              * factor (indicator_or_2 (reliability cs))
              * factor (indicator_or_2 (efficiency cs)) / 5) * 5)%float /\
    (availability cs = 0%Z ->
       indicator_or_2 (availability cs) = 2%Z /\
       factor (indicator_or_2 (availability cs)) = 0.5%float /\
       qos_availability (qos v) = 20%float) /\
    (reliability cs = 0%Z ->
       indicator_or_2 (reliability cs) = 2%Z /\
       factor (indicator_or_2 (reliability cs)) = 0.5%float /\
       qos_reliability (qos v) = 20%float) /\
    (efficiency cs = 0%Z ->
       indicator_or_2 (efficiency cs) = 2%Z /\
       factor (indicator_or_2 (efficiency cs)) = 0.5%float /\
       qos_efficiency (qos v) = 20%float).
Proof.
  intros Hs Hrun Hcs.
  eexists. split; [exact (getPerformanceData_measured _ _ _ _ _ _ _ Hs Hrun Hcs)|].
  cbn [qos]. split; [apply realPerformance_score|].
  unfold realPerformance; cbn [snd qos_availability qos_reliability qos_efficiency].
  split; [|split]; intros H; rewrite H; repeat split; reflexivity.
Qed.

Lemma zero_indicator_counts_as_poor_witness :
  exists v st',
    getPerformanceData sampleConfig workingWorld st0 = (Val v, st') /\
    score (qos v) = 15%float /\
    qos_availability (qos v) = 20%float.
Proof.
  edestruct (zero_indicator_counts_as_poor workingWorld sampleConfig st0)
    as (v & Hv & Hscore & Ha & _).
  - vm_compute. reflexivity.
  - reflexivity.
  - vm_compute. reflexivity.
  - exists v. eexists. split; [exact Hv|]. split.
    + rewrite Hscore. vm_compute. reflexivity.
    + apply Ha. reflexivity.
Defined.

Lemma float_neq (x y : float) :
  PrimFloat.eqb x x = true -> PrimFloat.eqb x y = false -> x <> y.
Proof. intros Hx Hy E. rewrite <- E in Hy. congruence. Qed.

(** C1, as the code has it.  When the service is not running, or the
    container's counters were read, the view is returned with a score that
    is a multiple of 5 between 0 and 100; and three poor indicators give
    [round(100 * 0.5^3 / 5) * 5 = 15]. *)
Theorem qos_score_measured_or_stopped (w : World) (config : Config)
  (st st1 : St) (status : Status) :
  getSystemStatus config w st = (Val status, st1) ->
  (serviceStatus status <> running \/
   exists cs st2, getContainerStats w st1 = (Val (Some cs), st2)) ->
  (exists v st',
     getPerformanceData config w st = (Val v, st') /\
     multiple_of_5_upto_100 (score (qos v))) /\
  (forall cs, availability cs = 2%Z -> reliability cs = 2%Z -> efficiency cs = 2%Z ->
              score (snd (realPerformance cs)) = 15%float).
Proof.
  intros Hs Hpath. split.
  - assert (Hdec : serviceStatus status = running \/ serviceStatus status <> running)
      by (destruct (serviceStatus status); (now left) || (right; discriminate)).
    destruct Hdec as [Hrun|Hstop].
    + destruct Hpath as [Hstop|(cs & st2 & Hcs)]; [now elim Hstop|].
      eexists; eexists. split.
      * exact (getPerformanceData_measured _ _ _ _ _ _ _ Hs Hrun Hcs).
      * apply realPerformance_score_multiple.
    + eexists; eexists. split.
      * exact (getPerformanceData_stopped _ _ _ _ _ Hs Hstop).
      * apply stoppedQoS_score_multiple.
  - intros cs Ha Hr He. rewrite realPerformance_score, Ha, Hr, He.
    vm_compute. reflexivity.
Qed.

Lemma qos_score_measured_or_stopped_witness :
  exists v st',
    getPerformanceData sampleConfig workingWorld st0 = (Val v, st') /\
    multiple_of_5_upto_100 (score (qos v)).
Proof.
  refine (proj1 (qos_score_measured_or_stopped workingWorld sampleConfig st0 _ _ _ _)).
  - vm_compute. reflexivity.
  - right. eexists; eexists. vm_compute. reflexivity.
Defined.

(** C1 as stated fails twice.  An active service whose container cannot be
    found gets the synthetic estimate, here 83, which is no multiple of 5;
    and three poor indicators give 15, not 5. *)
Lemma qos_score_counterexample :
  (exists v st',
     getPerformanceData sampleConfig noContainerWorld st0 = (Val v, st') /\
     score (qos v) = 83%float /\
     ~ multiple_of_5_upto_100 (score (qos v))) /\
  (availability poorStats = 2%Z /\ reliability poorStats = 2%Z /\
   efficiency poorStats = 2%Z /\
   score (snd (realPerformance poorStats)) = 15%float /\
   score (snd (realPerformance poorStats)) <> 5%float).
Proof.
  split.
  - eexists; eexists. split; [vm_compute; reflexivity|].
    cbn [qos score]. split; [reflexivity|].
    intros (k & Hk & E).
    assert (Hcases : (k = 0 \/ k = 1 \/ k = 2 \/ k = 3 \/ k = 4 \/ k = 5 \/ k = 6 \/
                      k = 7 \/ k = 8 \/ k = 9 \/ k = 10 \/ k = 11 \/ k = 12 \/
                      k = 13 \/ k = 14 \/ k = 15 \/ k = 16 \/ k = 17 \/ k = 18 \/
                      k = 19 \/ k = 20)%Z) by lia.
    repeat (destruct Hcases as [->|Hcases];
            [revert E; apply float_neq; vm_compute; reflexivity|]).
    subst k. revert E. apply float_neq; vm_compute; reflexivity.
  - repeat split; try reflexivity.
    apply float_neq; vm_compute; reflexivity.
Qed.

(** ** Points *)

(** C3, at the failing input.  For a config without key and wallet
    [getPointsData] returns zero points and an [error], and the object has
    no [fallback] field, unlike the two other zero-point answers of the
    function. *)
Theorem getPointsData_missing_config (w : World) (st : St) :
  getPointsData emptyConfig w st =
    (Val {| pt_timestamp := clock_iso w (trace st);
            points := zeroPoints;
            error := Some "Missing Synq key or wallet address";
            fallback := None; source := None; apiExtras := None;
            containerUptime := None; isEarning := None;
            connectionState := None |}, st).
Proof. reflexivity. Qed.

Lemma fetchWalletLifetimePoints_unreachable (w : World) (k a : JS.jsval)
  (config : Config) (st : St) :
  registry_unreachable w ->
  exists r st',
    fetchWalletLifetimePoints k a config w st = (Val r, st') /\ success r = false.
Proof.
  intros Hreg. unfold fetchWalletLifetimePoints.
  destruct (negb (JS.truthy k) || negb (JS.truthy a)).
  { eexists; eexists; split; reflexivity. }
  unfold try_catch, bind, console_log, emit, fetch. cbn [trace draws].
  match goal with
  | |- context [fetch_result w ?tr ?u ?key] =>
      pose proof (Hreg tr u key) as H1; destruct (fetch_result w tr u key) as [r1|e1]
  end.
  2: { eexists; eexists; split; reflexivity. }
  rewrite H1. cbn [negb trace draws].
  match goal with
  | |- context [fetch_result w ?tr ?u ?key] =>
      pose proof (Hreg tr u key) as H2; destruct (fetch_result w tr u key) as [r2|e2]
  end.
  2: { eexists; eexists; split; reflexivity. }
  rewrite H2. cbn [negb].
  destruct (text r1) as [t|e]; eexists; eexists; split; reflexivity.
Qed.

Lemma findRunning_none (w : World) (names : list string) :
  no_container_running w ->
  incl names ["synchronizer-cli"; "synchronizer-nightly"] ->
  forall st, exists st', findRunning names w st = (Val None, st').
Proof.
  intros Hnone. induction names as [|name rest IH]; intros Hincl st.
  - eexists; reflexivity.
  - cbn [findRunning]. unfold bind at 1, try_catch, bind at 1, execSync.
    fold (ps_command name).
    pose proof (Hnone (trace st) name (Hincl name (or_introl eq_refl))) as H.
    destruct (exec_result w (trace st) (ps_command name)) as [names|e].
    + unfold ret at 1. rewrite H. apply IH.
      intros x Hx. apply Hincl. now right.
    + unfold ret at 1. apply IH.
      intros x Hx. apply Hincl. now right.
Qed.

Lemma getContainerStats_none (w : World) (st : St) :
  no_container_running w ->
  exists st', getContainerStats w st = (Val None, st').
Proof.
  intros Hnone.
  destruct (findRunning_none w _ Hnone (incl_refl _) st) as (st' & H).
  exists st'. unfold getContainerStats, try_catch. unfold bind at 1.
  rewrite H. reflexivity.
Qed.

(** C2.  With a key and a wallet, an unreachable registry (on both
    endpoints) and no running worker container, [getPointsData] returns
    [total = 0], [fallback = true] and a non-empty [error]. *)
Theorem points_unreachable_registry_no_container (w : World) (config : Config)
  (st : St) :
  JS.truthy (key config) = true ->
  JS.truthy (wallet config) = true ->
  registry_unreachable w ->
  no_container_running w ->
  exists v st' message,
    getPointsData config w st = (Val v, st') /\
    total (points v) = 0%float /\
    fallback v = Some true /\
    error v = Some message /\
    message <> "".
Proof.
  intros Hk Ha Hreg Hnone.
  unfold getPointsData. rewrite Hk, Ha. cbn [negb orb].
  destruct (fetchWalletLifetimePoints_unreachable w (key config) (wallet config)
              config st Hreg) as (r & st1 & Hr & Hfail).
  unfold bind at 1, try_catch at 1, bind at 1. rewrite Hr, Hfail.
  unfold ret at 1.
  destruct (getContainerStats_none w st1 Hnone) as (st2 & Hcs).
  unfold try_catch, bind at 1. rewrite Hcs.
  eexists; eexists; eexists. split; [reflexivity|].
  cbn [points total fallback error zeroPoints].
  repeat split; discriminate.
Qed.

Lemma points_unreachable_registry_no_container_witness :
  exists v st' message,
    getPointsData sampleConfig offlineWorld st0 = (Val v, st') /\
    total (points v) = 0%float /\
    fallback v = Some true /\
    error v = Some message /\
    message <> "".
Proof.
  apply (points_unreachable_registry_no_container offlineWorld sampleConfig st0).
  - reflexivity.
  - reflexivity.
  - intros tr url k. reflexivity.
  - intros tr name [<-|[<-|[]]]; vm_compute; reflexivity.
Defined.

(** ** Service status *)

Lemma probeDocker_run (w : World) (s : Status) (st : St) :
  exists b st',
    probeDocker s w st = (Val (set_dockerAvailable b s), st') /\
    (always_fails w "docker --version" -> b = false) /\
    (forall out, exec_result w (trace st) "docker --version" = Out out -> b = true).
Proof.
  unfold probeDocker, try_catch, bind, execSync.
  destruct (exec_result w (trace st) "docker --version") as [out|e] eqn:E.
  - exists true. eexists. split; [reflexivity|]. split; [|reflexivity].
    intros H. destruct (H (trace st)) as (e & He). congruence.
  - exists false. eexists. split; [reflexivity|]. split; [reflexivity|].
    intros out H. discriminate.
Qed.

Lemma probeService_run (w : World) (s : Status) (st : St) :
  exists s' st',
    probeService s w st = (Val s', st') /\
    same_but_service s s' /\
    (always_fails w systemctl_command -> s' = s).
Proof.
  unfold probeService, try_catch, bind, ask, execSync.
  fold systemctl_command.
  destruct (fs_existsSync w _).
  2: { exists s. eexists. split; [reflexivity|]. split; [now repeat split | reflexivity]. }
  destruct (exec_result w (trace st) systemctl_command) as [out|e] eqn:E.
  2: { exists s. eexists. split; [reflexivity|]. split; [now repeat split | reflexivity]. }
  eexists; eexists. split; [reflexivity|]. split.
  - unfold same_but_service.
    destruct (JS.includes out "active (running)"),
             (JS.includes out "inactive (dead)"),
             (JS.includes out "failed"),
             (JS.includes out "enabled"),
             (find _ _) as [line|];
      try destruct (JS.truthy (Some line) && JS.includes line "since");
      try destruct (match_since line);
      repeat split.
  - intros H. destruct (H (trace st)) as (e & He). congruence.
Qed.

Lemma probeContainer_run (w : World) (s : Status) (st : St) :
  exists s' st',
    probeContainer s w st = (Val s', st') /\
    (s' = s \/ exists b, s' = set_containerRunning b s) /\
    (always_fails w (ps_command "synchronizer-cli") -> s' = s).
Proof.
  unfold probeContainer, try_catch, bind, execSync.
  change ("docker ps --filter name=synchronizer-cli --format "
          ++ JS.dq ++ "{{.Names}}" ++ JS.dq) with (ps_command "synchronizer-cli").
  destruct (exec_result w (trace st) (ps_command "synchronizer-cli")) as [out|e] eqn:E.
  - eexists; eexists. split; [reflexivity|]. split.
    + right. eexists. reflexivity.
    + intros H. destruct (H (trace st)) as (e & He). congruence.
  - exists s. eexists. split; [reflexivity|]. split; [now left | reflexivity].
Qed.

Lemma needsPull_fails (w : World) (tr : list Event) (cmd : string) :
  always_fails w cmd -> needsPull (exec_result w tr cmd) = true.
Proof. intros H. destruct (H tr) as (e & ->). reflexivity. Qed.

Lemma checkImages_known_run (w : World) (st : St) :
  exists (b1 b2 : bool) st',
    checkImages knownImages 0 [] w st =
      (Val (((if b1 then 1 else 0) + (if b2 then 1 else 0))%Z,
            [imageEntry "cdrakep/synqchronizer:latest" b1;
             imageEntry "cdrakep/synqchronizer-test-fixed:latest" b2]), st') /\
    (always_fails w (images_command "cdrakep/synqchronizer:latest") -> b1 = true) /\
    (always_fails w (images_command "cdrakep/synqchronizer-test-fixed:latest") ->
     b2 = true).
Proof.
  unfold knownImages. cbn [checkImages]. unfold bind, try_catch.
  rewrite isNewDockerImageAvailable_run. unfold ret. lazy beta iota zeta.
  rewrite isNewDockerImageAvailable_run. lazy beta iota zeta.
  cbn [trace draws].
  set (b1 := needsPull (exec_result w (trace st) _)).
  set (b2 := needsPull (exec_result w (trace st ++ _)%list _)).
  exists b1, b2. eexists. split.
  - destruct b1, b2; reflexivity.
  - split; intros H; apply needsPull_fails; exact H.
Qed.

Lemma probeImages_run (w : World) (s : Status) (st : St) :
  exists s' st',
    probeImages s w st = (Val s', st') /\
    (dockerAvailable s = false -> s' = s) /\
    (dockerAvailable s = true ->
     exists (b1 b2 : bool) (checked : string),
       s' = set_imageUpdates
              {| available := ((if b1 then 1 else 0) + (if b2 then 1 else 0))%Z;
                 lastChecked := Some checked;
                 images := [imageEntry "cdrakep/synqchronizer:latest" b1;
                            imageEntry "cdrakep/synqchronizer-test-fixed:latest" b2];
                 iu_error := None |} s /\
       (always_fails w (images_command "cdrakep/synqchronizer:latest") -> b1 = true) /\
       (always_fails w (images_command "cdrakep/synqchronizer-test-fixed:latest") ->
        b2 = true)).
Proof.
  unfold probeImages. destruct (dockerAvailable s).
  2: { exists s, st. split; [reflexivity|]. split; [reflexivity | discriminate]. }
  destruct (checkImages_known_run w st) as (b1 & b2 & st1 & Hrun & H1 & H2).
  unfold try_catch. unfold bind at 1. rewrite Hrun.
  eexists; eexists. split; [reflexivity|]. split; [discriminate|].
  intros _. exists b1, b2. eexists. split; [reflexivity|]. split; assumption.
Qed.

Lemma probeDocker_exact (w : World) (s : Status) (st : St) :
  probeDocker s w st =
  (Val (set_dockerAvailable (succeeded (exec_result w (trace st) "docker --version")) s),
   after st [EvExec "docker --version"]).
Proof.
  unfold probeDocker, try_catch, bind, execSync, after, succeeded.
  destruct (exec_result w (trace st) "docker --version"); reflexivity.
Qed.

Lemma probeService_fields (w : World) (s : Status) (now : string) (st : St) :
  serviceFields s = serviceFields (initialStatus now) ->
  exists s' alone st',
    probeService s w st = (Val s', st') /\
    probeService (initialStatus now) w st = (Val alone, st') /\
    serviceFields s' = serviceFields alone /\
    same_but_service s s' /\
    ((fs_existsSync w unitFile = false \/
      exists e, exec_result w (trace st) systemctl_command = Fails e) ->
     serviceFields s' = (unknown, false, None)) /\
    (forall out,
       fs_existsSync w unitFile = true ->
       exec_result w (trace st) systemctl_command = Out out ->
       (serviceStatus s' = running <-> JS.includes out "active (running)" = true) /\
       autoStart s' = JS.includes out "enabled").
Proof.
  unfold serviceFields. cbn [initialStatus serviceStatus autoStart uptime].
  intros Hinit. injection Hinit as Hss Has Hup.
  unfold probeService, try_catch, bind, ask, execSync.
  fold systemctl_command. fold unitFile.
  destruct (fs_existsSync w unitFile) eqn:Hfile.
  2: { exists s. eexists. eexists. split; [reflexivity|]. split; [reflexivity|].
       cbn. rewrite Hss, Has, Hup.
       repeat split; intros; discriminate. }
  destruct (exec_result w (trace st) systemctl_command) as [out|e] eqn:E.
  2: { exists s. eexists. eexists. split; [reflexivity|]. split; [reflexivity|].
       cbn. rewrite Hss, Has, Hup.
       repeat split; intros; discriminate. }
  eexists; eexists; eexists. split; [reflexivity|]. split; [reflexivity|].
  split; [|split; [|split]].
  - destruct (JS.includes out "active (running)"),
             (JS.includes out "inactive (dead)"),
             (JS.includes out "failed"),
             (JS.includes out "enabled"),
             (find _ _) as [line|];
      try destruct (JS.truthy (Some line) && JS.includes line "since");
      try destruct (match_since line);
      cbn; rewrite ?Hss, ?Has, ?Hup; reflexivity.
  - unfold same_but_service.
    destruct (JS.includes out "active (running)"),
             (JS.includes out "inactive (dead)"),
             (JS.includes out "failed"),
             (JS.includes out "enabled"),
             (find _ _) as [line|];
      try destruct (JS.truthy (Some line) && JS.includes line "since");
      try destruct (match_since line);
      repeat split.
  - intros [H|(e & H)]; discriminate.
  - intros out' _ Hout. injection Hout as <-.
    destruct (JS.includes out "active (running)"),
             (JS.includes out "inactive (dead)"),
             (JS.includes out "failed"),
             (JS.includes out "enabled"),
             (find _ _) as [line|];
      try destruct (JS.truthy (Some line) && JS.includes line "since");
      try destruct (match_since line);
      cbn; rewrite ?Hss, ?Has;
      (split; [split; intros H; (reflexivity || discriminate H) | reflexivity]).
Qed.

Lemma probeContainer_exact (w : World) (s : Status) (st : St) :
  containerRunning s = false ->
  exists s',
    probeContainer s w st = (Val s', after st [EvExec (ps_command "synchronizer-cli")]) /\
    containerRunning s' =
      shows (exec_result w (trace st) (ps_command "synchronizer-cli"))
            "synchronizer-cli" /\
    timestamp s' = timestamp s /\ dockerAvailable s' = dockerAvailable s /\
    serviceFields s' = serviceFields s /\ imageUpdates s' = imageUpdates s.
Proof.
  intros Hcr.
  unfold probeContainer, try_catch, bind, execSync, after, shows.
  change ("docker ps --filter name=synchronizer-cli --format "
          ++ JS.dq ++ "{{.Names}}" ++ JS.dq) with (ps_command "synchronizer-cli").
  destruct (exec_result w (trace st) (ps_command "synchronizer-cli")) as [out|e].
  - eexists. split; [reflexivity|]. repeat split.
  - exists s. split; [reflexivity|]. repeat split. exact Hcr.
Qed.

Lemma probeImages_exact (w : World) (s : Status) (st : St) :
  exists s' st',
    probeImages s w st = (Val s', st') /\
    imageUpdates s' =
      (if dockerAvailable s then inspectedSummary w (trace st) else imageUpdates s) /\
    timestamp s' = timestamp s /\ dockerAvailable s' = dockerAvailable s /\
    serviceFields s' = serviceFields s /\ containerRunning s' = containerRunning s.
Proof.
  unfold probeImages. destruct (dockerAvailable s) eqn:Hd.
  2: { exists s, st. rewrite Hd. repeat split. }
  unfold knownImages. cbn [checkImages]. unfold try_catch, bind.
  rewrite isNewDockerImageAvailable_run. unfold ret. lazy beta iota zeta.
  rewrite isNewDockerImageAvailable_run. lazy beta iota zeta.
  unfold ask_now. cbn [trace draws fst snd].
  eexists; eexists. split; [reflexivity|].
  cbn [imageUpdates set_imageUpdates timestamp dockerAvailable serviceFields
       serviceStatus autoStart uptime containerRunning].
  rewrite Hd. repeat split.
  unfold inspectedSummary, imageEntry. rewrite <- app_assoc. cbn [app].
  destruct (needsPull (exec_result w (trace st) _)),
           (needsPull (exec_result w (trace st ++ _)%list _)); reflexivity.
Qed.

(** C4.  [getSystemStatus] always returns a status object: it neither
    throws nor ends the process, whatever the probes answer, and each field
    is read off its own probe.  [timestamp] is the time of the call.
    [dockerAvailable] says whether [docker --version] succeeded.  The three
    service fields are those the service probe gives when it is run by
    itself on the initial object; they stay [unknown], [false] and null when
    the unit file is missing or [systemctl] fails, and otherwise the state
    is [running] exactly when the output says [active (running)] and
    [autoStart] says whether the output mentions [enabled].
    [containerRunning] says whether the container listing shows the
    container, and is false when the listing fails.  The image summary keeps
    its initial value when the runtime is missing; with the runtime it is
    the summary of the two inspections, where an image whose inspection
    fails is entered as needing an update, without an error, and is
    counted. *)
Theorem getSystemStatus_never_fails (w : World) (config : Config) (st : St) :
  exists status st' alone st2,
    getSystemStatus config w st = (Val status, st') /\
    timestamp status = clock_iso w (trace st) /\
    dockerAvailable status = succeeded (exec_result w (trace st) "docker --version") /\
    probeService (initialStatus (clock_iso w (trace st))) w
                 (after st [EvExec "docker --version"]) = (Val alone, st2) /\
    serviceFields status = serviceFields alone /\
    ((fs_existsSync w unitFile = false \/
      exists e, exec_result w (trace st ++ [EvExec "docker --version"])%list
                  systemctl_command = Fails e) ->
     serviceFields status = (unknown, false, None)) /\
    (forall out,
       fs_existsSync w unitFile = true ->
       exec_result w (trace st ++ [EvExec "docker --version"])%list
         systemctl_command = Out out ->
       (serviceStatus status = running <-> JS.includes out "active (running)" = true) /\
       autoStart status = JS.includes out "enabled") /\
    containerRunning status =
      shows (exec_result w (trace st2) (ps_command "synchronizer-cli"))
            "synchronizer-cli" /\
    imageUpdates status =
      (if dockerAvailable status
       then inspectedSummary w (trace st2 ++ [EvExec (ps_command "synchronizer-cli")])%list
       else imageUpdates (initialStatus (clock_iso w (trace st)))).
Proof.
  unfold getSystemStatus. unfold bind at 1. unfold ask_now at 1.
  set (s0 := initialStatus (clock_iso w (trace st))).
  unfold bind at 1. rewrite probeDocker_exact.
  set (b := succeeded (exec_result w (trace st) "docker --version")).
  destruct (probeService_fields w (set_dockerAvailable b s0) (clock_iso w (trace st))
              (after st [EvExec "docker --version"]) eq_refl)
    as (s2 & alone & st2 & Hs & Halone & Hsf & Hsame & Hfail & Hok).
  destruct Hsame as (Hts2 & Hda2 & Hcr2 & Hiu2).
  unfold bind at 1. rewrite Hs.
  destruct (probeContainer_exact w s2 st2 Hcr2)
    as (s3 & Hc & Hcr3 & Hts3 & Hda3 & Hsf3 & Hiu3).
  unfold bind at 1. rewrite Hc.
  destruct (probeImages_exact w s3 (after st2 [EvExec (ps_command "synchronizer-cli")]))
    as (s4 & st4 & Hi & Hiu4 & Hts4 & Hda4 & Hsf4 & Hcr4).
  unfold bind at 1. rewrite Hi.
  exists s4, st4, alone, st2. split; [reflexivity|].
  split; [now rewrite Hts4, Hts3, Hts2|].
  split; [now rewrite Hda4, Hda3, Hda2|].
  split; [exact Halone|].
  split; [now rewrite Hsf4, Hsf3|].
  split; [intros H; rewrite Hsf4, Hsf3; exact (Hfail H)|].
  split.
  { intros out Hfile Hout. destruct (Hok out Hfile Hout) as (Hrun & Hauto).
    assert (Hss : serviceStatus s4 = serviceStatus s2)
      by (apply (f_equal (fun t => fst (fst t))) in Hsf4, Hsf3; cbn in Hsf4, Hsf3;
          congruence).
    assert (Has : autoStart s4 = autoStart s2)
      by (apply (f_equal (fun t => snd (fst t))) in Hsf4, Hsf3; cbn in Hsf4, Hsf3;
          congruence).
    rewrite Hss, Has. split; assumption. }
  split; [now rewrite Hcr4, Hcr3|].
  rewrite Hiu4, Hda4, Hda3, Hda2. cbn [dockerAvailable set_dockerAvailable].
  destruct b; [reflexivity|].
  rewrite Hiu3, Hiu2. reflexivity.
Qed.

(** C4 as stated fails for the image check.  On a host whose runtime
    answers the version probe but fails every image inspection, the status
    view does not fall back to an unknown value for the images: both are
    entered as needing an update, no error is recorded on the entries or
    on the summary, and the count of available updates is 2. *)
Lemma getSystemStatus_inspection_counterexample :
  (forall image tr, exists e,
      exec_result noInspectionWorld tr (images_command image) = Fails e) /\
  exists status st',
    getSystemStatus sampleConfig noInspectionWorld st0 = (Val status, st') /\
    available (imageUpdates status) = 2%Z /\
    images (imageUpdates status) =
      [ {| img_name := "cdrakep/synqchronizer:latest"; updateAvailable := true;
           img_error := None |};
        {| img_name := "cdrakep/synqchronizer-test-fixed:latest";
           updateAvailable := true; img_error := None |} ] /\
    iu_error (imageUpdates status) = None.
Proof.
  split.
  - intros image tr. exists "Command failed". reflexivity.
  - eexists; eexists. split; [vm_compute; reflexivity|]. repeat split.
Qed.

(** ** Platform, key format, service path and ports *)

(** X1.  The platform handed to the container runtime is always
    [linux/arm64] or [linux/amd64]; it is [linux/arm64] exactly on Linux
    with architecture [arm64] or [aarch64] and on macOS with [arm64]; every
    other host, known or not, gets [linux/amd64]. *)
Theorem dockerPlatform_resolution (platform arch : string) :
  (dockerPlatform platform arch = "linux/arm64" \/
   dockerPlatform platform arch = "linux/amd64") /\
  (dockerPlatform platform arch = "linux/arm64" <->
   (platform = "linux" /\ (arch = "arm64" \/ arch = "aarch64")) \/
   (platform = "darwin" /\ arch = "arm64")).
Proof.
  unfold dockerPlatform.
  destruct (String.eqb_spec platform "linux") as [Hl|Hl];
  destruct (String.eqb_spec platform "darwin") as [Hd|Hd];
  destruct (String.eqb_spec arch "arm64") as [Ha|Ha];
  destruct (String.eqb_spec arch "aarch64") as [Hb|Hb];
  destruct (String.eqb_spec arch "x64") as [Hx|Hx];
  destruct (String.eqb_spec arch "x86_64") as [Hy|Hy];
  cbn [orb]; subst; try discriminate;
  (split; [auto | split; [intros H; try discriminate H; tauto | intros H]]);
  try reflexivity;
  try (exfalso; destruct H as [[H1 [H2|H2]]|[H1 H2]]; congruence).
Qed.

Lemma matches_spec (pattern : list (ascii -> bool)) :
  forall s, matches pattern s = true ->
    String.length s = length pattern /\
    forall i c f, String.get i s = Some c -> nth_error pattern i = Some f -> f c = true.
Proof.
  induction pattern as [|p pattern IH]; intros [|c s] H; cbn in H; try discriminate.
  - split; [reflexivity|]. intros i c f Hc. destruct i; discriminate.
  - apply andb_true_iff in H as [Hp Hm]. destruct (IH s Hm) as [Hlen Hall].
    split; [cbn; now rewrite Hlen|].
    intros [|i] c' f Hc Hf; cbn in Hc, Hf.
    + injection Hc as <-. injection Hf as <-. exact Hp.
    + eauto.
Qed.

Lemma get_lt (s : string) : forall i, (i < String.length s)%nat ->
  exists c, String.get i s = Some c.
Proof.
  induction s as [|c s IH]; intros i H; cbn in H; [lia|].
  destruct i as [|i]; cbn; [now exists c|]. apply IH. lia.
Qed.

Lemma get_length (s : string) : forall i c, String.get i s = Some c ->
  (i < String.length s)%nat.
Proof.
  induction s as [|c s IH]; intros i c' H; [destruct i; discriminate|].
  destruct i as [|i]; cbn in *; [lia|]. apply IH in H. lia.
Qed.

Lemma is_char_eq (x c : ascii) : is_char x c = true -> c = x.
Proof. unfold is_char. intros H. now apply Ascii.eqb_eq. Qed.

Lemma is_variant_cases (c : ascii) :
  is_variant c = true ->
  In c ["8"; "9"; "a"; "b"; "A"; "B"]%char /\ is_hex c = true.
Proof.
  destruct c as [[] [] [] [] [] [] [] []]; cbn; intros H; try discriminate H;
    (split; [tauto | reflexivity]).
Qed.

(** X2.  A key the format check accepts has 36 characters, dashes at
    positions 8, 13, 18 and 23, the version digit [4] at position 14, one
    of [8 9 a b A B] at position 19, and hexadecimal digits everywhere
    else. *)
Theorem validateSynqKeyFormat_shape (key : string) :
  validateSynqKeyFormat key = true ->
  String.length key = 36%nat /\
  String.get 8 key = Some "-"%char /\ String.get 13 key = Some "-"%char /\
  String.get 18 key = Some "-"%char /\ String.get 23 key = Some "-"%char /\
  String.get 14 key = Some "4"%char /\
  (exists y, String.get 19 key = Some y /\
             In y ["8"; "9"; "a"; "b"; "A"; "B"]%char) /\
  (forall i c, String.get i key = Some c ->
               ~ In i [8; 13; 18; 23]%nat -> is_hex c = true).
Proof.
  intros H. apply matches_spec in H as [Hlen Hall].
  change (length uuid_v4_pattern) with 36%nat in Hlen.
  assert (Hat : forall i f, (i < 36)%nat -> nth_error uuid_v4_pattern i = Some f ->
                 exists c, String.get i key = Some c /\ f c = true).
  { intros i f Hi Hf. destruct (get_lt key i) as (c & Hc); [lia|].
    exists c. split; [exact Hc | exact (Hall i c f Hc Hf)]. }
  assert (Hdash : forall i, (i < 36)%nat ->
                    nth_error uuid_v4_pattern i = Some (is_char "-") ->
                    String.get i key = Some "-"%char).
  { intros i Hi Hf. destruct (Hat i _ Hi Hf) as (c & Hc & Hp).
    now rewrite (is_char_eq _ _ Hp) in Hc. }
  split; [exact Hlen|].
  repeat (split; [apply Hdash; [lia | reflexivity]|]).
  split.
  { destruct (Hat 14%nat (is_char "4") ltac:(lia) eq_refl) as (c & Hc & Hp).
    now rewrite (is_char_eq _ _ Hp) in Hc. }
  split.
  { destruct (Hat 19%nat is_variant ltac:(lia) eq_refl) as (c & Hc & Hp).
    exists c. split; [exact Hc | apply is_variant_cases, Hp]. }
  intros i c Hc Hnot.
  pose proof (get_length _ _ _ Hc) as Hi. rewrite Hlen in Hi.
  do 36 (destruct i as [|i];
         [ first [ exact (Hall _ c is_hex Hc eq_refl)
                 | apply is_variant_cases; exact (Hall _ c is_variant Hc eq_refl)
                 | rewrite (is_char_eq _ _ (Hall _ c (is_char "4") Hc eq_refl)); reflexivity
                 | exfalso; apply Hnot; cbn; tauto ] |]).
  lia.
Qed.

Lemma is_hex_upper (c : ascii) : is_hex (upper c) = is_hex c.
Proof. destruct c as [[] [] [] [] [] [] [] []]; reflexivity. Qed.

Lemma is_hex_lower (c : ascii) : is_hex (lower c) = is_hex c.
Proof. destruct c as [[] [] [] [] [] [] [] []]; reflexivity. Qed.

Lemma is_variant_upper (c : ascii) : is_variant (upper c) = is_variant c.
Proof. destruct c as [[] [] [] [] [] [] [] []]; reflexivity. Qed.

Lemma is_variant_lower (c : ascii) : is_variant (lower c) = is_variant c.
Proof. destruct c as [[] [] [] [] [] [] [] []]; reflexivity. Qed.

Lemma is_dash_upper (c : ascii) : is_char "-" (upper c) = is_char "-" c.
Proof. destruct c as [[] [] [] [] [] [] [] []]; reflexivity. Qed.

Lemma is_dash_lower (c : ascii) : is_char "-" (lower c) = is_char "-" c.
Proof. destruct c as [[] [] [] [] [] [] [] []]; reflexivity. Qed.

Lemma is_four_upper (c : ascii) : is_char "4" (upper c) = is_char "4" c.
Proof. destruct c as [[] [] [] [] [] [] [] []]; reflexivity. Qed.

Lemma is_four_lower (c : ascii) : is_char "4" (lower c) = is_char "4" c.
Proof. destruct c as [[] [] [] [] [] [] [] []]; reflexivity. Qed.

Lemma matches_map (f : ascii -> ascii) (pattern : list (ascii -> bool)) :
  Forall (fun p => forall c, p (f c) = p c) pattern ->
  forall s, matches pattern (map_string f s) = matches pattern s.
Proof.
  induction 1 as [|p pattern Hp _ IH]; intros [|c s]; cbn; try reflexivity.
  now rewrite Hp, IH.
Qed.

(** X3.  The format check ignores letter case: a key, its upper-case
    form and its lower-case form are accepted or refused alike. *)
Theorem validateSynqKeyFormat_case_insensitive (key : string) :
  validateSynqKeyFormat (map_string upper key) = validateSynqKeyFormat key /\
  validateSynqKeyFormat (map_string lower key) = validateSynqKeyFormat key.
Proof.
  unfold validateSynqKeyFormat. split; apply matches_map; unfold uuid_v4_pattern;
    cbn [repeat app];
    repeat constructor;
    auto using is_hex_upper, is_hex_lower, is_variant_upper, is_variant_lower,
               is_dash_upper, is_dash_lower, is_four_upper, is_four_lower.
Qed.

Example validateSynqKeyFormat_examples :
  validateSynqKeyFormat "3f2a9c1e-7b4d-4e6f-9a1b-0c2d3e4f5a6b" = true /\
  validateSynqKeyFormat "3F2A9C1E-7B4D-4E6F-9A1B-0C2D3E4F5A6B" = true /\
  validateSynqKeyFormat "3f2a9c1e-7b4d-1e6f-9a1b-0c2d3e4f5a6b" = false /\
  validateSynqKeyFormat "3f2a9c1e-7b4d-4e6f-ca1b-0c2d3e4f5a6b" = false /\
  validateSynqKeyFormat "3f2a9c1e7b4d4e6f9a1b0c2d3e4f5a6b" = false /\
  validateSynqKeyFormat "" = false.
Proof. repeat split. Qed.

(** X4.  The [PATH] written into a service unit lists every directory
    once: the six system directories and the directory of the detected
    binary, which adds a seventh entry exactly when it is not one of the
    six; nothing else is listed. *)
Theorem pathDirs_each_once (dir : string) :
  NoDup (pathDirs dir) /\
  In dir (pathDirs dir) /\
  (forall p, In p systemPaths -> In p (pathDirs dir)) /\
  (forall p, In p (pathDirs dir) -> p = dir \/ In p systemPaths) /\
  (length (pathDirs dir) = 6%nat <-> In dir systemPaths) /\
  (length (pathDirs dir) = 7%nat <-> ~ In dir systemPaths).
Proof.
  assert (Hnd : NoDup systemPaths).
  { unfold systemPaths. repeat constructor; cbn; intuition discriminate. }
  unfold pathDirs. destruct (existsb (String.eqb dir) systemPaths) eqn:E.
  - apply existsb_exists in E as (p & Hp & Heq). apply String.eqb_eq in Heq. subst p.
    split; [exact Hnd|]. split; [exact Hp|]. split; [auto|]. split; [auto|].
    change (length systemPaths) with 6%nat.
    split; (split; [intros; try lia; tauto | intros; try lia; tauto]).
  - assert (Hnot : ~ In dir systemPaths).
    { intros Hin. assert (existsb (String.eqb dir) systemPaths = true).
      { apply existsb_exists. exists dir. split; [exact Hin | apply String.eqb_refl]. }
      congruence. }
    split; [now constructor|]. split; [now left|].
    split; [intros q Hq; now right|].
    split; [intros q [<-|Hq]; [now left | now right]|].
    cbn [length]. change (length systemPaths) with 6%nat.
    split; (split; [intros; try lia; tauto | intros; try lia; tauto]).
Qed.

Lemma tryPort_spec (free : Z -> bool) (n : nat) :
  forall start,
    match tryPort free n start with
    | Some p =>
        (start <= p < start + Z.of_nat n)%Z /\ free p = true /\
        (forall q, (start <= q < p)%Z -> free q = false)
    | None => forall q, (start <= q < start + Z.of_nat n)%Z -> free q = false
    end.
Proof.
  induction n as [|n IH]; intros start; cbn [tryPort].
  - intros q Hq. lia.
  - destruct (free start) eqn:E.
    + split; [lia|]. split; [exact E|]. intros q Hq. lia.
    + specialize (IH (start + 1)%Z). destruct (tryPort free n (start + 1)) as [p|].
      * destruct IH as (Hr & Hf & Hb). split; [lia|]. split; [exact Hf|].
        intros q Hq. destruct (Z.eq_dec q start) as [->|Hne]; [exact E|].
        apply Hb. lia.
      * intros q Hq. destruct (Z.eq_dec q start) as [->|Hne]; [exact E|].
        apply IH. lia.
Qed.

Lemma findAvailablePort_found (free : Z -> bool) (startPort p : Z) :
  findAvailablePort free startPort = Some p ->
  (startPort <= p < startPort + 100)%Z /\ free p = true /\
  (forall q, (startPort <= q < p)%Z -> free q = false).
Proof.
  unfold findAvailablePort, maxAttempts. intros E.
  pose proof (tryPort_spec free 100 startPort) as H. rewrite E in H. exact H.
Qed.

(** X5.  For a start port from 1 on whose 100 candidates are all valid
    port numbers (the last one at most 65535), the port search answers the
    first free port at or above the start port, among the 100 ports it
    tries, and this port is a valid port number; it fails exactly when none
    of these 100 ports is free. *)
Theorem findAvailablePort_first_free (free : Z -> bool) (startPort : Z) :
  (1 <= startPort)%Z ->
  (startPort + 99 <= 65535)%Z ->
  (forall p, findAvailablePort free startPort = Some p ->
     (startPort <= p < startPort + 100)%Z /\ (1 <= p <= 65535)%Z /\
     free p = true /\
     (forall q, (startPort <= q < p)%Z -> free q = false)) /\
  (findAvailablePort free startPort = None <->
   forall q, (startPort <= q < startPort + 100)%Z -> free q = false).
Proof.
  intros Hlow Hhigh.
  split.
  { intros p E. destruct (findAvailablePort_found _ _ _ E) as (Hr & Hf & Hb).
    split; [exact Hr|]. split; [lia|]. split; assumption. }
  unfold findAvailablePort, maxAttempts.
  pose proof (tryPort_spec free 100 startPort) as H.
  destruct (tryPort free 100 startPort) as [p|].
  - split; [discriminate|]. intros Hall. destruct H as (Hr & Hf & _).
    rewrite Hall in Hf by lia. discriminate.
  - split; [intros _; exact H | reflexivity].
Qed.

(** X6.  The two port searches of the dashboard, the free ports being
    the same for both: the dashboard port lies in 3000..3099 and both ports
    are free; when the dashboard gets 3000 or 3001 the metrics port is a
    higher port; but when 3000 and 3001 are both taken (the dashboard gets
    3002 or above), the metrics search, which starts again at 3001 and does
    not know the dashboard's port, answers the very same port. *)
Theorem startWebGUI_ports_collide (free : Z -> bool) (guiPort metricsPort : Z) :
  startWebGUI_ports free = Some (guiPort, metricsPort) ->
  (3000 <= guiPort < 3100)%Z /\ free guiPort = true /\ free metricsPort = true /\
  (guiPort <= 3001 -> guiPort < metricsPort)%Z /\
  (3002 <= guiPort -> metricsPort = guiPort)%Z.
Proof.
  unfold startWebGUI_ports.
  destruct (findAvailablePort free 3000) as [g|] eqn:Eg; [|discriminate].
  destruct (findAvailablePort_found _ _ _ Eg) as (Hgr & Hgf & Hgb).
  set (s := if (g =? 3001)%Z then 3002%Z else 3001%Z).
  destruct (findAvailablePort free s) as [m|] eqn:Em; [|discriminate].
  destruct (findAvailablePort_found _ _ _ Em) as (Hmr & Hmf & Hmb).
  intros E. injection E as <- <-.
  split; [lia|]. split; [exact Hgf|]. split; [exact Hmf|].
  subst s. destruct (Z.eqb_spec g 3001) as [->|Hne].
  - split; intros; lia.
  - split.
    + intros Hle. lia.
    + intros Hge.
      destruct (Z.lt_trichotomy m g) as [Hlt|[Heq|Hgt]]; [|exact Heq|].
      * rewrite Hgb in Hmf by lia. discriminate.
      * rewrite Hmb in Hgf by lia. discriminate.
Qed.

Lemma findAvailablePort_first_free_witness :
  (3000 <= 3005 < 3000 + 100)%Z /\ (1 <= 3005 <= 65535)%Z /\
  busy_below_3005 3005 = true /\
  (forall q, (3000 <= q < 3005)%Z -> busy_below_3005 q = false).
Proof.
  refine (proj1 (findAvailablePort_first_free busy_below_3005 3000%Z _ _) 3005%Z _).
  - lia.
  - lia.
  - reflexivity.
Defined.

Lemma startWebGUI_ports_collide_witness :
  (3000 <= 3005 < 3100)%Z /\ busy_below_3005 3005 = true /\ busy_below_3005 3005 = true /\
  (3005 <= 3001 -> 3005 < 3005)%Z /\
  (3002 <= 3005 -> 3005 = 3005)%Z.
Proof.
  apply (startWebGUI_ports_collide busy_below_3005 3005 3005). reflexivity.
Defined.

Lemma validateSynqKeyFormat_shape_witness :
  String.length "3f2a9c1e-7b4d-4e6f-9a1b-0c2d3e4f5a6b" = 36%nat /\
  String.get 8 "3f2a9c1e-7b4d-4e6f-9a1b-0c2d3e4f5a6b" = Some "-"%char /\
  String.get 13 "3f2a9c1e-7b4d-4e6f-9a1b-0c2d3e4f5a6b" = Some "-"%char.
Proof.
  destruct (validateSynqKeyFormat_shape "3f2a9c1e-7b4d-4e6f-9a1b-0c2d3e4f5a6b")
    as (H1 & H2 & H3 & _).
  - reflexivity.
  - repeat split; assumption.
Defined.

(** ** Key validation against the registry *)

Lemma after_nil (st : St) : after st [] = st.
Proof. destruct st. unfold after. cbn. now rewrite app_nil_r. Qed.

Lemma execs_app (a b : list Event) : execs (a ++ b) = (execs a ++ execs b)%list.
Proof.
  induction a as [|e a IH]; [reflexivity|].
  destruct e; cbn [app execs]; now rewrite IH.
Qed.

Lemma spawns_app (a b : list Event) : spawns (a ++ b) = (spawns a ++ spawns b)%list.
Proof. apply filter_app. Qed.

Lemma after_after (st : St) (a b : list Event) :
  after (after st a) b = after st (a ++ b).
Proof. unfold after. cbn [trace draws]. now rewrite app_assoc. Qed.

(** X7.  The remote key check always returns (a network error becomes
    a message); it logs one line and sends one request, to the precheck
    URL; the key is reported valid exactly when the response body is the
    text [ok], whatever the HTTP status; any other body is returned as the
    message. *)
Theorem validateSynqKeyWithAPI_valid_iff_ok (w : World) (key nickname : string) (st : St) :
  exists r,
    validateSynqKeyWithAPI key nickname w st =
      (Val r, after st [validating; EvFetch (precheck_url key nickname) ""]) /\
    (isValid r = true <->
     exists response,
       fetch_result w (trace st ++ [validating])%list (precheck_url key nickname) ""
         = Responds response /\
       text response = inl "ok") /\
    (forall e,
       fetch_result w (trace st ++ [validating])%list (precheck_url key nickname) ""
         = NetworkError e ->
       r = {| isValid := false;
              kc_message := "Could not validate key with API: " ++ e
                            ++ ". Will proceed with local validation only." |}) /\
    (forall response t,
       fetch_result w (trace st ++ [validating])%list (precheck_url key nickname) ""
         = Responds response ->
       text response = inl t -> t <> "ok" ->
       r = {| isValid := false; kc_message := t |}).
Proof.
  unfold validateSynqKeyWithAPI. fold (precheck_url key nickname).
  unfold bind at 1. unfold console_log, emit. cbn [trace draws].
  unfold try_catch, bind, fetch. cbn [trace draws]. fold validating.
  unfold after. rewrite <- !app_assoc. cbn [app].
  destruct (fetch_result w (trace st ++ [validating])%list (precheck_url key nickname) "")
    as [response|e] eqn:E.
  - destruct (text response) as [t|e] eqn:Et; cbn [lift_sum ret throw].
    + destruct (String.eqb_spec t "ok") as [->|Hne].
      * eexists. split; [reflexivity|]. split; [|split].
        -- split; [intros _; now exists response | reflexivity].
        -- intros e H. discriminate.
        -- intros r' t' H. injection H as <-. rewrite Et. intros H; injection H as <-.
           intros Hn. now elim Hn.
      * eexists. split; [reflexivity|]. split; [|split].
        -- split; [discriminate|]. intros (r' & H & Ht). injection H as <-.
           rewrite Et in Ht. injection Ht as ->. now elim Hne.
        -- intros e H. discriminate.
        -- intros r' t' H. injection H as <-. rewrite Et. intros H; injection H as <-.
           reflexivity.
    + eexists. split; [reflexivity|]. split; [|split].
      * split; [discriminate|]. intros (r' & H & Ht). injection H as <-.
        rewrite Et in Ht. discriminate.
      * intros e' H. discriminate.
      * intros r' t' H. injection H as <-. rewrite Et. discriminate.
  - eexists. split; [reflexivity|]. split; [|split].
    + split; [discriminate|]. intros (r' & H & _). discriminate.
    + intros e' H. injection H as <-. reflexivity.
    + intros r' t' H. discriminate.
Qed.

Lemma validateSynqKeyWithAPI_run (w : World) (key nickname : string) (st : St) :
  validateSynqKeyWithAPI key nickname w st =
    (Val (keyCheck_of
            (fetch_result w (trace st ++ [validating])%list (precheck_url key nickname) "")),
     after st [validating; EvFetch (precheck_url key nickname) ""]).
Proof.
  unfold validateSynqKeyWithAPI. fold (precheck_url key nickname).
  unfold bind at 1. unfold console_log, emit. cbn [trace draws].
  unfold try_catch, bind, fetch. cbn [trace draws]. fold validating.
  unfold after, keyCheck_of. rewrite <- !app_assoc. cbn [app].
  destruct (fetch_result w (trace st ++ [validating])%list (precheck_url key nickname) "")
    as [response|e]; [|reflexivity].
  destruct (text response) as [t|e]; cbn [lift_sum ret throw]; [|reflexivity].
  destruct (String.eqb t "ok"); reflexivity.
Qed.

Lemma includes_Key_after (a r : string) :
  no_K a = true -> JS.includes (a ++ r) "Key" = JS.includes r "Key".
Proof.
  induction a as [|c a IH]; cbn [no_K append]; intros H; [reflexivity|].
  apply andb_true_iff in H as [Hc Ha].
  cbn [JS.includes JS.startsWith]. rewrite Ascii.eqb_sym.
  apply negb_true_iff in Hc. rewrite Hc. cbn [andb orb]. exact (IH Ha).
Qed.

Lemma includes_Key_before (e : string) :
  JS.includes (e ++ ". Will proceed with local validation only.") "Key"
  = JS.includes e "Key".
Proof.
  induction e as [|c e IH]; [reflexivity|].
  cbn [append JS.includes]. rewrite IH. f_equal.
  cbn [JS.startsWith].
  destruct e as [|c1 e]; [cbn; now rewrite andb_false_r|].
  destruct e as [|c2 e]; [cbn; now rewrite !andb_false_r|].
  reflexivity.
Qed.

Lemma unreachable_message_Key (e : string) :
  JS.includes ("Could not validate key with API: " ++ e
               ++ ". Will proceed with local validation only.") "Key"
  = JS.includes e "Key".
Proof.
  rewrite (includes_Key_after "Could not validate key with API: ") by reflexivity.
  apply includes_Key_before.
Qed.

(** X8.  The key question of [init]: an ill-formed key is refused
    without any request; for a well-formed key, a network failure whose
    message does not contain [Key] lets the key through, and an answer of
    the registry refuses it exactly when its text is not [ok] and contains
    [Key]. *)
Theorem init_validate_key_outcomes (w : World) (userName input : string) (st : St) :
  (validateSynqKeyFormat input = false ->
   exists message, init_validate_key userName input w st = (Val (Rejected message), st)) /\
  (validateSynqKeyFormat input = true ->
   exists v st',
     init_validate_key userName input w st = (Val v, st') /\
     (forall e,
        fetch_result w (trace st ++ [validating])%list
          (precheck_url input (JS.or_else (Some userName) "cli-setup")) ""
        = NetworkError e ->
        JS.includes e "Key" = false -> v = Accepted) /\
     (forall response t,
        fetch_result w (trace st ++ [validating])%list
          (precheck_url input (JS.or_else (Some userName) "cli-setup")) ""
        = Responds response ->
        text response = inl t ->
        v = if String.eqb t "ok" then Accepted
            else if JS.includes t "Key" then Rejected t else Accepted)).
Proof.
  unfold init_validate_key. split.
  - intros Hbad. rewrite Hbad. destruct (JS.truthy (Some input)); eexists; reflexivity.
  - intros Hgood. rewrite Hgood.
    assert (Ht : JS.truthy (Some input) = true) by (destruct input; [discriminate | reflexivity]).
    rewrite Ht. cbn [negb].
    unfold try_catch. unfold bind at 1. rewrite validateSynqKeyWithAPI_run.
    set (answer := fetch_result w _ _ _).
    destruct answer as [response|e] eqn:E; cbn [keyCheck_of].
    + destruct (text response) as [t|e] eqn:Et.
      * destruct (String.eqb t "ok") eqn:Eok; cbn [isValid kc_message negb].
        -- eexists; eexists. split; [reflexivity|]. split.
           ++ intros e H; discriminate.
           ++ intros r' t' H. injection H as <-. rewrite Et. intros H; injection H as <-.
              now rewrite Eok.
        -- destruct (JS.includes t "Key") eqn:Ek.
           ++ eexists; eexists. split; [reflexivity|]. split.
              ** intros e H; discriminate.
              ** intros r' t' H. injection H as <-. rewrite Et. intros H; injection H as <-.
                 now rewrite Eok, Ek.
           ++ eexists; eexists. split; [reflexivity|]. split.
              ** intros e H; discriminate.
              ** intros r' t' H. injection H as <-. rewrite Et. intros H; injection H as <-.
                 now rewrite Eok, Ek.
      * cbn [isValid kc_message negb]. rewrite unreachable_message_Key.
        destruct (JS.includes e "Key"); eexists; eexists;
          (split; [reflexivity|]); (split; [intros e' H; discriminate|]);
          intros r' t' H; injection H as <-; rewrite Et; discriminate.
    + cbn [isValid kc_message negb]. rewrite unreachable_message_Key.
      destruct (JS.includes e "Key") eqn:Ek; eexists; eexists;
        (split; [reflexivity|]);
        (split; [intros e' H; injection H as <-; intros Hk; congruence
                | intros r' t' H; discriminate]).
Qed.

(** ** Logs and the location of [npx] *)

Lemma slice_last_length {A} (n : nat) (l : list A) : (length (slice_last n l) <= n)%nat.
Proof. unfold slice_last. rewrite length_skipn. lia. Qed.

Lemma slice_last_Forall {A} (P : A -> Prop) (n : nat) (l : list A) :
  Forall P l -> Forall P (slice_last n l).
Proof.
  unfold slice_last. intros H. rewrite <- (firstn_skipn (length l - n) l) in H.
  now apply Forall_app in H.
Qed.

(** X9.  [getRecentLogs] never fails and runs one [journalctl]
    command; it returns at most 15 lines, none of them blank: the last 15
    non-blank lines of the output, or all of them when there are fewer;
    when the command fails, the one-line placeholder. *)
Theorem getRecentLogs_bounded (w : World) (st : St) :
  exists lines,
    getRecentLogs w st = (Val lines, after st [EvExec journalctl_command]) /\
    (length lines <= 15)%nat /\
    Forall (fun line => JS.trim line <> "") lines /\
    (forall e, exec_result w (trace st) journalctl_command = Fails e ->
               lines = ["No logs available or insufficient permissions"]) /\
    (forall output, exec_result w (trace st) journalctl_command = Out output ->
       exists skipped,
         filter (fun line => JS.truthy (Some (JS.trim line)))
                (JS.split (ascii_of_nat 10) output) = (skipped ++ lines)%list /\
         (skipped = [] \/ length lines = 15%nat)).
Proof.
  unfold getRecentLogs, try_catch, bind, execSync. fold journalctl_command.
  destruct (exec_result w (trace st) journalctl_command) as [output|e].
  - eexists. split; [reflexivity|].
    set (kept := filter _ _).
    split; [apply slice_last_length|]. split.
    + apply slice_last_Forall. apply Forall_forall. intros line Hin.
      apply filter_In in Hin as [_ Ht]. intros E. rewrite E in Ht. discriminate.
    + split; [discriminate|]. intros o H. injection H as <-. fold kept.
      exists (firstn (length kept - 15) kept). split.
      * unfold slice_last. now rewrite firstn_skipn.
      * unfold slice_last. rewrite length_skipn.
        destruct (Nat.le_gt_cases (length kept) 15) as [Hle|Hgt].
        -- left. replace (length kept - 15)%nat with 0%nat by lia. reflexivity.
        -- right. lia.
  - eexists. split; [reflexivity|]. split; [cbn; lia|]. split.
    + repeat constructor. discriminate.
    + split; [reflexivity | discriminate].
Qed.

Lemma firstExisting_spec (w : World) (paths : list string) (st : St) :
  exists r,
    firstExisting paths w st = (Val r, st) /\
    match r with
    | Some p => In p paths /\ fs_existsSync w p = true
    | None => forall p, In p paths -> fs_existsSync w p = false
    end.
Proof.
  induction paths as [|p paths IH]; cbn [firstExisting].
  - exists None. split; [reflexivity|]. intros p [].
  - unfold bind, ask. destruct (fs_existsSync w p) eqn:E.
    + exists (Some p). split; [reflexivity|]. split; [now left | exact E].
    + destruct IH as (r & Hr & Hspec). exists r. split; [exact Hr|].
      destruct r as [q|].
      * destruct Hspec. split; [now right | assumption].
      * intros q [<-|Hq]; [exact E | now apply Hspec].
Qed.

Lemma npxFallback_spec (w : World) (home : string -> string) (st : St) :
  exists p,
    npxFallback home w st = (Val p, st) /\
    (p = "npx" \/ fs_existsSync w p = true) /\
    ((forall q, fs_existsSync w q = false) -> p = "npx").
Proof.
  unfold npxFallback, bind.
  match goal with
  | |- context [firstExisting ?l w ?s] =>
      destruct (firstExisting_spec w l s) as (r & Hr & Hspec); rewrite Hr
  end.
  destruct r as [p|].
  - exists p. split; [reflexivity|]. destruct Hspec as [_ Hex].
    split; [now right|]. intros Hnone. rewrite Hnone in Hex. discriminate.
  - exists "npx". split; [reflexivity|]. split; [now left | reflexivity].
Qed.

(** X10.  [detectNpxPath] never fails; it runs [which npx] and at
    most one more command, [which npm]; its answer is a path that exists
    or the bare command name [npx], which is what it answers when no
    candidate exists. *)
Theorem detectNpxPath_existing_or_bare (w : World) (home : string -> string) (st : St) :
  exists npxPath events,
    detectNpxPath home w st = (Val npxPath, after st events) /\
    (npxPath = "npx" \/ fs_existsSync w npxPath = true) /\
    (events = [EvExec "which npx"] \/ events = [EvExec "which npx"; EvExec "which npm"]) /\
    ((forall p, fs_existsSync w p = false) -> npxPath = "npx").
Proof.
  unfold detectNpxPath. fold (npxFallback home).
  unfold bind at 1. unfold try_catch at 1. unfold bind at 1, execSync at 1.
  assert (Hsecond : forall st1,
    st1 = after st [EvExec "which npx"] ->
    exists npxPath,
      (viaNpm <-
         try_catch
           (output <- execSync "which npm" ;;
            let npmPath := JS.trim output in
            if JS.truthy (Some npmPath) then
              let npxPath := replace_npm_suffix npmPath in
              there <- ask (fun w => fs_existsSync w npxPath) ;;
              if (there : bool) then ret (Some npxPath) else ret None
            else ret None)
           (fun _ => ret None) ;;
       match viaNpm with
       | Some npxPath => ret npxPath
       | None => npxFallback home
       end) w st1 = (Val npxPath, after st [EvExec "which npx"; EvExec "which npm"]) /\
      (npxPath = "npx" \/ fs_existsSync w npxPath = true) /\
      ((forall p, fs_existsSync w p = false) -> npxPath = "npx")).
  { intros st1 ->.
    assert (Hst : {| trace := (trace (after st [EvExec "which npx"]) ++ [EvExec "which npm"])%list;
                     draws := draws (after st [EvExec "which npx"]) |}
                  = after st [EvExec "which npx"; EvExec "which npm"]).
    { unfold after. cbn. now rewrite <- app_assoc. }
    unfold bind at 1. unfold try_catch at 1. unfold bind at 1, execSync at 1.
    rewrite Hst.
    destruct (exec_result w _ "which npm") as [out2|e2].
    - destruct (JS.truthy (Some (JS.trim out2))).
      + unfold bind at 1, ask at 1.
        destruct (fs_existsSync w (replace_npm_suffix (JS.trim out2))) eqn:Ex2.
        * eexists. split; [reflexivity|]. split; [now right|].
          intros Hnone. rewrite Hnone in Ex2. discriminate.
        * unfold ret at 1.
          destruct (npxFallback_spec w home (after st [EvExec "which npx"; EvExec "which npm"]))
            as (p & Hp & Hpp). exists p. split; assumption.
      + unfold ret at 1.
        destruct (npxFallback_spec w home (after st [EvExec "which npx"; EvExec "which npm"]))
          as (p & Hp & Hpp). exists p. split; assumption.
    - unfold ret at 1.
      destruct (npxFallback_spec w home (after st [EvExec "which npx"; EvExec "which npm"]))
        as (p & Hp & Hpp). exists p. split; assumption. }
  destruct (exec_result w (trace st) "which npx") as [out1|e1].
  - unfold bind at 1, ask at 1.
    destruct (JS.truthy (Some (JS.trim out1)) && fs_existsSync w (JS.trim out1)) eqn:E1.
    + apply andb_true_iff in E1 as [Ht He]. unfold ret.
      exists (JS.trim out1), [EvExec "which npx"]. split; [reflexivity|].
      split; [now right|]. split; [now left|].
      intros Hnone. rewrite Hnone in He. discriminate.
    + unfold ret at 1.
      destruct (Hsecond _ eq_refl) as (p & Hp & Hpp & Hnone).
      exists p, [EvExec "which npx"; EvExec "which npm"].
      split; [exact Hp|]. split; [exact Hpp|]. split; [now right | exact Hnone].
  - destruct (Hsecond _ eq_refl) as (p & Hp & Hpp & Hnone).
    exists p, [EvExec "which npx"; EvExec "which npm"].
    split; [exact Hp|]. split; [exact Hpp|]. split; [now right | exact Hnone].
Qed.

(** ** Image pull on request, health *)

(** X11.  The pull route never fails and pulls at most one image, which
    is one of the two allowed images and the one the request body names;
    with no body, no image name or a name off the list nothing is executed
    and the answer is a failure with an error text; the answer is a success
    exactly when an allowed image was named and its [docker pull]
    succeeded. *)
Theorem api_pull_image_allowlist (w : World) (body : option JS.jsval) (st : St) :
  exists answer events,
    api_pull_image body w st = (Val answer, after st events) /\
    (events = [] \/
     exists image,
       In image allowedImages /\ body = Some (Some image) /\
       events = [EvExec ("docker pull " ++ image)]) /\
    (events = [] -> pull_success answer = false /\ pull_error answer <> None) /\
    (pull_success answer = true <->
     exists image output,
       body = Some (Some image) /\ In image allowedImages /\
       exec_result w (trace st) ("docker pull " ++ image) = Out output).
Proof.
  unfold api_pull_image, try_catch. unfold bind at 1.
  destruct body as [imageName|]; cbn [ret throw].
  2: { eexists; exists []. rewrite after_nil. split; [reflexivity|].
       split; [now left|]. split; [intros _; split; [reflexivity | discriminate]|].
       split; [discriminate|]. intros (i & o & H & _). discriminate. }
  destruct (JS.truthy imageName) eqn:Et; cbn [negb].
  2: { eexists; exists []. rewrite after_nil. split; [reflexivity|].
       split; [now left|]. split; [intros _; split; [reflexivity | discriminate]|].
       split; [discriminate|]. intros (i & o & H & Hin & _). injection H as ->.
       destruct Hin as [<-|[<-|[]]]; discriminate. }
  destruct imageName as [image|]; [|discriminate]. cbn [JS.to_str].
  destruct (existsb (String.eqb image) allowedImages) eqn:Ea; cbn [negb].
  2: { eexists; exists []. rewrite after_nil. split; [reflexivity|].
       split; [now left|]. split; [intros _; split; [reflexivity | discriminate]|].
       split; [discriminate|]. intros (i & o & H & Hin & _). injection H as <-.
       assert (existsb (String.eqb image) allowedImages = true).
       { apply existsb_exists. exists image. split; [exact Hin | apply String.eqb_refl]. }
       congruence. }
  assert (Hin : In image allowedImages).
  { apply existsb_exists in Ea as (x & Hx & E). apply String.eqb_eq in E. now subst x. }
  unfold bind, execSync. unfold after.
  destruct (exec_result w (trace st) ("docker pull " ++ image)) as [output|e] eqn:E;
    eexists; exists [EvExec ("docker pull " ++ image)];
    (split; [reflexivity|]);
    (split; [right; exists image; repeat split; assumption|]);
    (split; [discriminate|]).
  - split; [intros _; now exists image, output | reflexivity].
  - split; [discriminate|]. intros (i & o & H & _ & Ho). injection H as <-. congruence.
Qed.

Lemma getSystemStatus_fields (w : World) (config : Config) (st : St) :
  exists status st',
    getSystemStatus config w st = (Val status, st') /\
    (always_fails w "docker --version" -> dockerAvailable status = false) /\
    (always_fails w systemctl_command -> serviceStatus status = unknown).
Proof.
  unfold getSystemStatus. unfold bind at 1. unfold ask_now at 1.
  set (s0 := initialStatus (clock_iso w (trace st))).
  destruct (probeDocker_run w s0 st) as (b & st1 & Hd & Hdfail & _).
  unfold bind at 1. rewrite Hd.
  destruct (probeService_run w (set_dockerAvailable b s0) st1)
    as (s2 & st2 & Hs & Hsame & Hsfail).
  unfold bind at 1. rewrite Hs.
  destruct (probeContainer_run w s2 st2) as (s3 & st3 & Hc & Hshape & _).
  unfold bind at 1. rewrite Hc.
  destruct (probeImages_run w s3 st3) as (s4 & st4 & Hi & Hioff & Hion).
  unfold bind at 1. rewrite Hi.
  exists s4, st4. split; [reflexivity|].
  destruct Hsame as (_ & Hda & _ & _).
  assert (H3 : dockerAvailable s3 = b /\ serviceStatus s3 = serviceStatus s2).
  { destruct Hshape as [->|(r & ->)]; cbn; split; try reflexivity; exact Hda. }
  destruct H3 as [Hda3 Hss3].
  assert (H4 : dockerAvailable s4 = dockerAvailable s3 /\ serviceStatus s4 = serviceStatus s3).
  { destruct (dockerAvailable s3) eqn:E.
    - destruct (Hion eq_refl) as (b1 & b2 & checked & -> & _). cbn. now rewrite E.
    - rewrite (Hioff eq_refl). now rewrite E. }
  destruct H4 as [Hda4 Hss4].
  split.
  - intros Hfail. now rewrite Hda4, Hda3, (Hdfail Hfail).
  - intros Hfail. now rewrite Hss4, Hss3, (Hsfail Hfail).
Qed.

Lemma loadConfig_run (w : World) (st : St) :
  snd (loadConfig w st) = st /\ forall code, fst (loadConfig w st) <> Exit code.
Proof.
  cbv beta iota zeta delta [loadConfig bind ask readFileSync lift_sum ret throw].
  destruct (fs_existsSync w (CONFIG_FILE w)); [|split; [reflexivity | discriminate]].
  destruct (fs_readFileSync w (CONFIG_FILE w)) as [text|e];
    [|split; [reflexivity | discriminate]].
  destruct (JSON_parse w text) as [parsed|e]; split; (reflexivity || discriminate).
Qed.

(** X12.  The health check loads the config file itself, and nothing
    guards that.  When the load throws, the health check throws the same
    error before any probe is run; this is what happens when the file is
    there and cannot be read, or its text cannot be parsed.  When the file
    holds [null], the health check throws a [TypeError].  Otherwise
    (without a file the config is the empty object) it returns, and says
    [healthy] exactly when the three checks (runtime, service,
    configuration) all pass; a missing key, a runtime probe that fails and a
    service probe that fails each make it [unhealthy], with that check
    failed.  It never ends the process. *)
Theorem getHealthStatus_unhealthy (w : World) (st : St) :
  match fst (loadConfig w st) with
  | Val (Some config) =>
      exists health st',
        getHealthStatus w st = (Val health, st') /\
        (health_status health = "healthy" \/ health_status health = "unhealthy") /\
        (health_status health = "healthy" <->
         check_docker (checks health) = "pass" /\
         check_service (checks health) = "pass" /\
         check_configuration (checks health) = "pass") /\
        (JS.truthy (key config) = false ->
         health_status health = "unhealthy" /\
         check_configuration (checks health) = "fail") /\
        (always_fails w "docker --version" ->
         health_status health = "unhealthy" /\ check_docker (checks health) = "fail") /\
        (always_fails w systemctl_command ->
         health_status health = "unhealthy" /\ check_service (checks health) = "fail")
  | Val None =>
      exists st',
        getHealthStatus w st
        = (Throw "Cannot read properties of null (reading 'key')", st')
  | Throw message => getHealthStatus w st = (Throw message, st)
  | Exit code => False
  end /\
  (fs_existsSync w (CONFIG_FILE w) = false ->
   fst (loadConfig w st) = Val (Some emptyConfig)) /\
  (forall e,
     fs_existsSync w (CONFIG_FILE w) = true ->
     fs_readFileSync w (CONFIG_FILE w) = inr e ->
     getHealthStatus w st = (Throw e, st)) /\
  (forall text e,
     fs_existsSync w (CONFIG_FILE w) = true ->
     fs_readFileSync w (CONFIG_FILE w) = inl text ->
     JSON_parse w text = inr e ->
     getHealthStatus w st = (Throw e, st)).
Proof.
  split; [|split; [|split]].
  - destruct (loadConfig_run w st) as [Hst Hexit].
    destruct (loadConfig w st) as [r s] eqn:E. cbn [fst snd] in *. subst s.
    destruct r as [[config|]|message|code].
    + destruct (getSystemStatus_fields w config st) as (status & st1 & Hs & Hd & Hv).
      unfold getHealthStatus. unfold bind at 1. rewrite E.
      unfold bind at 1. rewrite Hs.
      destruct (ServiceState_eqb (serviceStatus status) running) eqn:Er;
        destruct (dockerAvailable status) eqn:Ed;
        destruct (JS.truthy (key config)) eqn:Ek;
        cbn [andb]; unfold bind, property, ret, ask_now; rewrite ?Ek;
        (eexists; eexists; split; [reflexivity|]);
        cbn [health_status checks check_docker check_service check_configuration
             pass_fail];
        (split; [auto|]);
        (split; [split; [intros H; try discriminate H; now repeat split
                        | intros (H1 & H2 & H3); try discriminate; reflexivity]|]);
        (split; [intros H; try discriminate H; now split|]);
        (split; [intros H; try (specialize (Hd H); discriminate Hd); now split|]);
        intros H; try (specialize (Hv H); rewrite Hv in Er; discriminate Er);
        now split.
    + destruct (returns_getSystemStatus emptyConfig w st) as (status & st1 & Hs).
      unfold getHealthStatus. unfold bind at 1. rewrite E.
      unfold bind at 1. rewrite Hs.
      destruct (ServiceState_eqb (serviceStatus status) running && dockerAvailable status);
        unfold bind, property, throw, ret, ask_now;
        eexists; reflexivity.
    + unfold getHealthStatus. unfold bind at 1. rewrite E. reflexivity.
    + exact (Hexit code eq_refl).
  - intros Hfile.
    cbv beta iota zeta delta [loadConfig bind ask]. rewrite Hfile. reflexivity.
  - intros e Hfile Hread. unfold getHealthStatus. unfold bind at 1.
    cbv beta iota zeta delta [loadConfig bind ask readFileSync lift_sum ret throw].
    rewrite Hfile, Hread. reflexivity.
  - intros text e Hfile Hread Hparse. unfold getHealthStatus. unfold bind at 1.
    cbv beta iota zeta delta [loadConfig bind ask readFileSync lift_sum ret throw].
    rewrite Hfile, Hread, Hparse. reflexivity.
Qed.

Example getHealthStatus_unreadable_config :
  getHealthStatus (withConfigFile workingWorld (inr "Unexpected token } in JSON")) st0
  = (Throw "Unexpected token } in JSON", st0).
Proof. reflexivity. Qed.

Example getHealthStatus_without_config :
  exists health st',
    getHealthStatus bareWorld st0 = (Val health, st') /\
    health_status health = "unhealthy".
Proof. eexists; eexists. split; [vm_compute; reflexivity|]. reflexivity. Qed.

(** ** Registry lookup and points *)

(** X13.  The registry lookup never throws, and its result carries
    data without error on success, an error without data on failure.
    Without key or wallet it sends nothing; otherwise it logs one line and
    sends one request to the wallet endpoint and, exactly when that one is
    answered with a status that is not OK, a second one to the DePIN wallet
    endpoint, both with the key as header; the source recorded in the data
    tells which endpoint answered. *)
Theorem fetchWalletLifetimePoints_requests (w : World) (key wallet : JS.jsval)
  (config : Config) (st : St) :
  exists r events,
    fetchWalletLifetimePoints key wallet config w st = (Val r, after st events) /\
    well_formed_result r /\
    (events = [] \/
     events = [fetching; EvFetch (wallet_url wallet) (JS.to_str key)] \/
     events = [fetching; EvFetch (wallet_url wallet) (JS.to_str key);
               EvFetch (depin_wallet_url wallet) (JS.to_str key)]) /\
    (JS.truthy key = false \/ JS.truthy wallet = false -> events = []) /\
    (length events = 3%nat <->
     JS.truthy key = true /\ JS.truthy wallet = true /\
     exists response,
       fetch_result w (trace st ++ [fetching])%list (wallet_url wallet) (JS.to_str key)
         = Responds response /\
       ok response = false) /\
    (forall d, data r = Some d ->
       (api_source d = "registry_api" /\
        events = [fetching; EvFetch (wallet_url wallet) (JS.to_str key)]) \/
       (api_source d = "depin_registry_api" /\
        events = [fetching; EvFetch (wallet_url wallet) (JS.to_str key);
                  EvFetch (depin_wallet_url wallet) (JS.to_str key)])).
Proof.
  unfold fetchWalletLifetimePoints. fold (wallet_url wallet) (depin_wallet_url wallet).
  destruct (JS.truthy key) eqn:Ek; cbn [negb orb].
  2: { eexists; exists []. rewrite after_nil. split; [reflexivity|].
       split; [right; repeat split; discriminate|]. split; [now left|].
       split; [reflexivity|].
       split; [split; [discriminate | intros (H & _); discriminate H] | discriminate]. }
  destruct (JS.truthy wallet) eqn:Ew; cbn [negb].
  2: { eexists; exists []. rewrite after_nil. split; [reflexivity|].
       split; [right; repeat split; discriminate|]. split; [now left|].
       split; [reflexivity|].
       split; [split; [discriminate | intros (_ & H & _); discriminate H] | discriminate]. }
  unfold try_catch, bind, console_log, emit, fetch. cbn [trace draws]. fold fetching.
  unfold after.
  destruct (fetch_result w (trace st ++ [fetching])%list (wallet_url wallet) (JS.to_str key))
    as [r1|e1] eqn:E1.
  2: { eexists. exists [fetching; EvFetch (wallet_url wallet) (JS.to_str key)].
       rewrite <- !app_assoc. split; [reflexivity|].
       split; [right; repeat split; discriminate|]. split; [auto|].
       split; [intros [H|H]; discriminate|].
       split; [split; [discriminate | intros (_ & _ & r' & H & _); discriminate H]
              | discriminate]. }
  destruct (ok r1) eqn:Eok; cbn [negb].
  - assert (Hone : length [fetching; EvFetch (wallet_url wallet) (JS.to_str key)] = 3%nat <->
                   true = true /\ true = true /\
                   exists response, Responds r1 = Responds response /\ ok response = false).
    { split; [discriminate|]. intros (_ & _ & r' & H & Hr'). injection H as <-. congruence. }
    destruct (json r1) as [d|e]; cbn [lift_sum ret throw ask_now].
    + eexists. exists [fetching; EvFetch (wallet_url wallet) (JS.to_str key)].
      rewrite <- !app_assoc. split; [reflexivity|].
      split; [left; repeat split; discriminate|]. split; [auto|].
      split; [intros [H|H]; discriminate|]. split; [exact Hone|].
      intros d' H. injection H as <-. left. split; reflexivity.
    + eexists. exists [fetching; EvFetch (wallet_url wallet) (JS.to_str key)].
      rewrite <- !app_assoc. split; [reflexivity|].
      split; [right; repeat split; discriminate|]. split; [auto|].
      split; [intros [H|H]; discriminate|]. split; [exact Hone | discriminate].
  - assert (Htwo : length [fetching; EvFetch (wallet_url wallet) (JS.to_str key);
                           EvFetch (depin_wallet_url wallet) (JS.to_str key)] = 3%nat <->
                   true = true /\ true = true /\
                   exists response, Responds r1 = Responds response /\ ok response = false).
    { split; [|reflexivity]. intros _. repeat split. now exists r1. }
    cbn [trace draws].
    destruct (fetch_result w _ (depin_wallet_url wallet) (JS.to_str key)) as [r2|e2].
    2: { eexists. exists [fetching; EvFetch (wallet_url wallet) (JS.to_str key);
                          EvFetch (depin_wallet_url wallet) (JS.to_str key)].
         rewrite <- !app_assoc. split; [reflexivity|].
         split; [right; repeat split; discriminate|]. split; [auto|].
         split; [intros [H|H]; discriminate|]. split; [exact Htwo | discriminate]. }
    destruct (ok r2); cbn [negb].
    + destruct (json r2) as [d|e]; cbn [lift_sum ret throw ask_now];
        eexists; exists [fetching; EvFetch (wallet_url wallet) (JS.to_str key);
                         EvFetch (depin_wallet_url wallet) (JS.to_str key)];
        rewrite <- !app_assoc; (split; [reflexivity|]).
      * split; [left; repeat split; discriminate|]. split; [auto|].
        split; [intros [H|H]; discriminate|]. split; [exact Htwo|].
        intros d' H. injection H as <-. right. split; reflexivity.
      * split; [right; repeat split; discriminate|]. split; [auto|].
        split; [intros [H|H]; discriminate|]. split; [exact Htwo | discriminate].
    + destruct (text r1) as [t|e]; cbn [lift_sum ret throw];
        eexists; exists [fetching; EvFetch (wallet_url wallet) (JS.to_str key);
                         EvFetch (depin_wallet_url wallet) (JS.to_str key)];
        rewrite <- !app_assoc; (split; [reflexivity|]);
        (split; [right; repeat split; discriminate|]); (split; [auto|]);
        (split; [intros [H|H]; discriminate|]); (split; [exact Htwo | discriminate]).
Qed.

Lemma num_or_idem (v : option float) :
  JS.num_or (Some (JS.num_or v 0)) 0 = JS.num_or v 0.
Proof.
  destruct v as [x|]; [|reflexivity]. cbn [JS.num_or].
  destruct (JS.truthy_num x) eqn:E; [now rewrite E | reflexivity].
Qed.

(** X14.  [getPointsData] never fails, and its answer is of one of two
    kinds: an error with zero points and no source, or a source with no
    error and no fallback mark; the fallback mark comes only with an error;
    without key or wallet nothing is done at all. *)
Theorem getPointsData_error_or_source (w : World) (config : Config) (st : St) :
  exists view st',
    getPointsData config w st = (Val view, st') /\
    ((error view <> None /\ source view = None /\ points view = zeroPoints) \/
     (error view = None /\ source view <> None /\ fallback view = None)) /\
    (fallback view = Some true -> error view <> None) /\
    (JS.truthy (key config) = false \/ JS.truthy (wallet config) = false ->
     st' = st /\ error view = Some "Missing Synq key or wallet address").
Proof.
  unfold getPointsData.
  destruct (negb (JS.truthy (key config)) || negb (JS.truthy (wallet config))) eqn:Emiss.
  { eexists; eexists. split; [reflexivity|]. cbn [error source points fallback].
    split; [left; repeat split; discriminate|]. split; [discriminate|].
    intros _. split; reflexivity. }
  assert (Hboth : JS.truthy (key config) = true /\ JS.truthy (wallet config) = true).
  { destruct (JS.truthy (key config)), (JS.truthy (wallet config)); try discriminate; auto. }
  assert (Htail : forall st1, exists view st',
    try_catch
      (containerStats <- getContainerStats ;;
       match containerStats with
       | None =>
           now <- ask_now clock_iso ;;
           ret {| pt_timestamp := now; points := zeroPoints;
                  error := Some "Synchronizer container not running - start it first";
                  fallback := Some true; source := None; apiExtras := None;
                  containerUptime := None; isEarning := None;
                  connectionState := None |}
       | Some containerStats =>
           let walletLifePoints :=
             JS.num_or (Some (walletLifePoints containerStats)) 0 in
           let currentPoints :=
             if isEarningPoints containerStats
             then JS.Math_floor (JS.num_or (Some (uptimeHours containerStats)) 0)
             else 0%float in
           now <- ask_now clock_iso ;;
           streak <- random_if (PrimFloat.ltb 100 walletLifePoints) 7 1 ;;
           rank <-
             (if PrimFloat.ltb 1000 walletLifePoints
              then r <- Math_random ;; ret (Num (JS.Math_floor (r * 10000) + 1))
              else ret (Str "N/A")) ;;
           uptimeText <-
             ask (fun w => toFixed1 w (JS.num_or (Some (uptimeHours containerStats)) 0)) ;;
           ret {| pt_timestamp := now;
                  points :=
                    {| total := walletLifePoints;
                       daily := currentPoints;
                       weekly := JS.Math_floor (walletLifePoints * 0.1);
                       monthly := JS.Math_floor (walletLifePoints * 0.3);
                       streak := streak;
                       rank := rank;
                       multiplier :=
                         if isEarningPoints containerStats then "1.0" else "0.0" |};
                  error := None; fallback := None;
                  source := Some "container_stats";
                  apiExtras := None;
                  containerUptime := Some (uptimeText ++ " hours");
                  isEarning := Some (isEarningPoints containerStats);
                  connectionState := Some (proxyConnectionState containerStats) |}
       end)
      (fun e =>
         console_error ("Error fetching points from container: " ++ e) ;;
         now <- ask_now clock_iso ;;
         ret {| pt_timestamp := now; points := zeroPoints;
                error := Some ("Container Error: " ++ e);
                fallback := Some true; source := None; apiExtras := None;
                containerUptime := None; isEarning := None;
                connectionState := None |}) w st1 = (Val view, st') /\
    ((error view <> None /\ source view = None /\ points view = zeroPoints) \/
     (error view = None /\ source view <> None /\ fallback view = None)) /\
    (fallback view = Some true -> error view <> None)).
  { intros st1.
    destruct (returns_getContainerStats w st1) as (cs & st2 & Hcs).
    unfold try_catch. unfold bind at 1. rewrite Hcs.
    destruct cs as [cs|].
    - unfold bind, ask_now, ask, random_if, Math_random, ret.
      destruct (PrimFloat.ltb 100 _), (PrimFloat.ltb 1000 _);
        eexists; eexists; (split; [reflexivity|]); cbn [error source fallback];
        (split; [right; repeat split; discriminate | discriminate]).
    - eexists; eexists. split; [reflexivity|]. cbn [error source fallback points].
      split; [left; repeat split; discriminate | discriminate]. }
  destruct (returns_fetchWalletLifetimePoints (key config) (wallet config) config w st)
    as (r & st1 & Hr).
  unfold bind at 1. unfold try_catch at 1. unfold bind at 1. rewrite Hr.
  destruct (success r).
  - unfold bind at 1. unfold console_log, emit.
    destruct (data r) as [d|].
    + unfold bind, ret, ask_now.
      eexists; eexists. split; [reflexivity|]. cbn [error source fallback].
      split; [right; repeat split; discriminate|]. split; [discriminate|].
      intros [H|H]; destruct Hboth; congruence.
    + unfold bind at 1. unfold throw. unfold ret at 1.
      destruct (Htail {| trace := (trace st1 ++
                  [EvLog "Retrieved real wallet lifetime points from registry API"])%list;
                 draws := draws st1 |}) as (v & st' & Hv & H1 & H2).
      exists v, st'. split; [exact Hv|]. split; [exact H1|]. split; [exact H2|].
      intros [H|H]; destruct Hboth; congruence.
  - unfold ret at 1.
    destruct (Htail st1) as (v & st' & Hv & H1 & H2).
    exists v, st'. split; [exact Hv|]. split; [exact H1|]. split; [exact H2|].
    intros [H|H]; destruct Hboth; congruence.
Qed.

(** X15.  When the registry answers the first wallet request OK with a
    wallet record, [getPointsData] answers from it and does not look at the
    container: the total is the record's credits (0 when absent), daily,
    weekly and monthly are the floors of 5, 20 and 50 percent of the total,
    the source is [registry_api], and the only events are the two log lines
    and the one request. *)
Theorem getPointsData_registry_first (w : World) (config : Config) (st : St)
  (response : Response) (d : WalletJson) :
  JS.truthy (key config) = true ->
  JS.truthy (wallet config) = true ->
  fetch_result w (trace st ++ [fetching])%list (wallet_url (wallet config))
    (JS.to_str (key config)) = Responds response ->
  ok response = true ->
  json response = inl d ->
  exists view,
    getPointsData config w st =
      (Val view,
       after st [fetching;
                 EvFetch (wallet_url (wallet config)) (JS.to_str (key config));
                 retrieved]) /\
    total (points view) = JS.num_or (serviceCredits d) 0 /\
    daily (points view) =
      JS.num_or (Some (JS.Math_floor (JS.num_or (serviceCredits d) 0 * 0.05))) 0 /\
    weekly (points view) =
      JS.num_or (Some (JS.Math_floor (JS.num_or (serviceCredits d) 0 * 0.2))) 0 /\
    monthly (points view) =
      JS.num_or (Some (JS.Math_floor (JS.num_or (serviceCredits d) 0 * 0.5))) 0 /\
    source view = Some "registry_api" /\
    error view = None /\ fallback view = None.
Proof.
  intros Hk Hw Hf Hok Hjson.
  unfold getPointsData. rewrite Hk, Hw. cbn [negb orb].
  unfold bind at 1. unfold try_catch at 1. unfold bind at 1.
  unfold fetchWalletLifetimePoints. rewrite Hk, Hw. cbn [negb orb].
  fold (wallet_url (wallet config)).
  unfold try_catch at 1. unfold bind at 1. unfold console_log at 1, emit at 1.
  cbn [trace draws]. fold fetching.
  unfold bind at 1. unfold fetch at 1. cbn [trace draws]. rewrite Hf, Hok. cbn [negb].
  unfold bind at 1. rewrite Hjson. cbn [lift_sum]. unfold ret at 1.
  unfold bind at 1, ask_now at 1. unfold ret at 1. cbn [success data].
  unfold bind, console_log, emit, ret, ask_now. cbn [trace draws].
  eexists. split.
  - unfold after, retrieved. rewrite <- !app_assoc. cbn [app]. reflexivity.
  - cbn [points total daily weekly monthly source error fallback walletData
         lifetimePoints dailyPoints weeklyPoints monthlyPoints api_source JS.or_else].
    rewrite num_or_idem. repeat split; reflexivity.
Qed.

Lemma getPointsData_registry_first_witness :
  exists view,
    getPointsData sampleConfig onlineWorld st0 =
      (Val view,
       after st0 [fetching;
                  EvFetch (wallet_url (wallet sampleConfig)) (JS.to_str (key sampleConfig));
                  retrieved]) /\
    total (points view) = 1200%float /\
    daily (points view) = 60%float /\
    source view = Some "registry_api".
Proof.
  destruct (getPointsData_registry_first onlineWorld sampleConfig st0 walletFound walletRecord)
    as (view & Hrun & Htotal & Hdaily & _ & _ & Hsource & _); try reflexivity.
  exists view. split; [exact Hrun|]. split; [exact Htotal|]. split; [|exact Hsource].
  rewrite Hdaily. vm_compute. reflexivity.
Defined.

(** ** The supervisor's paths *)

Lemma console_errors_run (w : World) (msgs : list string) (st : St) :
  console_errors msgs w st = (Val tt, after st (map EvError msgs)).
Proof.
  revert st. induction msgs as [|m msgs IH]; intros st.
  - cbn. unfold ret. now rewrite after_nil.
  - cbn [console_errors map]. unfold bind, console_error, emit. rewrite IH.
    unfold after. cbn [trace draws]. now rewrite <- app_assoc.
Qed.

Ltac norm_trace :=
  rewrite <- ?app_assoc; cbn [app].

Ltac closed_incl :=
  let x := fresh "x" in
  let Hx := fresh "Hx" in
  intros x Hx; cbn [execs In] in Hx;
  repeat (destruct Hx as [<-|Hx]; [cbn [In]; auto 10|]); contradiction.

Ltac no_stop :=
  let H := fresh "H" in
  intros H; vm_compute in H;
  repeat (destruct H as [H|H]; [discriminate|]); contradiction.

Ltac launched E :=
  unfold after; cbn [map trace draws]; norm_trace;
  rewrite <- ?app_assoc in E; cbn [app] in E;
  match type of E with
  | _ = ?o => eexists; exists o
  end;
  split; [reflexivity|];
  split; [cbn [upto_spawn is_spawn]; symmetry; exact E|];
  split; [reflexivity|];
  split; [closed_incl|];
  (split; [first [no_stop | intros _; reflexivity]
          | first [discriminate | intros _; cbn [execs In]; auto 10]]).

Ltac start_tail :=
  unfold bind at 1; unfold console_log at 1, emit at 1;
  unfold bind at 1; unfold console_log at 1, emit at 1;
  unfold bind at 1; unfold emit at 1;
  unfold bind at 1; unfold ask_now at 1; cbn [trace draws];
  let E := fresh "E" in
  match goal with
  | |- context [child_outcome ?w ?tr] => destruct (child_outcome w tr) eqn:E
  end;
  [ unfold bind at 1;
    match goal with
    | |- context [(?code =? 126)%Z] =>
        destruct (code =? 126)%Z;
        [ unfold bind at 1; unfold ask at 1; rewrite console_errors_run
        | destruct (code =? 125)%Z;
          [ rewrite console_errors_run
          | destruct (code =? 0)%Z; unfold when; cbn [negb];
            unfold ret, console_error, emit ] ]
    end;
    unfold process_exit; launched E
  | unfold bind at 1;
    match goal with
    | |- context [if ?b then _ else _] => destruct b
    end;
    unfold console_error, emit, process_exit; launched E
  | unfold cleanup; unfold bind at 1; unfold console_log at 1, emit at 1;
    unfold bind at 1; unfold try_catch, bind, execSync; cbn [trace draws];
    match goal with
    | |- context [exec_result ?w ?tr ("docker stop " ++ containerName)] =>
        destruct (exec_result w tr ("docker stop " ++ containerName))
    end;
    unfold console_log, emit, process_exit; launched E ].

Lemma start_launch_tail (w : World) (config : Config) (st : St) :
  exists events outcome,
    (arch <- ask os_arch;;
     platform <- ask os_platform;;
     console_log
       ("Detected platform: " ++ platform ++ "/" ++ arch
        ++ " -> Using Docker platform: " ++ dockerPlatform platform arch);;
     version <- ask package_version;;
     console_log ("Using launcher identifier: " ++ launcherWithVersion version);;
     shouldPull <- isNewDockerImageAvailable imageName;;
     when shouldPull
       (console_log "Pulling latest Docker image...";;
        try_catch
          (execSync ("docker pull " ++ imageName);;
           console_log "Docker image pulled successfully")
          (fun e : string =>
             console_log
               "Could not pull latest image - will use local cache if available";;
             console_log e));;
     console_log
       ("Running synchronizer " ++ JS.dq ++ JS.to_str (syncHash config) ++ JS.dq
        ++ " with wallet " ++ JS.or_else (wallet config) "[none]");;
     console_log
       ("Running command: docker " ++
        JS.join " "
          (start_args config (dockerPlatform platform arch)
             (launcherWithVersion version)));;
     emit
       (EvSpawn "docker"
          (start_args config (dockerPlatform platform arch)
             (launcherWithVersion version)));;
     outcome <- ask_now child_outcome;;
     match outcome with
     | ChildExit code =>
         (if (code =? 126)%Z
          then
            user <- ask os_username;;
            console_errors
              ["Docker permission denied.";
               "This usually means your user is not in the docker group.";
               nl ++ "To fix this:";
               "1. Add your user to the docker group:";
               "   sudo usermod -aG docker " ++ user;
               "2. Log out and log back in (or restart your terminal)";
               "3. Test with: docker run hello-world";
               nl ++ "Alternative: Run with sudo (not recommended):";
               "   sudo synchronize start";
               nl ++ "Or use the fix command:";
               "   synchronize fix-docker"]
          else
            if (code =? 125)%Z
            then
              console_errors
                ["Docker container failed to start.";
                 "This might be due to platform architecture issues.";
                 nl ++ "Troubleshooting steps:";
                 "1. Test platform compatibility:";
                 "   synchronize test-platform"; "2. Check Docker logs:";
                 "   docker logs synchronizer-cli";
                 "3. Try running with different platform:";
                 "   docker run --platform linux/amd64 cdrakep/synqchronizer:latest --help"]
            else
              when (negb (code =? 0)%Z)
                (console_error
                   ("Docker process exited with code " ++ show_Z code)));;
         process_exit code
     | ChildError enoent message =>
         (if enoent
          then
            console_error
              "Docker command not found. Please ensure Docker is installed and in your PATH."
          else console_error ("Error running Docker: " ++ message));;
         process_exit 1
     | Signalled => cleanup
     end) w st = (Exit (exit_code_of outcome), after st events) /\
    outcome = child_outcome w (trace st ++ upto_spawn events)%list /\
    spawns events = [launch w config] /\
    incl (execs events) [images_command imageName; pull_command; stop_command] /\
    (In stop_command (execs events) <-> outcome = Signalled).
Proof.
  unfold bind at 1. unfold ask at 1.
  unfold bind at 1. unfold ask at 1.
  unfold bind at 1. unfold console_log at 1, emit at 1.
  unfold bind at 1. unfold ask at 1.
  unfold bind at 1. unfold console_log at 1, emit at 1.
  unfold bind at 1. rewrite isNewDockerImageAvailable_run. cbn [trace draws].
  destruct (needsPull _); unfold when at 1.
  - unfold bind at 1. unfold bind at 1. unfold console_log at 1, emit at 1.
    cbn [trace draws].
    unfold try_catch at 1. unfold bind at 1. unfold execSync at 1. cbn [trace draws].
    destruct (exec_result w _ ("docker pull " ++ imageName)) as [out|e].
    + unfold console_log at 1, emit at 1. cbn [trace draws]. start_tail.
    + unfold bind at 1. unfold console_log at 1, emit at 1.
      unfold console_log at 1, emit at 1. cbn [trace draws]. start_tail.
  - unfold bind at 1. unfold ret at 1. start_tail.
Qed.

(** X16.  On its own host, with the runtime installed and no container
    of the name listed, [start] spawns exactly one process, [docker run]
    with the arguments of [start_args], whatever the local image check and
    the pull did; it ends the process with the worker's exit code, with 1
    when the worker could not be started, and with 0 after an interrupt, in
    which case, and only then, it has run [docker stop].  It executes no
    command besides the version probe, the listing, the image check, the
    pull and the stop. *)
Theorem start_launch_exit_code (w : World) (config : Config) (st : St) (v : string) :
  JS.truthy (key config) = true ->
  hostname config = Some (os_hostname w) ->
  exec_result w (trace st) "docker --version" = Out v ->
  not_listed (exec_result w (trace st ++ [EvExec "docker --version"])%list
                (ps_command containerName)) containerName ->
  exists events outcome,
    start config w st = (Exit (exit_code_of outcome), after st events) /\
    outcome = child_outcome w (trace st ++ upto_spawn events)%list /\
    spawns events = [launch w config] /\
    incl (execs events)
      ["docker --version"; ps_command containerName; images_command imageName;
       pull_command; stop_command] /\
    (In stop_command (execs events) <-> outcome = Signalled).
Proof.
  intros Hkey Hhost Hdocker Hps.
  destruct (start_launch_tail w config
              {| trace := ((trace st ++ [EvExec "docker --version"])
                           ++ [EvExec (ps_command containerName)])%list;
                 draws := draws st |})
    as (events & outcome & Hrun & Hout & Hsp & Hex & Hstop).
  cbn [trace] in Hout. rewrite <- !app_assoc in Hout. cbn [app] in Hout.
  exists (EvExec "docker --version" :: EvExec (ps_command containerName) :: events), outcome.
  split; [|split; [|split; [|split]]].
  - unfold start.
    unfold bind at 1. unfold when at 1. rewrite Hkey. cbn [negb]. unfold ret at 1.
    unfold bind at 1. unfold ask at 1.
    unfold bind at 1. unfold when at 1. rewrite Hhost.
    replace (JS.strict_eq (Some (os_hostname w)) (Some (os_hostname w))) with true
      by (cbn; now rewrite String.eqb_refl).
    cbn [negb]. unfold ret at 1.
    unfold bind at 1. unfold checkDocker at 1, try_catch at 1, bind at 1, execSync at 1.
    rewrite Hdocker. unfold ret at 1. cbn [negb].
    unfold bind at 1. unfold when at 1. unfold ret at 1.
    unfold bind at 1. unfold try_catch at 1. unfold bind at 1. unfold execSync at 1.
    cbn [trace draws]. fold (ps_command containerName).
    unfold not_listed in Hps.
    destruct (exec_result w _ (ps_command containerName)) as [names|e].
    + rewrite Hps. unfold ret at 1. rewrite Hrun.
      unfold after. cbn [trace draws]. now rewrite <- !app_assoc.
    + unfold ret at 1. rewrite Hrun.
      unfold after. cbn [trace draws]. now rewrite <- !app_assoc.
  - exact Hout.
  - exact Hsp.
  - intros x [<-|[<-|Hx]]; [cbn [In]; auto | cbn [In]; auto |].
    apply Hex in Hx. cbn [In] in *. intuition.
  - rewrite <- Hstop. cbn [execs In]. split; [|auto].
    intros [H|[H|H]]; [vm_compute in H; discriminate | vm_compute in H; discriminate | exact H].
Qed.

Lemma start_launch_exit_code_witness :
  exists events outcome,
    start sampleConfig (launchWorld (ChildExit 137)) st0
      = (Exit (exit_code_of outcome), after st0 events) /\
    outcome = child_outcome (launchWorld (ChildExit 137)) (trace st0 ++ upto_spawn events)%list /\
    spawns events = [launch (launchWorld (ChildExit 137)) sampleConfig] /\
    incl (execs events)
      ["docker --version"; ps_command containerName; images_command imageName;
       pull_command; stop_command] /\
    (In stop_command (execs events) <-> outcome = Signalled).
Proof.
  apply (start_launch_exit_code (launchWorld (ChildExit 137)) sampleConfig st0
           "Docker version 27.0.1").
  - reflexivity.
  - reflexivity.
  - reflexivity.
  - vm_compute. reflexivity.
Defined.

Ltac start_prefix Hkey Hhost :=
  unfold start;
  unfold bind at 1; unfold when at 1; rewrite Hkey; cbn [negb]; unfold ret at 1;
  unfold bind at 1; unfold ask at 1;
  unfold bind at 1; unfold when at 1; rewrite Hhost;
  replace (JS.strict_eq (Some (os_hostname _)) (Some (os_hostname _))) with true
    by (cbn; now rewrite String.eqb_refl);
  cbn [negb]; unfold ret at 1;
  unfold bind at 1; unfold checkDocker at 1, try_catch at 1, bind at 1, execSync at 1.

(** X17.  When a container of the name is already listed, [start]
    launches nothing: the only process it spawns follows that container's
    logs, and it neither checks nor pulls the image; it ends with the exit
    code of the log follower, or with 0 after an interrupt, having run
    [docker stop]; a log follower that cannot be started surfaces as an
    uncaught error. *)
Theorem start_attaches_to_running (w : World) (config : Config) (st : St)
  (v names : string) :
  JS.truthy (key config) = true ->
  hostname config = Some (os_hostname w) ->
  exec_result w (trace st) "docker --version" = Out v ->
  exec_result w (trace st ++ [EvExec "docker --version"])%list
    (ps_command containerName) = Out names ->
  JS.includes names containerName = true ->
  exists events result,
    start config w st = (result, after st events) /\
    spawns events = [follow_logs] /\
    incl (execs events) ["docker --version"; ps_command containerName; stop_command] /\
    match child_outcome w (trace st ++ upto_spawn events)%list with
    | ChildExit code => result = Exit code /\ ~ In stop_command (execs events)
    | Signalled => result = Exit 0 /\ In stop_command (execs events)
    | ChildError _ message => result = Throw message /\ ~ In stop_command (execs events)
    end.
Proof.
  intros Hkey Hhost Hdocker Hps Hinc.
  start_prefix Hkey Hhost.
  rewrite Hdocker. unfold ret at 1. cbn [negb].
  unfold bind at 1. unfold when at 1. unfold ret at 1.
  unfold bind at 1. unfold try_catch at 1. unfold bind at 1. unfold execSync at 1.
  cbn [trace draws]. fold (ps_command containerName).
  rewrite Hps, Hinc.
  unfold bind at 1. unfold console_log at 1, emit at 1.
  unfold bind at 1. unfold console_log at 1, emit at 1.
  unfold bind at 1. unfold emit at 1. unfold ret at 1. cbn [trace draws].
  unfold bind at 1. unfold ask_now at 1. cbn [trace draws].
  match goal with
  | |- context [child_outcome w ?tr] => destruct (child_outcome w tr) eqn:E
  end.
  - unfold process_exit, after. norm_trace.
    rewrite <- !app_assoc in E; cbn [app] in E.
    eexists; eexists. split; [reflexivity|]. split; [reflexivity|].
    split; [closed_incl|].
    cbn [upto_spawn is_spawn]. rewrite E. split; [reflexivity | no_stop].
  - unfold throw, after. norm_trace.
    rewrite <- !app_assoc in E; cbn [app] in E.
    eexists; eexists. split; [reflexivity|]. split; [reflexivity|].
    split; [closed_incl|].
    cbn [upto_spawn is_spawn]. rewrite E. split; [reflexivity | no_stop].
  - unfold cleanup. unfold bind at 1. unfold console_log at 1, emit at 1.
    unfold bind at 1. unfold try_catch, bind, execSync. cbn [trace draws].
    rewrite <- !app_assoc in E; cbn [app] in E.
    destruct (exec_result w _ ("docker stop " ++ containerName));
      unfold console_log, emit, process_exit, after; cbn [trace draws]; norm_trace;
      (eexists; eexists; split; [reflexivity|]; split; [reflexivity|];
       split; [closed_incl|];
       cbn [upto_spawn is_spawn]; rewrite E;
       split; [reflexivity | cbn [execs In]; auto 10]).
Qed.

Lemma start_attaches_to_running_witness :
  exists events result,
    start sampleConfig workingWorld st0 = (result, after st0 events) /\
    spawns events = [follow_logs] /\
    incl (execs events) ["docker --version"; ps_command containerName; stop_command] /\
    match child_outcome workingWorld (trace st0 ++ upto_spawn events)%list with
    | ChildExit code => result = Exit code /\ ~ In stop_command (execs events)
    | Signalled => result = Exit 0 /\ In stop_command (execs events)
    | ChildError _ message => result = Throw message /\ ~ In stop_command (execs events)
    end.
Proof.
  apply (start_attaches_to_running workingWorld sampleConfig st0
           "Docker version 27.0.1" ("synchronizer-cli" ++ nl)).
  - reflexivity.
  - reflexivity.
  - reflexivity.
  - reflexivity.
  - reflexivity.
Defined.

Lemma beside_runtime_ret {A} (a : A) : beside_runtime (ret a).
Proof.
  intros w st. exists (Val a), []. rewrite after_nil.
  split; [reflexivity|]. split; [discriminate|]. split; [reflexivity | intros cmd []].
Qed.

Lemma beside_runtime_throw {A} (e : string) : beside_runtime (@throw A e).
Proof.
  intros w st. exists (Throw e), []. rewrite after_nil.
  split; [reflexivity|]. split; [discriminate|]. split; [reflexivity | intros cmd []].
Qed.

Lemma beside_runtime_ask {A} (f : World -> A) : beside_runtime (ask f).
Proof.
  intros w st. exists (Val (f w)), []. rewrite after_nil.
  split; [reflexivity|]. split; [discriminate|]. split; [reflexivity | intros cmd []].
Qed.

Lemma beside_runtime_ask_now {A} (f : World -> list Event -> A) :
  beside_runtime (ask_now f).
Proof.
  intros w st. exists (Val (f w (trace st))), []. rewrite after_nil.
  split; [reflexivity|]. split; [discriminate|]. split; [reflexivity | intros cmd []].
Qed.

Lemma beside_runtime_lift_sum {A} (r : A + string) : beside_runtime (lift_sum r).
Proof. destruct r; [apply beside_runtime_ret | apply beside_runtime_throw]. Qed.

Lemma beside_runtime_console_log (msg : string) : beside_runtime (console_log msg).
Proof.
  intros w st. exists (Val tt), [EvLog msg].
  split; [reflexivity|]. split; [discriminate|]. split; [reflexivity | intros cmd []].
Qed.

Lemma beside_runtime_console_error (msg : string) : beside_runtime (console_error msg).
Proof.
  intros w st. exists (Val tt), [EvError msg].
  split; [reflexivity|]. split; [discriminate|]. split; [reflexivity | intros cmd []].
Qed.

Lemma beside_runtime_execSync (cmd : string) :
  JS.startsWith cmd "docker " = false -> beside_runtime (execSync cmd).
Proof.
  intros Hcmd w st. unfold execSync.
  destruct (exec_result w (trace st) cmd) as [out|e];
    eexists; exists [EvExec cmd];
    (split; [reflexivity|]); (split; [discriminate|]);
    (split; [reflexivity|]); intros c [<-|[]]; exact Hcmd.
Qed.

Lemma runtime_untouched_app (a b : list Event) :
  runtime_untouched a -> runtime_untouched b -> runtime_untouched (a ++ b).
Proof.
  intros [Hsa Hea] [Hsb Heb]. split.
  - now rewrite spawns_app, Hsa, Hsb.
  - intros cmd Hin. rewrite execs_app in Hin. apply in_app_or in Hin as [Hin|Hin]; auto.
Qed.

Lemma beside_runtime_bind {A B} (m : M A) (k : A -> M B) :
  beside_runtime m -> (forall a, beside_runtime (k a)) -> beside_runtime (bind m k).
Proof.
  intros Hm Hk w st. unfold bind.
  destruct (Hm w st) as (r & ev & -> & Hne & Hev).
  destruct r as [a|e|code].
  - destruct (Hk a w (after st ev)) as (r' & ev' & -> & Hne' & Hev').
    exists r', (ev ++ ev')%list. rewrite after_after.
    split; [reflexivity|]. split; [exact Hne'|]. now apply runtime_untouched_app.
  - exists (Throw e), ev. split; [reflexivity|]. split; [discriminate | exact Hev].
  - elim (Hne code eq_refl).
Qed.

Lemma beside_runtime_try_catch {A} (body : M A) (handler : string -> M A) :
  beside_runtime body -> (forall e, beside_runtime (handler e)) ->
  beside_runtime (try_catch body handler).
Proof.
  intros Hb Hh w st. unfold try_catch.
  destruct (Hb w st) as (r & ev & -> & Hne & Hev).
  destruct r as [a|e|code].
  - exists (Val a), ev. split; [reflexivity|]. split; [discriminate | exact Hev].
  - destruct (Hh e w (after st ev)) as (r' & ev' & -> & Hne' & Hev').
    exists r', (ev ++ ev')%list. rewrite after_after.
    split; [reflexivity|]. split; [exact Hne'|]. now apply runtime_untouched_app.
  - elim (Hne code eq_refl).
Qed.

Lemma beside_runtime_prompt_confirm (message : string) :
  beside_runtime (prompt_confirm message).
Proof.
  intros w st. unfold prompt_confirm, bind, emit, ask_now. cbn [trace draws].
  eexists; exists [EvPrompt message].
  split; [reflexivity|]. split; [discriminate|]. split; [reflexivity | intros cmd []].
Qed.

(** Decomposes a goal [beside_runtime m] along the structure of [m]. *)
Ltac beside_runtime :=
  repeat first
    [ progress intros
    | apply beside_runtime_ret
    | apply beside_runtime_throw
    | apply beside_runtime_ask
    | apply beside_runtime_ask_now
    | apply beside_runtime_lift_sum
    | apply beside_runtime_console_log
    | apply beside_runtime_console_error
    | apply beside_runtime_prompt_confirm
    | apply beside_runtime_execSync; reflexivity
    | apply beside_runtime_bind
    | apply beside_runtime_try_catch
    | match goal with
      | |- beside_runtime (if ?c then _ else _) => destruct c
      | |- beside_runtime (let x := ?v in _) => cbv zeta
      end ].

Lemma returns_showManualInstructions (platform : string) :
  returns (showManualInstructions platform).
Proof. unfold showManualInstructions, console_log. effects. Qed.

Lemma returns_installDocker : returns installDocker.
Proof.
  pose proof returns_showManualInstructions.
  unfold installDocker, installDockerLinux, detectLinuxDistro, readFileSync,
    prompt_confirm, console_log, console_error.
  effects.
Qed.

Lemma beside_runtime_installDocker : beside_runtime installDocker.
Proof.
  unfold installDocker, installDockerLinux, detectLinuxDistro, readFileSync,
    showManualInstructions.
  beside_runtime.
Qed.

(** The installer always comes back, and all it does is beside the
    runtime. *)
Lemma installDocker_run (w : World) (st : St) :
  exists events,
    installDocker w st = (Val tt, after st events) /\ runtime_untouched events.
Proof.
  destruct (beside_runtime_installDocker w st) as (r & events & Hrun & _ & Hev).
  destruct (returns_installDocker w st) as ([] & st' & Hval).
  exists events. split; [|exact Hev].
  rewrite Hrun in Hval. injection Hval as -> _. exact Hrun.
Qed.

(** X18.  With a version probe that fails whenever it is run (so also
    after the installer has run), [start] ends with exit code 1 whatever the
    operator answers: nothing is spawned, and the only command of the
    runtime that is ever executed is the version probe.  When the operator
    declines, the probe is all that is executed; when the operator agrees,
    the installer runs, with the commands of its own (none of which is a
    command of the runtime), and the probe is repeated once after it. *)
Theorem start_without_docker (w : World) (config : Config) (st : St) :
  JS.truthy (key config) = true ->
  hostname config = Some (os_hostname w) ->
  always_fails w "docker --version" ->
  exists events,
    start config w st = (Exit 1, after st events) /\
    spawns events = [] /\
    (forall cmd, In cmd (execs events) -> JS.startsWith cmd "docker " = true ->
                 cmd = "docker --version") /\
    (confirm_answer w (trace st ++ asked_to_install)%list = false ->
     execs events = ["docker --version"]) /\
    (confirm_answer w (trace st ++ asked_to_install)%list = true ->
     exists installer,
       installDocker w (after st asked_to_install)
         = (Val tt, after (after st asked_to_install) installer) /\
       runtime_untouched installer /\
       execs events = ("docker --version" :: execs installer ++ ["docker --version"])%list).
Proof.
  intros Hkey Hhost Hdocker.
  start_prefix Hkey Hhost.
  destruct (Hdocker (trace st)) as (e & ->). unfold ret at 1. cbn [negb trace draws].
  unfold bind at 1. unfold when at 1.
  unfold bind at 1. unfold console_error at 1, emit at 1. cbn [trace draws].
  unfold bind at 1. unfold prompt_confirm at 1, bind at 1, emit at 1, ask_now at 1.
  cbn [trace draws]. rewrite <- !app_assoc. cbn [app]. fold asked_to_install.
  change {| trace := (trace st ++ asked_to_install)%list; draws := draws st |}
    with (after st asked_to_install).
  destruct (confirm_answer w (trace st ++ asked_to_install)%list) eqn:E.
  - destruct (installDocker_run w (after st asked_to_install))
      as (installer & Hrun & Hquiet).
    unfold bind at 1. rewrite Hrun.
    unfold bind at 1. unfold checkDocker at 1, try_catch at 1, bind at 1, execSync at 1.
    destruct (Hdocker (trace (after (after st asked_to_install) installer))) as (e' & ->).
    unfold ret at 1. cbn [negb]. unfold when at 1.
    unfold bind, console_error, emit, process_exit. cbn [trace draws].
    rewrite <- !app_assoc. cbn [app].
    set (tail := [EvExec "docker --version";
                  EvError "Docker installation may have failed or requires a restart.";
                  EvError "Please try running the command again after restarting your terminal."]).
    exists (asked_to_install ++ installer ++ tail)%list.
    destruct Hquiet as [Hsp Hex].
    assert (Hexecs : execs (asked_to_install ++ installer ++ tail)
                     = ("docker --version" :: execs installer ++ ["docker --version"])%list).
    { rewrite !execs_app. reflexivity. }
    split; [unfold after; cbn [trace draws]; now rewrite <- !app_assoc|]. split.
    { rewrite !spawns_app, Hsp. reflexivity. }
    split.
    { intros cmd Hin Hd. rewrite Hexecs in Hin. destruct Hin as [<-|Hin]; [reflexivity|].
      apply in_app_or in Hin as [Hin|[<-|[]]]; [|reflexivity].
      rewrite (Hex cmd Hin) in Hd. discriminate. }
    split; [discriminate|].
    intros _. exists installer. split; [reflexivity|]. split; [now split | exact Hexecs].
  - unfold bind, console_error, emit, process_exit, after, asked_to_install.
    cbn [trace draws]. rewrite <- ?app_assoc; cbn [app].
    eexists. split; [reflexivity|]. split; [reflexivity|]. split.
    + intros cmd H _. cbn [execs In] in H. intuition.
    + split; [reflexivity | discriminate].
Qed.

Lemma start_without_docker_witness :
  exists events,
    start sampleConfig bareWorld st0 = (Exit 1, after st0 events) /\
    spawns events = [] /\
    execs events = ["docker --version"].
Proof.
  destruct (start_without_docker bareWorld sampleConfig st0)
    as (events & Hrun & Hsp & _ & Hdeclined & _).
  - reflexivity.
  - reflexivity.
  - intros tr. exists "Command failed". reflexivity.
  - exists events. split; [exact Hrun|]. split; [exact Hsp|]. apply Hdeclined. reflexivity.
Defined.

(** On an Ubuntu host whose operator agrees to both questions the
    installer gets as far as its first command. *)
Example start_installer_commands :
  exists events,
    start sampleConfig agreeingWorld st0 = (Exit 1, after st0 events) /\
    execs events = ["docker --version"; "sudo apt-get update"; "docker --version"] /\
    prompts events = [EvPrompt "Would you like to install Docker now?";
                      EvPrompt "Would you like to install Docker automatically?"].
Proof. eexists. split; [vm_compute; reflexivity|]. split; reflexivity. Qed.

(** ** Container stats and the measured quality of service *)

Lemma getContainerStats_shape (w : World) (st st' : St) (cs : ContainerStats) :
  getContainerStats w st = (Val (Some cs), st') ->
  (availability cs, reliability cs, efficiency cs) = indicators_of cs /\
  proxyConnectionState cs =
    (if isEarningPoints cs then "CONNECTED" else "UNAVAILABLE").
Proof.
  intros H. unfold getContainerStats in H.
  unfold try_catch at 1 in H. unfold bind at 1 in H.
  destruct (findRunning _ w st) as [[[name|]|e|c] st1];
    [| discriminate H | discriminate H | discriminate H].
  unfold random_if, console_log in H.
  unfold bind, try_catch, execSync, ask, ask_now, Math_random, ret, throw, emit in H.
  cbn [fst snd trace draws] in H.
  repeat (match type of H with
          | context [match ?x with _ => _ end] =>
              lazymatch x with
              | context [match _ with _ => _ end] => fail
              | PrimFloat.ltb _ _ => fail
              | _ => destruct x eqn:?
              end
          end; cbn [fst snd trace draws] in H; try discriminate H);
  injection H as <- <-; split; reflexivity.
Qed.

(** X19.  [getContainerStats] never fails, and the indicators of the
    stats it returns are fixed by the earning flag: earning gives
    availability 0, reliability and efficiency 0 or 1 (uptime over 24
    hours, traffic over 100 MiB) and the state [CONNECTED]; not earning
    gives 2, 2, 2 and [UNAVAILABLE].  As the performance view reads an
    indicator 0 as 2, the availability it shows for such stats is always 20
    and its QoS score is 15, 20 or 30. *)
Theorem getContainerStats_measured_qos (w : World) (st : St) :
  exists r st',
    getContainerStats w st = (Val r, st') /\
    forall cs, r = Some cs ->
      (availability cs, reliability cs, efficiency cs) = indicators_of cs /\
      proxyConnectionState cs =
        (if isEarningPoints cs then "CONNECTED" else "UNAVAILABLE") /\
      qos_availability (snd (realPerformance cs)) = 20%float /\
      (score (snd (realPerformance cs)) = 15%float \/
       score (snd (realPerformance cs)) = 20%float \/
       score (snd (realPerformance cs)) = 30%float).
Proof.
  destruct (returns_getContainerStats w st) as (r & st' & Hr).
  exists r, st'. split; [exact Hr|].
  intros cs ->. destruct (getContainerStats_shape _ _ _ _ Hr) as [Hind Hstate].
  split; [exact Hind|]. split; [exact Hstate|].
  rewrite realPerformance_score.
  unfold realPerformance. cbn [snd qos_availability].
  unfold indicators_of in Hind.
  destruct (isEarningPoints cs).
  - destruct (PrimFloat.ltb 24 _), (PrimFloat.ltb _ (syncLifeTraffic cs));
      injection Hind as -> -> ->; (split; [reflexivity|]);
      vm_compute; auto.
  - injection Hind as -> -> ->. split; [reflexivity|]. vm_compute; auto.
Qed.

(** ** Outcomes of the dashboard authentication *)

Lemma authenticateRequest_outcomes (config : Config) (req : Request) :
  JS.truthy (dashboardPassword config) = true ->
  (authenticateRequest config req = challenge "Authentication required" \/
   authenticateRequest config req = challenge "Invalid credentials" \/
   authenticateRequest config req = Next (marked req)) /\
  ((forall auth, authorization req = Some auth -> JS.startsWith auth "Basic " = false) ->
   authenticateRequest config req = challenge "Authentication required") /\
  (forall req', authenticateRequest config req = Next req' ->
     authenticated req' = true /\
     exists token,
       authorization req = Some ("Basic " ++ token) /\
       nth_error (JS.split ":" (Base64.decode token)) 1 = dashboardPassword config).
Proof.
  intros Hpw. unfold authenticateRequest. rewrite Hpw. cbn [negb].
  destruct (authorization req) as [auth|] eqn:Hauth.
  - destruct (JS.truthy (Some auth)) eqn:Ht; cbn [negb orb].
    + destruct (JS.startsWith auth "Basic ") eqn:Hs; cbn [negb].
      * destruct (JS.strict_eq _ (dashboardPassword config)) eqn:Heq.
        -- split; [right; right; unfold marked; now rewrite Hauth|].
           split; [intros H; specialize (H auth eq_refl); congruence|].
           intros req' H. injection H as <-. split; [reflexivity|].
           exists (JS.slice 6 auth). split.
           ++ f_equal. clear - Hs.
              do 6 (destruct auth as [|? auth]; [discriminate Hs|];
                    cbn [JS.startsWith] in Hs;
                    apply andb_true_iff in Hs as [Hc Hs];
                    apply Ascii.eqb_eq in Hc; subst).
              reflexivity.
           ++ destruct (nth_error _ 1) as [p|], (dashboardPassword config) as [q|];
                cbn [JS.strict_eq] in Heq; try discriminate.
              apply String.eqb_eq in Heq. now subst.
        -- split; [right; left; reflexivity|].
           split; [intros H; specialize (H auth eq_refl); congruence|].
           intros req' H. discriminate H.
      * split; [left; reflexivity|]. split; [reflexivity|]. intros req' H. discriminate H.
    + split; [left; reflexivity|]. split; [reflexivity|]. intros req' H. discriminate H.
  - split; [left; reflexivity|]. split; [reflexivity|]. intros req' H. discriminate H.
Qed.

(** X20.  The middleware loads the config file itself, and nothing guards
    that: when the load throws, the middleware throws the same error, and
    when the file holds [null] it throws a [TypeError]; it never ends the
    process.  Otherwise it answers, without any effect, what the decision
    gives for the loaded config, and with a dashboard password set this has
    three outcomes: the challenge [Authentication required], the challenge
    [Invalid credentials], or the request passed on with [authenticated]
    set.  A request without [Authorization] header, or with one that does
    not start with [Basic ], gets the first; a request is passed on only if
    its header is [Basic ] followed by a token whose decoded text, cut at
    the colons, has the configured password as its second piece. *)
Theorem authenticateRequest_protected (w : World) (req : Request) (st : St) :
  match fst (loadConfig w st) with
  | Val (Some config) =>
      authenticateRequest_served req w st = (Val (authenticateRequest config req), st) /\
      (JS.truthy (dashboardPassword config) = true ->
       (authenticateRequest config req = challenge "Authentication required" \/
        authenticateRequest config req = challenge "Invalid credentials" \/
        authenticateRequest config req = Next (marked req)) /\
       ((forall auth, authorization req = Some auth ->
                      JS.startsWith auth "Basic " = false) ->
        authenticateRequest config req = challenge "Authentication required") /\
       (forall req', authenticateRequest config req = Next req' ->
          authenticated req' = true /\
          exists token,
            authorization req = Some ("Basic " ++ token) /\
            nth_error (JS.split ":" (Base64.decode token)) 1
            = dashboardPassword config))
  | Val None =>
      authenticateRequest_served req w st
      = (Throw "Cannot read properties of null (reading 'dashboardPassword')", st)
  | Throw message => authenticateRequest_served req w st = (Throw message, st)
  | Exit code => False
  end.
Proof.
  destruct (loadConfig_run w st) as [Hst Hexit].
  unfold authenticateRequest_served, bind.
  destruct (loadConfig w st) as [r s] eqn:E. cbn [fst snd] in *. subst s.
  destruct r as [[config|]|message|code].
  - split; [reflexivity|]. apply authenticateRequest_outcomes.
  - reflexivity.
  - reflexivity.
  - exact (Hexit code eq_refl).
Qed.

Lemma authenticateRequest_protected_witness :
  authenticateRequest_served
    {| authorization := Some "Bearer abc"; authenticated := false |}
    (withConfigFile bareWorld (inl (Some (dashboardConfig (Some "hunter2"))))) st0
  = (Val (challenge "Authentication required"), st0).
Proof.
  pose proof (authenticateRequest_protected
                (withConfigFile bareWorld (inl (Some (dashboardConfig (Some "hunter2")))))
                {| authorization := Some "Bearer abc"; authenticated := false |} st0)
    as H.
  change (fst (loadConfig _ st0))
    with (@Val (option Config) (Some (dashboardConfig (Some "hunter2")))) in H.
  cbv beta iota in H.
  destruct H as [Hrun Hpw]. rewrite Hrun.
  apply (f_equal (fun handled : Handled => (Val handled, st0))).
  refine (proj1 (proj2 (Hpw _)) _).
  - reflexivity.
  - intros auth H. injection H as <-. reflexivity.
Defined.

Example authenticateRequest_unreadable_config :
  authenticateRequest_served
    {| authorization := None; authenticated := false |}
    (withConfigFile bareWorld (inr "Unexpected end of JSON input")) st0
  = (Throw "Unexpected end of JSON input", st0).
Proof. reflexivity. Qed.

(** X21.  The user name plays no role: two requests whose credentials
    differ only in the (colon-free) user name are both let through or both
    refused. *)
Theorem authenticateRequest_ignores_user (config : Config)
  (token1 token2 user1 user2 rest : string) :
  Base64.decode token1 = user1 ++ ":" ++ rest ->
  Base64.decode token2 = user2 ++ ":" ++ rest ->
  has_colon user1 = false ->
  has_colon user2 = false ->
  granted (authenticateRequest config (basicAuth token1)) =
  granted (authenticateRequest config (basicAuth token2)).
Proof.
  intros H1 H2 Hu1 Hu2.
  unfold authenticateRequest, basicAuth. cbn [authorization].
  destruct (JS.truthy (dashboardPassword config)); cbn [negb]; [|reflexivity].
  cbn [append JS.truthy JS.startsWith JS.slice Ascii.eqb Bool.eqb andb negb orb].
  rewrite H1, H2.
  change (user1 ++ ":" ++ rest) with (user1 ++ String ":" rest).
  change (user2 ++ ":" ++ rest) with (user2 ++ String ":" rest).
  rewrite (split_first_colon _ _ Hu1), (split_first_colon _ _ Hu2).
  cbn [nth_error].
  destruct (JS.strict_eq _ _); reflexivity.
Qed.

Lemma authenticateRequest_ignores_user_witness :
  granted (authenticateRequest (dashboardConfig (Some "hunter2"))
             (basicAuth "YWRtaW46aHVudGVyMg==")) =
  granted (authenticateRequest (dashboardConfig (Some "hunter2"))
             (basicAuth "bm9ib2R5Omh1bnRlcjI=")).
Proof.
  apply (authenticateRequest_ignores_user (dashboardConfig (Some "hunter2"))
           "YWRtaW46aHVudGVyMg==" "bm9ib2R5Omh1bnRlcjI=" "admin" "nobody" "hunter2");
    reflexivity.
Defined.

Lemma authenticateRequest_plain_password_witness :
  authenticateRequest (dashboardConfig (Some "hunter2")) (basicAuth "YWRtaW46aHVudGVyMg==") =
    Next {| authorization := Some ("Basic " ++ "YWRtaW46aHVudGVyMg=="); authenticated := true |}.
Proof.
  apply (proj1 (authenticateRequest_plain_password (dashboardConfig (Some "hunter2"))
                  "YWRtaW46aHVudGVyMg==" "admin" "hunter2" "hunter2"
                  eq_refl eq_refl eq_refl eq_refl eq_refl)).
  reflexivity.
Defined.

(** ** Metrics and the update check on request *)

Lemma substring_prefix (n : nat) (s : string) :
  (String.length (String.substring 0 n s) <= n)%nat /\
  JS.startsWith s (String.substring 0 n s) = true.
Proof.
  revert s. induction n as [|n IH]; intros s.
  - destruct s; cbn; split; (lia || reflexivity).
  - destruct s as [|c s]; cbn [String.substring String.length JS.startsWith].
    + split; [lia | reflexivity].
    + destruct (IH s) as [Hl Hp]. rewrite Ascii.eqb_refl, Hp. split; [lia | reflexivity].
Qed.

Lemma length_append (a b : string) :
  String.length (a ++ b) = (String.length a + String.length b)%nat.
Proof. induction a as [|c a IH]; cbn; [reflexivity | now rewrite IH]. Qed.

(** X22.  The metrics object, and the health endpoint computed in the
    same state on a host whose config file holds the config the metrics are
    computed from: the health endpoint returns as well, in the same final
    state; whenever it says [healthy] so do the metrics, and the two
    verdicts agree exactly when a key is configured or the metrics say
    [unhealthy] (the metrics' verdict does not look at the key).  The
    metrics show no wallet when none is configured, and otherwise a prefix
    of at most ten characters of it followed by three dots. *)
Theorem generateMetrics_health_and_wallet (w : World) (sys : SystemInfo)
  (config : Config) (st : St) :
  exists metrics st',
    generateMetrics sys config w st = (Val metrics, st') /\
    (fst (loadConfig w st) = Val (Some config) ->
     exists health,
       getHealthStatus w st = (Val health, st') /\
       (health_status health = "healthy" -> overall metrics = "healthy") /\
       (overall metrics = health_status health <->
        JS.truthy (key config) = true \/ overall metrics = "unhealthy")) /\
    (JS.truthy (wallet config) = false -> m_wallet metrics = None) /\
    (forall shown, m_wallet metrics = Some shown ->
       (String.length shown <= 13)%nat /\
       exists prefix,
         shown = prefix ++ "..." /\
         JS.startsWith (JS.to_str (wallet config)) prefix = true).
Proof.
  destruct (returns_getSystemStatus config w st) as (status & st1 & Hs).
  unfold generateMetrics.
  unfold bind at 1. rewrite Hs.
  eexists; eexists. split; [reflexivity|].
  cbn [overall m_wallet].
  split; [|split].
  - intros Hload.
    destruct (loadConfig_run w st) as [Hst _].
    destruct (loadConfig w st) as [r s] eqn:E. cbn [fst snd] in *. subst r s.
    unfold getHealthStatus. unfold bind at 1. rewrite E.
    unfold bind at 1. rewrite Hs.
    destruct (ServiceState_eqb (serviceStatus status) running),
             (dockerAvailable status), (JS.truthy (key config)) eqn:Ek;
      cbn [andb]; unfold bind, property, ret, ask_now; rewrite ?Ek;
      (eexists; split; [reflexivity|]); cbn [health_status];
      (split; [intros H; try discriminate H; reflexivity|]);
      (split; [intros H; try discriminate H; auto
              | intros [H|H]; try discriminate H; reflexivity]).
  - intros ->. reflexivity.
  - intros shown H. destruct (JS.truthy (wallet config)); [|discriminate H].
    injection H as <-.
    destruct (substring_prefix 10 (JS.to_str (wallet config))) as [Hl Hp].
    split.
    + rewrite length_append. cbn [String.length]. lia.
    + eexists. split; [reflexivity | exact Hp].
Qed.

(** X23.  The update-check route always answers with success: it runs
    exactly the two local [docker images] commands, reports both images as
    checked and without error, each needing an update exactly when its
    listing fails or is blank, and the total is the number of images
    needing an update. *)
Theorem api_check_updates_local (w : World) (st : St) :
  exists answer b1 b2,
    api_check_updates w st =
      (Val answer,
       after st [EvExec (images_command "cdrakep/synqchronizer:latest");
                 EvExec (images_command "cdrakep/synqchronizer-test-fixed:latest")]) /\
    ua_success answer = true /\ ua_error answer = None /\
    ua_images answer =
      Some [checkedEntry "cdrakep/synqchronizer:latest" b1;
            checkedEntry "cdrakep/synqchronizer-test-fixed:latest" b2] /\
    ua_totalUpdates answer =
      Some (count_updates [checkedEntry "cdrakep/synqchronizer:latest" b1;
                           checkedEntry "cdrakep/synqchronizer-test-fixed:latest" b2]) /\
    b1 = needsPull (exec_result w (trace st)
                      (images_command "cdrakep/synqchronizer:latest")) /\
    b2 = needsPull (exec_result w
                      (trace st ++ [EvExec (images_command "cdrakep/synqchronizer:latest")])%list
                      (images_command "cdrakep/synqchronizer-test-fixed:latest")).
Proof.
  unfold api_check_updates, check_updates.
  unfold try_catch at 1. unfold bind at 1. unfold bind at 1.
  unfold try_catch at 1. unfold bind at 1.
  rewrite isNewDockerImageAvailable_run. unfold ret at 1. cbn [fst snd].
  unfold bind at 1. unfold try_catch at 1. unfold bind at 1.
  rewrite isNewDockerImageAvailable_run. unfold ret at 1. cbn [fst snd trace draws].
  unfold ret at 1. unfold bind, ask_now, ret. cbn [fst snd trace draws app].
  eexists; eexists; eexists. split.
  - unfold after. rewrite <- !app_assoc. cbn [app]. reflexivity.
  - cbn [ua_success ua_error ua_images ua_totalUpdates].
    split; [reflexivity|]. split; [reflexivity|]. split; [reflexivity|].
    split; [|split; reflexivity].
    unfold count_updates, checkedEntry.
    destruct (needsPull _), (needsPull _); reflexivity.
Qed.

(** X24.  [getPerformanceData] never fails.  For a service that is not
    running it does nothing after the status probes: all traffic counters
    are 0 and the QoS is the fixed one of a stopped service; so on a host
    where [systemctl] fails the counters are 0 and the score is 25 or 0,
    and every QoS figure is 0 when the runtime is missing as well. *)
Theorem getPerformanceData_never_fails (w : World) (config : Config) (st : St) :
  exists status st1 view st',
    getSystemStatus config w st = (Val status, st1) /\
    getPerformanceData config w st = (Val view, st') /\
    (serviceStatus status <> running ->
     st' = st1 /\ performance view = noTraffic /\
     qos view = stoppedQoS (dockerAvailable status)) /\
    (always_fails w systemctl_command ->
     performance view = noTraffic /\
     (score (qos view) = 25%float \/ score (qos view) = 0%float)) /\
    (always_fails w "docker --version" -> always_fails w systemctl_command ->
     qos view = stoppedQoS false).
Proof.
  destruct (getSystemStatus_fields w config st) as (status & st1 & Hs & Hd & Hv).
  assert (Hdec : serviceStatus status = running \/ serviceStatus status <> running)
    by (destruct (serviceStatus status); (now left) || (right; discriminate)).
  destruct Hdec as [Hrun|Hstop].
  - destruct (returns_getPerformanceData config w st) as (view & st' & Hp).
    exists status, st1, view, st'. split; [exact Hs|]. split; [exact Hp|].
    split; [intros H; now elim H|].
    split; intros H; [|intros H']; try specialize (Hv H); try specialize (Hv H'); congruence.
  - exists status, st1. eexists; eexists. split; [exact Hs|].
    split; [exact (getPerformanceData_stopped _ _ _ _ _ Hs Hstop)|].
    cbn [performance qos].
    split; [intros _; repeat split|]. split.
    + intros _. split; [reflexivity|]. destruct (dockerAvailable status); cbn; auto.
    + intros H _. now rewrite (Hd H).
Qed.

(** ** A password with a colon *)

Lemma split_pieces_no_colon (s : string) :
  Forall (fun piece => has_colon piece = false) (JS.split ":" s).
Proof.
  induction s as [|c s IH]; cbn [JS.split].
  - repeat constructor.
  - destruct (Ascii.eqb c ":") eqn:Ec.
    + constructor; [reflexivity | exact IH].
    + destruct (JS.split ":" s) as [|piece rest].
      * repeat constructor. cbn [has_colon]. now rewrite Ec.
      * inversion IH as [|? ? Hp Hr]; subst. constructor; [|exact Hr].
        cbn [has_colon]. now rewrite Ec, Hp.
Qed.

(** X26.  A password that holds a colon passes the check of
    [set-password] (four characters are all it asks for) and then locks the
    dashboard for everybody: whatever the request carries, the middleware
    never lets it through, since the piece of the credentials it compares
    holds no colon. *)
Theorem colon_password_locks_out (config : Config) (pw : string) (req : Request) :
  dashboardPassword config = Some pw ->
  has_colon pw = true ->
  (4 <= String.length pw)%nat ->
  setDashboardPassword_validate pw = Accepted /\
  granted (authenticateRequest config req) = false.
Proof.
  intros Hpw Hcolon Hlen. split.
  - unfold setDashboardPassword_validate.
    destruct pw as [|c pw]; [discriminate Hcolon|]. cbn [JS.truthy andb].
    now rewrite (proj2 (Nat.leb_le _ _) Hlen).
  - unfold authenticateRequest. rewrite Hpw.
    destruct pw as [|c pw]; [discriminate Hcolon|]. cbn [JS.truthy negb].
    destruct (authorization req) as [auth|]; [|reflexivity].
    destruct (_ || negb (JS.startsWith auth "Basic ")); [reflexivity|].
    pose proof (split_pieces_no_colon (Base64.decode (JS.slice 6 auth))) as Hall.
    destruct (nth_error _ 1) as [piece|] eqn:Hp; [|reflexivity].
    cbn [JS.strict_eq].
    destruct (String.eqb_spec piece (String c pw)) as [->|Hne]; [|reflexivity].
    apply nth_error_In in Hp. rewrite Forall_forall in Hall.
    rewrite (Hall _ Hp) in Hcolon. discriminate.
Qed.

Lemma colon_password_locks_out_witness :
  setDashboardPassword_validate "ab:cd" = Accepted /\
  granted (authenticateRequest (dashboardConfig (Some "ab:cd"))
             (basicAuth "dXNlcjphYjpjZA==")) = false.
Proof.
  apply (colon_password_locks_out (dashboardConfig (Some "ab:cd")) "ab:cd"
           (basicAuth "dXNlcjphYjpjZA==")).
  - reflexivity.
  - reflexivity.
  - cbn. lia.
Defined.

(** ** Update check from the command line *)

Lemma checkImageUpdates_image_run (w : World) (name description : string)
  (n : Z) (st : St) :
  exists events n',
    checkImageUpdates_image name description n w st = (Val n', after st events) /\
    spawns events = [] /\
    incl (execs events) [images_command name; "docker pull " ++ name] /\
    (In ("docker pull " ++ name) (execs events) ->
     In (EvPrompt (pull_question name)) events) /\
    ((forall tr, confirm_answer w tr = false) ->
     execs events = [images_command name]) /\
    ((forall tr, needsPull (exec_result w tr (images_command name)) = false) ->
     execs events = [images_command name] /\ prompts events = [] /\ n' = n).
Proof.
  unfold checkImageUpdates_image.
  unfold bind at 1. unfold console_log at 1, emit at 1.
  unfold bind at 1. unfold console_log at 1, emit at 1.
  unfold try_catch at 1. unfold bind at 1.
  rewrite isNewDockerImageAvailable_run. cbn [trace draws].
  destruct (needsPull _) eqn:Estale.
  - unfold bind at 1. unfold bind at 1. unfold console_log at 1, emit at 1.
    unfold bind at 1. unfold prompt_confirm at 1, bind at 1, emit at 1, ask_now at 1.
    cbn [trace draws]. fold (pull_question name).
    destruct (confirm_answer w _) eqn:Eanswer; unfold when at 1.
    + unfold bind at 1. unfold try_catch at 1. unfold bind at 1.
      unfold console_log at 1, emit at 1. unfold bind at 1. unfold execSync at 1.
      cbn [trace draws].
      destruct (exec_result w _ ("docker pull " ++ name)) as [out|e];
        unfold bind, console_log, emit, ret, after; cbn [trace draws];
        rewrite <- ?app_assoc; cbn [app];
        (eexists; eexists; split; [reflexivity|]);
        (split; [reflexivity|]);
        (split; [intros x Hx; cbn [execs In] in Hx |- *; tauto|]);
        (split; [intros _; cbn [In]; auto 10|]);
        (split; [intros Hno; rewrite Hno in Eanswer; discriminate|]);
        intros Hfresh; rewrite Hfresh in Estale; discriminate.
    + unfold bind, console_log, emit, ret, after; cbn [trace draws].
      rewrite <- ?app_assoc; cbn [app].
      eexists; eexists; split; [reflexivity|].
      split; [reflexivity|].
      split; [intros x Hx; cbn [execs In] in Hx |- *; tauto|].
      split; [intros _; cbn [In]; auto 10|].
      split; [intros _; reflexivity|].
      intros Hfresh; rewrite Hfresh in Estale; discriminate.
  - unfold bind, console_log, emit, ret, after; cbn [trace draws].
    rewrite <- ?app_assoc; cbn [app].
    eexists; eexists; split; [reflexivity|].
    split; [reflexivity|].
    split; [intros x Hx; cbn [execs In] in Hx |- *; tauto|].
    split.
    { cbn [execs In]. intros [H|[]].
      exfalso. revert H. unfold images_command. cbn [append]. discriminate. }
    split; [intros _; reflexivity|].
    intros _. repeat split.
Qed.

Lemma prompts_app (a b : list Event) : prompts (a ++ b) = (prompts a ++ prompts b)%list.
Proof. apply filter_app. Qed.

(** X27.  [checkImageUpdates] never fails and spawns nothing; the
    only commands it runs are the local listing and the pull of the two
    known images; an image is pulled only if the operator was asked about
    that image; when the operator declines every question, or when
    both listings show an image, nothing is pulled, and in the second case
    no question is asked and the summary says that all images are up to
    date. *)
Theorem checkImageUpdates_pulls_on_consent (w : World) (st : St) :
  exists events,
    checkImageUpdates w st = (Val tt, after st events) /\
    spawns events = [] /\
    incl (execs events)
      [images_command mainImage; "docker pull " ++ mainImage;
       images_command nightlyImage; "docker pull " ++ nightlyImage] /\
    (forall image, In image [mainImage; nightlyImage] ->
       In ("docker pull " ++ image) (execs events) ->
       In (EvPrompt (pull_question image)) events) /\
    ((forall tr, confirm_answer w tr = false) ->
     execs events = [images_command mainImage; images_command nightlyImage]) /\
    ((forall tr image, needsPull (exec_result w tr (images_command image)) = false) ->
     execs events = [images_command mainImage; images_command nightlyImage] /\
     prompts events = [] /\
     In (EvLog "All images are up to date") events).
Proof.
  unfold checkImageUpdates.
  unfold bind at 1. unfold console_log at 1, emit at 1.
  unfold bind at 1. unfold console_log at 1, emit at 1.
  cbn [trace draws]. rewrite <- app_assoc. cbn [app].
  set (intro := [EvLog "Checking for Docker Image Updates";
                 EvLog ("Checking all synchronizer Docker images..." ++ nl)]).
  change {| trace := (trace st ++ intro)%list; draws := draws st |} with (after st intro).
  unfold bind at 1. cbn [checkImageUpdates_loop]. fold mainImage nightlyImage.
  destruct (checkImageUpdates_image_run w mainImage "Main synchronizer image" 0
              (after st intro))
    as (ev1 & n1 & Hrun1 & Hsp1 & Hin1 & Hask1 & Hno1 & Hfresh1).
  unfold bind at 1. rewrite Hrun1.
  destruct (checkImageUpdates_image_run w nightlyImage "Fixed nightly test image" n1
              (after (after st intro) ev1))
    as (ev2 & n2 & Hrun2 & Hsp2 & Hin2 & Hask2 & Hno2 & Hfresh2).
  unfold bind at 1. rewrite Hrun2. unfold ret at 1.
  rewrite !after_after.
  set (summary := if (n2 =? 0)%Z then "All images are up to date"
                  else show_Z n2 ++ " image(s) had updates available").
  exists (((intro ++ ev1) ++ ev2) ++
          [EvLog "Update Check Summary:"; EvLog summary;
           EvLog (nl ++ "Tip: Use `synchronize monitor` to automatically check for updates")])%list.
  assert (Hexecs : execs ((((intro ++ ev1) ++ ev2) ++
          [EvLog "Update Check Summary:"; EvLog summary;
           EvLog (nl ++ "Tip: Use `synchronize monitor` to automatically check for updates")])%list)
          = (execs ev1 ++ execs ev2)%list).
  { rewrite !execs_app. cbn [execs intro]. now rewrite app_nil_r. }
  split.
  { unfold bind at 1. unfold console_log at 1, emit at 1.
    unfold bind at 1.
    replace (if (n2 =? 0)%Z then console_log "All images are up to date"
             else console_log (show_Z n2 ++ " image(s) had updates available"))
      with (console_log summary) by (unfold summary; destruct (n2 =? 0)%Z; reflexivity).
    unfold bind, console_log, emit, ret, after. cbn [trace draws].
    rewrite <- !app_assoc. reflexivity. }
  split.
  { rewrite !spawns_app, Hsp1, Hsp2. reflexivity. }
  split.
  { rewrite Hexecs. intros x Hx. apply in_app_or in Hx as [Hx|Hx].
    - apply Hin1 in Hx. cbn [In] in *. tauto.
    - apply Hin2 in Hx. cbn [In] in *. tauto. }
  split.
  { intros image Himage Hpull. rewrite Hexecs in Hpull.
    apply in_app_or in Hpull as [Hpull|Hpull].
    - assert (image = mainImage) as ->.
      { apply Hin1 in Hpull. destruct Himage as [<-|[<-|[]]]; [reflexivity|].
        exfalso. vm_compute in Hpull.
        repeat (destruct Hpull as [Hpull|Hpull]; [discriminate|]). contradiction. }
      apply in_or_app; left. apply in_or_app; left. apply in_or_app; right.
      exact (Hask1 Hpull).
    - assert (image = nightlyImage) as ->.
      { apply Hin2 in Hpull. destruct Himage as [<-|[<-|[]]]; [|reflexivity].
        exfalso. vm_compute in Hpull.
        repeat (destruct Hpull as [Hpull|Hpull]; [discriminate|]). contradiction. }
      apply in_or_app; left. apply in_or_app; right.
      exact (Hask2 Hpull). }
  split.
  { intros Hno. now rewrite Hexecs, (Hno1 Hno), (Hno2 Hno). }
  intros Hfresh.
  destruct (Hfresh1 (fun tr => Hfresh tr mainImage)) as (He1 & Hp1 & ->).
  destruct (Hfresh2 (fun tr => Hfresh tr nightlyImage)) as (He2 & Hp2 & ->).
  split; [now rewrite Hexecs, He1, He2|]. split.
  - rewrite !prompts_app, Hp1, Hp2. reflexivity.
  - apply in_or_app; right. unfold summary. cbn. auto.
Qed.

(** ** The address shown for the dashboard *)

Lemma candidatesOf_eligible (interfaces : list (string * list NetAddress))
  (c : Candidate) :
  In c (candidatesOf interfaces) <->
  exists name addr, eligible interfaces name addr /\ c = candidateFor name addr.
Proof.
  unfold candidatesOf. rewrite in_flat_map. split.
  - intros ([name addresses] & Hentry & Hc). cbn [fst snd] in Hc.
    unfold interfaceCandidates in Hc.
    destruct (String.eqb_spec name "lo") as [|Hlo]; [contradiction|].
    destruct (JS.includes name "Loopback") eqn:Hloop; [contradiction|].
    cbn [orb] in Hc. apply in_flat_map in Hc as (addr & Haddr & Hc).
    destruct (String.eqb_spec (na_family addr) "IPv4") as [Hfam|]; [|contradiction].
    destruct (na_internal addr) eqn:Hint; [contradiction|].
    destruct Hc as [<-|[]].
    exists name, addr. split; [|reflexivity].
    exists addresses. repeat split; assumption.
  - intros (name & addr & (addresses & Hentry & Haddr & Hlo & Hloop & Hfam & Hint) & ->).
    exists (name, addresses). split; [exact Hentry|]. cbn [fst snd].
    unfold interfaceCandidates.
    rewrite (proj2 (String.eqb_neq name "lo") Hlo), Hloop. cbn [orb].
    apply in_flat_map. exists addr. split; [exact Haddr|].
    rewrite Hfam, Hint. cbn. now left.
Qed.

Lemma insertCandidate_In (c x : Candidate) (l : list Candidate) :
  In x (insertCandidate c l) <-> x = c \/ In x l.
Proof.
  induction l as [|y l IH]; cbn [insertCandidate].
  - cbn. intuition.
  - destruct (c_priority y <=? c_priority c)%Z; cbn [In]; [intuition|].
    rewrite IH. intuition.
Qed.

Lemma sortCandidates_In (x : Candidate) (l : list Candidate) :
  In x (sortCandidates l) <-> In x l.
Proof.
  induction l as [|c l IH]; [reflexivity|].
  cbn [sortCandidates fold_right]. fold (sortCandidates l).
  rewrite insertCandidate_In, IH. cbn. intuition.
Qed.

(** The head of the sorted list is the first candidate of highest
    priority. *)
Lemma sortCandidates_head (l : list Candidate) (best : Candidate)
  (others : list Candidate) :
  sortCandidates l = best :: others ->
  exists earlier later,
    l = (earlier ++ best :: later)%list /\
    (forall x, In x earlier -> (c_priority x < c_priority best)%Z) /\
    (forall x, In x later -> (c_priority x <= c_priority best)%Z).
Proof.
  revert best others. induction l as [|c l IH]; intros best others H; [discriminate H|].
  cbn [sortCandidates fold_right] in H. fold (sortCandidates l) in H.
  destruct (sortCandidates l) as [|b r] eqn:Hs.
  - assert (l = []) as ->.
    { destruct l as [|y l]; [reflexivity|].
      assert (Hy : In y (sortCandidates (y :: l))) by (apply sortCandidates_In; now left).
      rewrite Hs in Hy. contradiction. }
    cbn in H. injection H as <- <-.
    exists [], []. split; [reflexivity|]. split; intros x [].
  - destruct (IH b r eq_refl) as (earlier & later & Hl & Hlt & Hle).
    cbn [insertCandidate] in H.
    destruct (c_priority b <=? c_priority c)%Z eqn:Hcmp.
    + injection H as <- <-. apply Z.leb_le in Hcmp.
      exists [], l. split; [reflexivity|]. split; [intros x []|].
      intros x Hx. rewrite Hl in Hx. apply in_app_or in Hx as [Hx|[<-|Hx]].
      * specialize (Hlt x Hx). lia.
      * exact Hcmp.
      * specialize (Hle x Hx). lia.
    + injection H as <- <-. apply Z.leb_gt in Hcmp.
      exists (c :: earlier), later. split; [cbn; now rewrite Hl|].
      split; [|exact Hle].
      intros x [<-|Hx]; [exact Hcmp | exact (Hlt x Hx)].
Qed.

(** X28.  [getPrimaryLocalIP] never fails and runs no command.  It
    answers [localhost] when no interface offers an eligible address (IPv4,
    not internal, interface not skipped as loopback); otherwise it answers
    an eligible address whose priority is the highest of all, the first
    such address in the order of the interfaces. *)
Theorem getPrimaryLocalIP_best (w : World)
  (interfaces : list (string * list NetAddress)) (st : St) :
  exists ip events,
    getPrimaryLocalIP interfaces w st = (Val ip, after st events) /\
    execs events = [] /\ spawns events = [] /\
    ((forall name addr, ~ eligible interfaces name addr) -> ip = "localhost") /\
    (forall name addr, eligible interfaces name addr ->
       exists bestName bestAddr,
         eligible interfaces bestName bestAddr /\
         ip = na_address bestAddr /\
         (addressPriority name (na_address addr)
          <= addressPriority bestName (na_address bestAddr))%Z) /\
    (candidatesOf interfaces <> [] ->
     exists earlier best later,
       candidatesOf interfaces = (earlier ++ best :: later)%list /\
       ip = c_ip best /\
       (forall x, In x earlier -> (c_priority x < c_priority best)%Z) /\
       (forall x, In x later -> (c_priority x <= c_priority best)%Z)).
Proof.
  unfold getPrimaryLocalIP.
  destruct (sortCandidates (candidatesOf interfaces)) as [|best others] eqn:Hs.
  - assert (Hnil : candidatesOf interfaces = []).
    { destruct (candidatesOf interfaces) as [|y l]; [reflexivity|].
      assert (Hy : In y (sortCandidates (y :: l))) by (apply sortCandidates_In; now left).
      rewrite Hs in Hy. contradiction. }
    unfold bind, console_log, emit, ret.
    eexists; eexists. split; [reflexivity|].
    split; [reflexivity|]. split; [reflexivity|].
    split; [reflexivity|]. split.
    + intros name addr Hel.
      assert (Hin : In (candidateFor name addr) (candidatesOf interfaces))
        by (apply candidatesOf_eligible; now exists name, addr).
      rewrite Hnil in Hin. contradiction.
    + intros H. now elim H.
  - destruct (sortCandidates_head _ _ _ Hs) as (earlier & later & Hl & Hlt & Hle).
    assert (Hbest : In best (candidatesOf interfaces))
      by (rewrite Hl; apply in_or_app; right; now left).
    apply candidatesOf_eligible in Hbest as (bestName & bestAddr & Hel & ->).
    assert (Hrun : exists events,
      (console_log ("Detected primary IP: " ++ showCandidate (candidateFor bestName bestAddr)) ;;
       when (Nat.ltb 1 (length (candidateFor bestName bestAddr :: others)))
         (console_log ("   Other interfaces: "
                       ++ JS.join ", "
                            (map (fun c => Some (showCandidate c)) (firstn 2 others)))) ;;
       ret (c_ip (candidateFor bestName bestAddr))) w st
      = (Val (na_address bestAddr), after st events) /\
      execs events = [] /\ spawns events = []).
    { unfold bind at 1. unfold console_log at 1, emit at 1.
      destruct (Nat.ltb 1 _); unfold when, bind, console_log, emit, ret, after;
        cbn [trace draws c_ip candidateFor]; rewrite <- ?app_assoc; cbn [app];
        eexists; (split; [reflexivity|]); split; reflexivity. }
    destruct Hrun as (events & Hrun & Hex & Hsp).
    exists (na_address bestAddr), events. split; [exact Hrun|].
    split; [exact Hex|]. split; [exact Hsp|]. split.
    + intros Hnone. elim (Hnone _ _ Hel).
    + split.
      * intros name addr Hel'. exists bestName, bestAddr.
        split; [exact Hel|]. split; [reflexivity|].
        assert (Hin : In (candidateFor name addr) (candidatesOf interfaces))
          by (apply candidatesOf_eligible; now exists name, addr).
        rewrite Hl in Hin. apply in_app_or in Hin as [Hin|[Hin|Hin]].
        -- specialize (Hlt _ Hin). cbn [c_priority candidateFor] in Hlt. lia.
        -- apply (f_equal c_priority) in Hin. cbn [c_priority candidateFor] in Hin. lia.
        -- specialize (Hle _ Hin). cbn [c_priority candidateFor] in Hle. exact Hle.
      * intros _. exists earlier, (candidateFor bestName bestAddr), later.
        split; [exact Hl|]. split; [reflexivity|]. split; assumption.
Qed.

Lemma addressPriority_parts (name ip : string) :
  addressPriority name ip =
    (patternScore name interfacePriority
     + (if boosted ip then 20 else 0)
     - (if penalised name ip then 50 else 0))%Z.
Proof.
  unfold addressPriority. fold (boosted ip). fold (penalised name ip).
  destruct (boosted ip), (penalised name ip); lia.
Qed.

Lemma patternScore_range (name : string) (patterns : list (string * Z)) :
  Forall (fun entry => (1 <= snd entry <= 100)%Z) patterns ->
  (1 <= patternScore name patterns <= 100)%Z.
Proof.
  induction 1 as [|[pattern score] rest Hs _ IH]; cbn [patternScore]; [lia|].
  destruct (_ || _); [exact Hs | exact IH].
Qed.

Lemma interfacePriority_range (name : string) :
  (1 <= patternScore name interfacePriority <= 100)%Z.
Proof.
  apply patternScore_range. unfold interfacePriority.
  repeat constructor; cbn; lia.
Qed.

(** X29.  When some physical interface (pattern score 55 or more:
    Ethernet or Wi-Fi names) has an eligible address in a private range
    that is not penalised, the address [getPrimaryLocalIP] answers is not a
    penalised one: no address of a container bridge, of the ranges
    172.17 to 172.20, or link-local. *)
Theorem getPrimaryLocalIP_prefers_lan (w : World)
  (interfaces : list (string * list NetAddress)) (st : St)
  (name : string) (addr : NetAddress) :
  eligible interfaces name addr ->
  (55 <= patternScore name interfacePriority)%Z ->
  boosted (na_address addr) = true ->
  penalised name (na_address addr) = false ->
  exists bestName bestAddr st',
    getPrimaryLocalIP interfaces w st = (Val (na_address bestAddr), st') /\
    eligible interfaces bestName bestAddr /\
    penalised bestName (na_address bestAddr) = false /\
    (75 <= addressPriority bestName (na_address bestAddr))%Z.
Proof.
  intros Hel Hscore Hboost Hpen.
  assert (Hmine : (75 <= addressPriority name (na_address addr))%Z).
  { rewrite addressPriority_parts, Hboost, Hpen. lia. }
  unfold getPrimaryLocalIP.
  destruct (sortCandidates (candidatesOf interfaces)) as [|best others] eqn:Hs.
  - assert (Hin : In (candidateFor name addr) (sortCandidates (candidatesOf interfaces))).
    { apply sortCandidates_In, candidatesOf_eligible. now exists name, addr. }
    rewrite Hs in Hin. contradiction.
  - destruct (sortCandidates_head _ _ _ Hs) as (earlier & later & Hl & Hlt & Hle).
    assert (Hbest : In best (candidatesOf interfaces))
      by (rewrite Hl; apply in_or_app; right; now left).
    apply candidatesOf_eligible in Hbest as (bestName & bestAddr & Hbel & ->).
    assert (Hge : (addressPriority name (na_address addr)
                   <= addressPriority bestName (na_address bestAddr))%Z).
    { assert (Hin : In (candidateFor name addr) (candidatesOf interfaces))
        by (apply candidatesOf_eligible; now exists name, addr).
      rewrite Hl in Hin. apply in_app_or in Hin as [Hin|[Hin|Hin]].
      - specialize (Hlt _ Hin). cbn [c_priority candidateFor] in Hlt. lia.
      - apply (f_equal c_priority) in Hin. cbn [c_priority candidateFor] in Hin. lia.
      - specialize (Hle _ Hin). cbn [c_priority candidateFor] in Hle. exact Hle. }
    exists bestName, bestAddr.
    assert (Hrun : exists st',
      (console_log ("Detected primary IP: " ++ showCandidate (candidateFor bestName bestAddr)) ;;
       when (Nat.ltb 1 (length (candidateFor bestName bestAddr :: others)))
         (console_log ("   Other interfaces: "
                       ++ JS.join ", "
                            (map (fun c => Some (showCandidate c)) (firstn 2 others)))) ;;
       ret (c_ip (candidateFor bestName bestAddr))) w st
      = (Val (na_address bestAddr), st')).
    { unfold bind at 1. unfold console_log at 1, emit at 1.
      destruct (Nat.ltb 1 _); unfold when, bind, console_log, emit, ret;
        eexists; reflexivity. }
    destruct Hrun as (st' & Hrun). exists st'. split; [exact Hrun|].
    split; [exact Hbel|]. split; [|lia].
    destruct (penalised bestName (na_address bestAddr)) eqn:Hp; [|reflexivity].
    exfalso. rewrite (addressPriority_parts bestName) in Hge. rewrite Hp in Hge.
    pose proof (interfacePriority_range bestName) as Hr.
    destruct (boosted (na_address bestAddr)); lia.
Qed.

Lemma getPrimaryLocalIP_prefers_lan_witness :
  exists bestName bestAddr st',
    getPrimaryLocalIP sampleInterfaces bareWorld st0 = (Val (na_address bestAddr), st') /\
    eligible sampleInterfaces bestName bestAddr /\
    penalised bestName (na_address bestAddr) = false /\
    (75 <= addressPriority bestName (na_address bestAddr))%Z.
Proof.
  apply (getPrimaryLocalIP_prefers_lan bareWorld sampleInterfaces st0 "eth0"
           {| na_family := "IPv4"; na_internal := false; na_address := "192.168.1.5";
              na_mac := "52:54:00:12:34:56" |}).
  - eexists. split; [right; right; left; reflexivity|].
    split; [right; left; reflexivity|].
    split; [discriminate|]. repeat split.
  - vm_compute. discriminate.
  - reflexivity.
  - reflexivity.
Defined.

Example getPrimaryLocalIP_sample :
  getPrimaryLocalIP sampleInterfaces bareWorld st0 =
    (Val "192.168.1.5",
     {| trace := [EvLog "Detected primary IP: 192.168.1.5 (eth0)";
                  EvLog "   Other interfaces: 172.17.0.1 (docker0)"];
        draws := 0 |}).
Proof. vm_compute. reflexivity. Qed.

Example parseInt_samples :
  parseInt (Some "16") = Some 16%Z /\ parseInt (Some " 31.5") = Some 31%Z /\
  parseInt (Some "0x1f") = Some 31%Z /\ parseInt (Some "-7px") = Some (-7)%Z /\
  parseInt (Some "abc") = None /\ parseInt None = None.
Proof. repeat split. Qed.
